(** * NanoStream: room management and signaling relay

    A shallow embedding of the room registry, the chat log and the
    Socket.io event handlers of [claude-4-5/signaling.js], together with
    the offer handler of the root [server.js], and the properties of the
    coordinator specification checked against them.

    Conventions of the embedding:
    - the three module-level maps [rooms], [socketToRoom] and
      [messageRateLimits] form one [State] value that every operation
      takes and returns;
    - a JavaScript [Map] is a [gmap]; room objects are stored by value, and
      an operation that mutates a room object writes the new room back
      under its key, which is what mutation through the shared reference
      amounts to;
    - [Date.now()] is an argument [now] of the operation that reads it;
    - socket ids, room ids and user names are opaque [string]s, whose only
      falsy value is the empty string; a chat body is a sequence of UTF-16
      code units, the unit on which [trim], [substring] and [replace] work;
    - what a handler sends is returned as a list of [Effect]s, in program
      order. *)

From stdpp Require Import gmap strings list fin_maps pretty.
From Stdlib Require Import ZArith Lia.

Local Open Scope Z_scope.

(** ** Configuration constants *)

Record Config := {
  MAX_VIEWERS_PER_ROOM : nat;
  MAX_MESSAGES_PER_ROOM : nat;
  MESSAGE_RATE_LIMIT : Z  (* ms between messages per user *)
}.

(** The values [signaling.js] is compiled with. *)
Definition source_config : Config :=
  {| MAX_VIEWERS_PER_ROOM := 20;
     MAX_MESSAGES_PER_ROOM := 100;
     MESSAGE_RATE_LIMIT := 500 |}.

(** ** Data model *)

Record Streamer := {
  s_socketId : string;
  s_username : string;
  s_connectedAt : Z
}.

Record Viewer := {
  v_username : string;
  v_connectedAt : Z
}.

(** A JavaScript string, as its UTF-16 code units. *)
Abbreviation jsstring := (list N) (only parsing).

Record Message := {
  m_username : string;
  m_message : jsstring;
  m_timestamp : Z;
  m_id : string
}.

Record Stats := {
  totalViewers : nat;
  peakViewers : nat;
  messagesCount : nat
}.

Record Room := {
  streamer : option Streamer;
  viewers : gmap string Viewer;
  messages : list Message;
  createdAt : Z;
  stats : Stats
}.

Record State := {
  rooms : gmap string Room;
  socketToRoom : gmap string string;
  messageRateLimits : gmap string Z
}.

Definition initial_state : State :=
  {| rooms := ∅; socketToRoom := ∅; messageRateLimits := ∅ |}.

(** Field updates. *)

Definition set_streamer (s : option Streamer) (r : Room) : Room :=
  {| streamer := s; viewers := viewers r; messages := messages r;
     createdAt := createdAt r; stats := stats r |}.

Definition set_viewers (v : gmap string Viewer) (r : Room) : Room :=
  {| streamer := streamer r; viewers := v; messages := messages r;
     createdAt := createdAt r; stats := stats r |}.

Definition set_messages (m : list Message) (r : Room) : Room :=
  {| streamer := streamer r; viewers := viewers r; messages := m;
     createdAt := createdAt r; stats := stats r |}.

Definition set_stats (s : Stats) (r : Room) : Room :=
  {| streamer := streamer r; viewers := viewers r; messages := messages r;
     createdAt := createdAt r; stats := s |}.

Definition set_rooms (m : gmap string Room) (st : State) : State :=
  {| rooms := m; socketToRoom := socketToRoom st;
     messageRateLimits := messageRateLimits st |}.

Definition set_socketToRoom (m : gmap string string) (st : State) : State :=
  {| rooms := rooms st; socketToRoom := m;
     messageRateLimits := messageRateLimits st |}.

Definition set_messageRateLimits (m : gmap string Z) (st : State) : State :=
  {| rooms := rooms st; socketToRoom := socketToRoom st;
     messageRateLimits := m |}.

(** [!room.streamer && room.viewers.size === 0] *)
Definition room_is_empty (r : Room) : bool :=
  bool_decide (streamer r = None) && bool_decide (size (viewers r) = 0%nat).

(** ** Results of the room operations *)

Inductive StreamerResult :=
  | StreamerOk                                      (* success, role 'streamer' *)
  | StreamerErr (error currentStreamer : string).

Inductive ViewerResult :=
  | ViewerOk (viewerCount : nat)                    (* success, role 'viewer' *)
  | ViewerErr (error : string) (waiting : bool).

Inductive MessageResult :=
  | MessageOk (message : Message)
  | MessageErr (error : string).

Inductive Role := RoleStreamer | RoleViewer.

Record UserData := {
  ud_roomId : string;
  ud_role : option Role;
  ud_username : option string;
  ud_viewerCount : nat
}.

(** ** String operations used by [addMessage] *)

(** WhiteSpace and LineTerminator code units, the ones [trim] strips. *)
Definition isWhiteSpace (c : N) : bool :=
  ((9 <=? c) && (c <=? 13) || (c =? 32) || (c =? 160) || (c =? 5760)
   || (8192 <=? c) && (c <=? 8202) || (c =? 8232) || (c =? 8233)
   || (c =? 8239) || (c =? 8287) || (c =? 12288) || (c =? 65279))%N.

Fixpoint trimStart (s : jsstring) : jsstring :=
  match s with
  | c :: s' => if isWhiteSpace c then trimStart s' else s
  | [] => []
  end.

Definition trimEnd (s : jsstring) : jsstring :=
  reverse (trimStart (reverse s)).

Definition trim (s : jsstring) : jsstring := trimEnd (trimStart s).

(** [s.substring(0, n)] *)
Definition substring0 (n : nat) (s : jsstring) : jsstring := take n s.

(** [s.replace(/c/g, by)] for a one-character pattern. *)
Fixpoint replaceAll (c : N) (by_ : jsstring) (s : jsstring) : jsstring :=
  match s with
  | [] => []
  | x :: s' => (if (x =? c)%N then by_ else [x]) ++ replaceAll c by_ s'
  end.

Definition lt_char : N := 60.   (* '<' *)
Definition gt_char : N := 62.   (* '>' *)
Definition amp_lt : jsstring := [38; 108; 116; 59]%N.  (* '&lt;' *)
Definition amp_gt : jsstring := [38; 103; 116; 59]%N.  (* '&gt;' *)

Definition sanitize (message : jsstring) : jsstring :=
  replaceAll gt_char amp_gt
    (replaceAll lt_char amp_lt
       (substring0 500 (trim message))).

(** ** Room operations *)

Section Operations.
Context (cfg : Config).

Definition createRoom (roomId : string) (now : Z) (st : State) : State * Room :=
  let room :=
    {| streamer := None; viewers := ∅; messages := []; createdAt := now;
       stats := {| totalViewers := 0; peakViewers := 0; messagesCount := 0 |} |} in
  (set_rooms (<[roomId := room]> (rooms st)) st, room).

Definition getOrCreateRoom (roomId : string) (now : Z) (st : State) : State * Room :=
  match rooms st !! roomId with
  | None => createRoom roomId now st
  | Some room => (st, room)
  end.

Definition addStreamer (roomId socketId username : string) (now : Z)
    (st : State) : State * StreamerResult :=
  let '(st1, room) := getOrCreateRoom roomId now st in
  match streamer room with
  | Some cur =>
      (st1, StreamerErr "Room already has an active streamer" (s_username cur))
  | None =>
      let room' :=
        set_streamer (Some {| s_socketId := socketId; s_username := username;
                              s_connectedAt := now |}) room in
      let st2 := set_rooms (<[roomId := room']> (rooms st1)) st1 in
      let st3 := set_socketToRoom (<[socketId := roomId]> (socketToRoom st2)) st2 in
      (st3, StreamerOk)
  end.

Definition addViewer (roomId socketId username : string) (now : Z)
    (st : State) : State * ViewerResult :=
  let '(st1, room) := getOrCreateRoom roomId now st in
  match streamer room with
  | None => (st1, ViewerErr "No active stream in this room" true)
  | Some _ =>
      if decide (MAX_VIEWERS_PER_ROOM cfg ≤ size (viewers room))%nat then
        (st1, ViewerErr ("Room is full (max " +:+ pretty (MAX_VIEWERS_PER_ROOM cfg)
                           +:+ " viewers)") false)
      else
        let vs := <[socketId := {| v_username := username; v_connectedAt := now |}]>
                    (viewers room) in
        let room1 := set_viewers vs room in
        let room2 :=
          set_stats {| totalViewers := S (totalViewers (stats room1));
                       peakViewers := Nat.max (peakViewers (stats room1)) (size vs);
                       messagesCount := messagesCount (stats room1) |} room1 in
        let st2 := set_rooms (<[roomId := room2]> (rooms st1)) st1 in
        let st3 := set_socketToRoom (<[socketId := roomId]> (socketToRoom st2)) st2 in
        (st3, ViewerOk (size vs))
  end.

Definition removeUser (socketId : string) (st : State) : State * option UserData :=
  match socketToRoom st !! socketId with
  | None => (st, None)
  | Some roomId =>
    if decide (roomId = "") then (st, None) else     (* !roomId *)
    match rooms st !! roomId with
    | None => (st, None)
    | Some room =>
      let viewer_case :=
        match viewers room !! socketId with
        | Some viewer =>
            (set_viewers (delete socketId (viewers room)) room,
             Some RoleViewer, Some (v_username viewer))
        | None => (room, None, None)
        end in
      let '(room', role, username) :=
        match streamer room with
        | Some s =>
            if decide (s_socketId s = socketId)
            then (set_streamer None room, Some RoleStreamer, Some (s_username s))
            else viewer_case
        | None => viewer_case
        end in
      let st1 := set_rooms (<[roomId := room']> (rooms st)) st in
      let st2 := set_socketToRoom (delete socketId (socketToRoom st1)) st1 in
      let st3 := set_messageRateLimits (delete socketId (messageRateLimits st2)) st2 in
      let st4 :=
        if room_is_empty room'
        then set_rooms (delete roomId (rooms st3)) st3
        else st3 in
      (st4, Some {| ud_roomId := roomId; ud_role := role; ud_username := username;
                    ud_viewerCount := size (viewers room') |})
    end
  end.

Definition addMessage (roomId socketId username : string) (message : jsstring)
    (now : Z) (st : State) : State * MessageResult :=
  match rooms st !! roomId with
  | None => (st, MessageErr "Room not found")
  | Some room =>
    let lastMessageTime := default 0 (messageRateLimits st !! socketId) in
    if decide (now - lastMessageTime < MESSAGE_RATE_LIMIT cfg) then
      (st, MessageErr "Sending messages too quickly")
    else
      let st1 := set_messageRateLimits (<[socketId := now]> (messageRateLimits st)) st in
      let sanitizedMessage := sanitize message in
      match sanitizedMessage with
      | [] => (st1, MessageErr "Empty message")
      | _ :: _ =>
        let messageObj :=
          {| m_username := username; m_message := sanitizedMessage;
             m_timestamp := now; m_id := socketId +:+ "-" +:+ pretty now |} in
        let pushed := messages room ++ [messageObj] in
        let room1 :=
          set_stats {| totalViewers := totalViewers (stats room);
                       peakViewers := peakViewers (stats room);
                       messagesCount := S (messagesCount (stats room)) |}
            (set_messages pushed room) in
        let room2 :=
          if decide (MAX_MESSAGES_PER_ROOM cfg < length pushed)%nat
          then set_messages (tail pushed) room1      (* shift() *)
          else room1 in
        (set_rooms (<[roomId := room2]> (rooms st1)) st1, MessageOk messageObj)
      end
  end.

Definition getViewerCount (roomId : string) (st : State) : nat :=
  match rooms st !! roomId with
  | Some room => size (viewers room)
  | None => 0%nat
  end.

End Operations.

(** ** Socket.io event handlers of [handleConnection] *)

(** Payloads of the outbound events. *)
Inductive Payload :=
  | PError (message : string)
  | PRoleAwaiting (roomId message : string)         (* role 'awaiting-stream' *)
  | PRoleViewer (roomId streamerName : string) (viewerCount : nat)
  | PChatHistory (history : list Message)
  | PViewerJoined (username : string) (viewerCount : nat)
  | PViewerCountUpdate (count : nat)
  | PChatMessage (message : Message)
  | PSystemMessage (username message : string) (timestamp : Z)
  | PStreamStarted (roomId : string)
  | PStreamerReady (streamerName streamerId : string)
  | POffer (offer streamerSocketId : string)
  | PAnswer (answer viewerSocketId : string)
  | PIceCandidate (candidate fromSocketId : string)
  | PViewerReady (viewerSocketId : string)
  | PStreamEnded (message : string)
  | PViewerLeft (username : string) (viewerCount : nat).

(** What a handler does to the transport. [IoTo x] is [io.to(x).emit]:
    [x] is a room id or, since every socket sits in a room named by its
    own id, a socket id. *)
Inductive Effect :=
  | SocketEmit (socketId : string) (p : Payload)        (* socket.emit *)
  | IoTo (target : string) (p : Payload)                (* io.to(target).emit *)
  | SocketTo (socketId roomId : string) (p : Payload)   (* socket.to(roomId).emit *)
  | SocketJoin (socketId roomId : string).              (* socket.join(roomId) *)

(** Inbound events with their payload fields. The relayed SDP and ICE
    payloads are opaque. *)
Inductive Event :=
  | JoinRoom (roomId username : string)
  | StartStream (roomId username : string)
  | Offer (offer targetSocketId : string)
  | Answer (answer targetSocketId : string)
  | IceCandidate (candidate targetSocketId : string)
  | RequestStream (roomId : string)
  | ChatMessage (roomId username : string) (message : jsstring)
  | StopStream (roomId : string)
  | Disconnect.

(** The text sent with the role 'awaiting-stream':
    [You can start streaming by clicking "Go Live"], with Go Live in
    double quotes (character 34). *)
Definition dquote : string := String (Ascii.ascii_of_nat 34) EmptyString.

Definition go_live_message : string :=
  "You can start streaming by clicking " +:+ dquote +:+ "Go Live" +:+ dquote.

Section Handlers.
Context (cfg : Config).

Definition on_join_room (socketId roomId username : string) (now : Z)
    (st : State) : State * list Effect :=
  if decide (roomId = "" ∨ username = "") then
    (st, [SocketEmit socketId (PError "Room ID and username are required")])
  else
    let '(st1, room) := getOrCreateRoom roomId now st in
    match streamer room with
    | None =>
        (st1, [SocketJoin socketId roomId;
               SocketEmit socketId (PRoleAwaiting roomId go_live_message)])
    | Some s =>
        let '(st2, result) := addViewer cfg roomId socketId username now st1 in
        match result with
        | ViewerOk viewerCount =>
            (* [room.streamer] and [room.messages] are read after
               [addViewer], which changes neither of them
               ([addViewer_keeps_streamer_messages]) *)
            (st2,
             [SocketJoin socketId roomId;
              SocketEmit socketId (PRoleViewer roomId (s_username s) viewerCount);
              SocketEmit socketId (PChatHistory (messages room));
              IoTo (s_socketId s) (PViewerJoined username viewerCount);
              IoTo roomId (PViewerCountUpdate viewerCount);
              IoTo roomId
                (PSystemMessage "System" (username +:+ " joined the stream") now)])
        | ViewerErr error _ =>
            (st2, [SocketJoin socketId roomId; SocketEmit socketId (PError error)])
        end
    end.

Definition on_start_stream (socketId roomId username : string) (now : Z)
    (st : State) : State * list Effect :=
  let '(st1, result) := addStreamer roomId socketId username now st in
  match result with
  | StreamerOk =>
      let history :=
        match rooms st1 !! roomId with
        | Some room => messages room
        | None => []
        end in
      (st1, [SocketEmit socketId (PStreamStarted roomId);
             SocketTo socketId roomId (PStreamerReady username socketId);
             SocketEmit socketId (PChatHistory history)])
  | StreamerErr error _ => (st1, [SocketEmit socketId (PError error)])
  end.

Definition on_offer (socketId offer targetSocketId : string)
    (st : State) : State * list Effect :=
  (st, [IoTo targetSocketId (POffer offer socketId)]).

Definition on_answer (socketId answer targetSocketId : string)
    (st : State) : State * list Effect :=
  (st, [IoTo targetSocketId (PAnswer answer socketId)]).

Definition on_ice_candidate (socketId candidate targetSocketId : string)
    (st : State) : State * list Effect :=
  (st, [IoTo targetSocketId (PIceCandidate candidate socketId)]).

Definition on_request_stream (socketId roomId : string)
    (st : State) : State * list Effect :=
  match rooms st !! roomId with
  | Some room =>
      match streamer room with
      | Some s => (st, [IoTo (s_socketId s) (PViewerReady socketId)])
      | None => (st, [])
      end
  | None => (st, [])
  end.

Definition on_chat_message (socketId roomId username : string)
    (message : jsstring) (now : Z) (st : State) : State * list Effect :=
  let '(st1, result) := addMessage cfg roomId socketId username message now st in
  match result with
  | MessageOk m => (st1, [IoTo roomId (PChatMessage m)])
  | MessageErr error => (st1, [SocketEmit socketId (PError error)])
  end.

Definition on_stop_stream (socketId roomId : string)
    (st : State) : State * list Effect :=
  match rooms st !! roomId with
  | Some room =>
      match streamer room with
      | Some s =>
          if decide (s_socketId s = socketId) then
            (* Remove streamer but keep room for viewers *)
            (set_rooms (<[roomId := set_streamer None room]> (rooms st)) st,
             [IoTo roomId (PStreamEnded "The stream has ended")])
          else (st, [])
      | None => (st, [])
      end
  | None => (st, [])
  end.

Definition on_disconnect (socketId : string) (now : Z)
    (st : State) : State * list Effect :=
  let '(st1, userData) := removeUser socketId st in
  match userData with
  | None => (st1, [])
  | Some ud =>
      let roomId := ud_roomId ud in
      match ud_role ud with
      | Some RoleStreamer =>
          (st1,
           [IoTo roomId (PStreamEnded "The streamer has disconnected");
            IoTo roomId
              (PSystemMessage "System"
                 (default "" (ud_username ud) +:+ " (streamer) has left") now)])
      | Some RoleViewer =>
          let to_streamer :=
            match rooms st1 !! roomId with
            | Some room =>
                match streamer room with
                | Some s =>
                    [IoTo (s_socketId s)
                       (PViewerLeft (default "" (ud_username ud)) (ud_viewerCount ud))]
                | None => []
                end
            | None => []
            end in
          (st1,
           to_streamer ++
           [IoTo roomId (PViewerCountUpdate (ud_viewerCount ud));
            IoTo roomId
              (PSystemMessage "System"
                 (default "" (ud_username ud) +:+ " left the stream") now)])
      | None => (st1, [])
      end
  end.

(** One inbound event of connection [socketId], received at time [now]. *)
Definition handle (socketId : string) (now : Z) (e : Event)
    (st : State) : State * list Effect :=
  match e with
  | JoinRoom roomId username => on_join_room socketId roomId username now st
  | StartStream roomId username => on_start_stream socketId roomId username now st
  | Offer offer target => on_offer socketId offer target st
  | Answer answer target => on_answer socketId answer target st
  | IceCandidate candidate target => on_ice_candidate socketId candidate target st
  | RequestStream roomId => on_request_stream socketId roomId st
  | ChatMessage roomId username message =>
      on_chat_message socketId roomId username message now st
  | StopStream roomId => on_stop_stream socketId roomId st
  | Disconnect => on_disconnect socketId now st
  end.

(** A run of the server: the events in arrival order, each with the
    connection that sent it and the clock at its arrival. *)
Fixpoint run (evs : list (string * Z * Event)) (st : State) : State * list Effect :=
  match evs with
  | [] => (st, [])
  | (socketId, now, e) :: evs' =>
      let '(st1, out1) := handle socketId now e st in
      let '(st2, out2) := run evs' st1 in
      (st2, out1 ++ out2)
  end.

Definition reachable (st : State) : Prop :=
  ∃ evs, (run evs initial_state).1 = st.

End Handlers.

(** ** The offer handler of the root [server.js]

    The root server keeps its own [Room] class, with the streamer's socket
    id in [streamerSocketId] ([null] once the stream has ended). Of its
    handlers only [offer] is embedded. *)

Module Server.

Record Viewer := {
  userId : string;
  username : string;
  joinedAt : Z
}.

Record ChatEntry := {
  c_roomId : string;
  c_userId : string;
  c_username : string;
  c_message : jsstring;
  c_timestamp : string
}.

Record Room := {
  roomId : string;
  streamerId : option string;         (* null after endStream() *)
  streamerSocketId : option string;   (* null after endStream() *)
  streamerUsername : string;
  streamTitle : string;
  viewers : gmap string Viewer;
  startedAt : Z;
  chatHistory : list ChatEntry
}.

(** [isStreamer(socketId)]: [this.streamerSocketId === socketId] *)
Definition isStreamer (room : Room) (socketId : string) : bool :=
  bool_decide (streamerSocketId room = Some socketId).

(** [socket.on('offer', ...)] *)
Definition on_offer (rooms : gmap string Room)
    (socketId roomId offer targetSocketId : string) : list Effect :=
  match rooms !! roomId with
  | None => [SocketEmit socketId (PError "Only streamer can send offers")]
  | Some room =>
      if isStreamer room socketId
      then [IoTo targetSocketId (POffer offer socketId)]
      else [SocketEmit socketId (PError "Only streamer can send offers")]
  end.

End Server.

(** * Vocabulary of the properties

    Observations on a state, runs of one operation, named forms of the
    values the operations build, and the example states used below. *)

(** The streamer currently recorded for a room id, if any. *)
Definition occupant (st : State) (roomId : string) : option Streamer :=
  rooms st !! roomId ≫= streamer.

(** The viewer map of a room id; empty when the room is not registered. *)
Definition viewers_of (st : State) (roomId : string) : gmap string Viewer :=
  match rooms st !! roomId with
  | Some room => viewers room
  | None => ∅
  end.

(** Successive claims of the streamer slot of one room, each by a
    connection, under a name, at a time. *)
Fixpoint claimAll (roomId : string) (claims : list (string * string * Z))
    (st : State) : State * list StreamerResult :=
  match claims with
  | [] => (st, [])
  | (socketId, username, now) :: rest =>
      let '(st1, r) := addStreamer roomId socketId username now st in
      let '(st2, rs) := claimAll roomId rest st1 in
      (st2, r :: rs)
  end.

(** Whether a claim was accepted, and how many of a run were. *)
Definition claim_accepted (r : StreamerResult) : bool :=
  match r with StreamerOk => true | StreamerErr _ _ => false end.

Fixpoint count_accepted (rs : list StreamerResult) : nat :=
  match rs with
  | [] => 0
  | r :: rs' => (if claim_accepted r then 1 else 0) + count_accepted rs'
  end.

(** A room "r" in which "alice", on connection "s", is live. *)
Definition live_state : State :=
  (run source_config [("s", 1000, StartStream "r" "alice")] initial_state).1.

(** The streamer slot of that room. *)
Definition alice : Streamer :=
  {| s_socketId := "s"; s_username := "alice"; s_connectedAt := 1000 |}.

(** A room "r" with "alice" live on connection "s" and "bob" watching on
    connection "v". *)
Definition watched_state : State :=
  (run source_config
     [("s", 1000, StartStream "r" "alice"); ("v", 2000, JoinRoom "r" "bob")]
     initial_state).1.

(** "alice" has streamed in room "r" and stopped; "bob" is still recorded
    as a viewer on connection "v". *)
Definition stopped_state : State :=
  (run source_config
     [("s", 1000, StartStream "r" "alice"); ("v", 2000, JoinRoom "r" "bob");
      ("s", 3000, StopStream "r")] initial_state).1.

(** ... and "bob" has then started a stream of his own in "r". *)
Definition takeover_state : State :=
  (run source_config [("v", 4000, StartStream "r" "bob")] stopped_state).1.

(** The error text of a full room. *)
Definition room_full_error (cfg : Config) : string :=
  "Room is full (max " +:+ pretty (MAX_VIEWERS_PER_ROOM cfg) +:+ " viewers)".

(** The room as [addViewer] leaves it on success. *)
Definition with_viewer (socketId username : string) (now : Z) (room : Room) : Room :=
  let vs := <[socketId := {| v_username := username; v_connectedAt := now |}]>
              (viewers room) in
  {| streamer := streamer room; viewers := vs; messages := messages room;
     createdAt := createdAt room;
     stats := {| totalViewers := S (totalViewers (stats room));
                 peakViewers := Nat.max (peakViewers (stats room)) (size vs);
                 messagesCount := messagesCount (stats room) |} |}.

(** A connection is a member of a room when it is its streamer or one of
    its viewers. *)
Definition member (st : State) (socketId roomId : string) : Prop :=
  s_socketId <$> occupant st roomId = Some socketId ∨
  is_Some (viewers_of st roomId !! socketId).

(** The reverse map holds exactly the memberships. *)
Definition reverse_map_exact (st : State) : Prop :=
  ∀ socketId roomId,
    socketToRoom st !! socketId = Some roomId ↔ member st socketId roomId.

(** "alice" has started a stream in room "r" and stopped it, with nobody
    watching. *)
Definition idle_state : State :=
  (run source_config
     [("s", 1000, StartStream "r" "alice"); ("s", 2000, StopStream "r")]
     initial_state).1.

(** Successive [addViewer] calls on one room. *)
Fixpoint addViewers (cfg : Config) (roomId : string)
    (joins : list (string * string * Z)) (st : State) : State * list ViewerResult :=
  match joins with
  | [] => (st, [])
  | (socketId, username, now) :: rest =>
      let '(st1, r) := addViewer cfg roomId socketId username now st in
      let '(st2, rs) := addViewers cfg roomId rest st1 in
      (st2, r :: rs)
  end.

(** A configuration with room for two viewers. *)
Definition two_viewers_config : Config :=
  {| MAX_VIEWERS_PER_ROOM := 2; MAX_MESSAGES_PER_ROOM := 100;
     MESSAGE_RATE_LIMIT := 500 |}.

(** The room "r" of [live_state]. *)
Definition live_room : Room :=
  {| streamer := Some alice; viewers := ∅; messages := []; createdAt := 1000;
     stats := {| totalViewers := 0; peakViewers := 0; messagesCount := 0 |} |}.

(** The code units of an ASCII text. *)
Definition js (s : string) : jsstring :=
  Ascii.N_of_ascii <$> String.list_ascii_of_string s.

(** The time recorded for a connection in [messageRateLimits], or 0. *)
Definition lastMessageTime (st : State) (socketId : string) : Z :=
  default 0 (messageRateLimits st !! socketId).

(** The message object [addMessage] builds. *)
Definition messageObj (socketId username : string) (message : jsstring) (now : Z)
    : Message :=
  {| m_username := username; m_message := sanitize message; m_timestamp := now;
     m_id := socketId +:+ "-" +:+ pretty now |}.

(** The room as [addMessage] leaves it once it has stored [m]. *)
Definition with_message (cfg : Config) (m : Message) (room : Room) : Room :=
  let pushed := messages room ++ [m] in
  {| streamer := streamer room; viewers := viewers room;
     messages := if decide (MAX_MESSAGES_PER_ROOM cfg < length pushed)%nat
                 then tail pushed else pushed;
     createdAt := createdAt room;
     stats := {| totalViewers := totalViewers (stats room);
                 peakViewers := peakViewers (stats room);
                 messagesCount := S (messagesCount (stats room)) |} |}.

(** What the two [replace] calls do to one code unit. *)
Definition escape (c : N) : jsstring :=
  if (c =? lt_char)%N then amp_lt else if (c =? gt_char)%N then amp_gt else [c].

(** The two code units that are escaped. *)
Definition is_markup (c : N) : bool := (c =? lt_char)%N || (c =? gt_char)%N.

(** Every registered room holds at most [MAX_MESSAGES_PER_ROOM] messages. *)
Definition log_bounded (cfg : Config) (st : State) : Prop :=
  map_Forall (λ _ room, (length (messages room) ≤ MAX_MESSAGES_PER_ROOM cfg)%nat)
    (rooms st).

(** The last [n] elements of a list, in order. *)
Definition lastn {A} (n : nat) (l : list A) : list A := drop (length l - n) l.

(** Successive appends to one room, each by a connection, under a name,
    with a body, at a time. *)
Fixpoint addMessages (cfg : Config) (roomId : string)
    (posts : list (string * string * jsstring * Z)) (st : State)
    : State * list MessageResult :=
  match posts with
  | [] => (st, [])
  | (socketId, username, message, now) :: rest =>
      let '(st1, r) := addMessage cfg roomId socketId username message now st in
      let '(st2, rs) := addMessages cfg roomId rest st1 in
      (st2, r :: rs)
  end.

(** Whether an append was accepted. *)
Definition message_accepted (r : MessageResult) : bool :=
  match r with MessageOk _ => true | MessageErr _ => false end.

(** The message stored for an accepted post. *)
Definition post_message (p : string * string * jsstring * Z) : Message :=
  let '(socketId, username, message, now) := p in
  messageObj socketId username message now.

(** The chat history a handler has sent, if it has sent one. *)
Fixpoint history_sent (out : list Effect) : option (list Message) :=
  match out with
  | [] => None
  | SocketEmit _ (PChatHistory h) :: _ => Some h
  | _ :: out' => history_sent out'
  end.

(** One post by "alice" per second, starting at [first] seconds. *)
Definition posts_from (first count : nat) : list (string * string * jsstring * Z) :=
  (λ i : nat, ("s", "alice", js "hello", 1000 * Z.of_nat i)) <$> seq first count.

(** The live room "r" after 60 chat messages. *)
Definition busy_state : State :=
  (addMessages source_config "r" (posts_from 2 60) live_state).1.

(** The live room "r" after 150 chat messages. *)
Definition crowded_state : State :=
  (addMessages source_config "r" (posts_from 2 150) live_state).1.

(** An event that cannot bind connection [socketId]: it comes from another
    connection, or it is neither [join-room] nor [start-stream]. *)
Definition keeps_unbound (socketId : string) (ev : string * Z * Event) : bool :=
  let '(sender, _, e) := ev in
  bool_decide (sender ≠ socketId) ||
  match e with
  | JoinRoom _ _ | StartStream _ _ => false
  | _ => true
  end.

(** * Further functions

    The read-only functions of [signaling.js], the HTTP routes of
    [claude-4-5/server.js] that call them, and the [Room] class and the
    synchronous handlers of the root [server.js]. *)

(** ** [getRoomInfo] and [getServerStats] of [signaling.js] *)

Record RoomInfo := {
  ri_roomId : string;
  ri_hasStreamer : bool;
  ri_streamerName : option string;      (* null without a streamer *)
  ri_viewerCount : nat;
  ri_createdAt : Z;
  ri_stats : Stats
}.

Definition getRoomInfo (roomId : string) (st : State) : option RoomInfo :=
  match rooms st !! roomId with
  | None => None
  | Some room =>
      Some {| ri_roomId := roomId;
              ri_hasStreamer := bool_decide (is_Some (streamer room));
              ri_streamerName := s_username <$> streamer room;
              ri_viewerCount := size (viewers room);
              ri_createdAt := createdAt room;
              ri_stats := stats room |}
  end.

Record ServerStats := {
  activeRooms : nat;
  ss_totalViewers : nat;
  ss_totalMessages : nat
}.

(** [rooms.forEach] adds up two counters; the sums do not depend on the
    order in which the rooms are visited. *)
Definition getServerStats (st : State) : ServerStats :=
  {| activeRooms := size (rooms st);
     ss_totalViewers :=
       map_fold (λ _ room total, (total + size (viewers room))%nat) 0%nat (rooms st);
     ss_totalMessages :=
       map_fold (λ _ room total, (total + messagesCount (stats room))%nat) 0%nat
         (rooms st) |}.

(** ** The route [/api/room/:roomId] of [claude-4-5/server.js] *)

Inductive HttpResponse :=
  | Http200 (roomInfo : RoomInfo)
  | Http404 (error : string).

Definition api_room (roomId : string) (st : State) : HttpResponse :=
  match getRoomInfo roomId st with
  | Some roomInfo => Http200 roomInfo
  | None => Http404 "Room not found"
  end.

(** ** Vocabulary of the further properties *)

(** The three relay events and [request-stream]. *)
Definition is_relay (e : Event) : bool :=
  match e with
  | Offer _ _ | Answer _ _ | IceCandidate _ _ | RequestStream _ => true
  | _ => false
  end.

(** The viewer map of a room respects the cap, and its counters and its
    contents agree. *)
Definition room_consistent (cfg : Config) (room : Room) : Prop :=
  (size (viewers room) ≤ MAX_VIEWERS_PER_ROOM cfg)%nat ∧
  (size (viewers room) ≤ peakViewers (stats room))%nat ∧
  (peakViewers (stats room) ≤ totalViewers (stats room))%nat ∧
  (peakViewers (stats room) ≤ MAX_VIEWERS_PER_ROOM cfg)%nat ∧
  (length (messages room) ≤ messagesCount (stats room))%nat.

(** The state [removeUser] leaves when it has found the room [roomId] of
    [socketId] and turned it into [room']. *)
Definition after_removal (socketId roomId : string) (room' : Room) (st : State)
    : State :=
  {| rooms := if room_is_empty room' then delete roomId (rooms st)
              else <[roomId := room']> (rooms st);
     socketToRoom := delete socketId (socketToRoom st);
     messageRateLimits := delete socketId (messageRateLimits st) |}.

(** The live room "r" with its two viewer places taken, under
    [two_viewers_config]. *)
Definition full_state : State :=
  (run two_viewers_config
     [("s", 1000, StartStream "r" "alice"); ("a", 2000, JoinRoom "r" "ann");
      ("b", 3000, JoinRoom "r" "bob")] initial_state).1.

(** ** The [Room] class and the chat handler of the root [server.js]

    The root server keeps its rooms in a map from room ids to objects of
    the class [Room]; [Server.Room] is the record of its fields. The
    authenticated user of a socket is held in [socket.userId] and
    [socket.username]. The chat handler awaits only its last statement,
    the request that saves the message, which is listed as its last
    effect. *)

Module RootServer.

(** [new Room(roomId, streamerId, streamerSocketId, streamerUsername,
    streamTitle)], created at time [now]; an empty title is falsy. *)
Definition newRoom (roomId streamerId streamerSocketId streamerUsername
    streamTitle : string) (now : Z) : Server.Room :=
  {| Server.roomId := roomId;
     Server.streamerId := Some streamerId;
     Server.streamerSocketId := Some streamerSocketId;
     Server.streamerUsername := streamerUsername;
     Server.streamTitle :=
       if decide (streamTitle = "") then "Untitled Stream" else streamTitle;
     Server.viewers := ∅;
     Server.startedAt := now;
     Server.chatHistory := [] |}.

Definition set_viewers (vs : gmap string Server.Viewer) (room : Server.Room)
    : Server.Room :=
  {| Server.roomId := Server.roomId room;
     Server.streamerId := Server.streamerId room;
     Server.streamerSocketId := Server.streamerSocketId room;
     Server.streamerUsername := Server.streamerUsername room;
     Server.streamTitle := Server.streamTitle room;
     Server.viewers := vs;
     Server.startedAt := Server.startedAt room;
     Server.chatHistory := Server.chatHistory room |}.

Definition set_chatHistory (h : list Server.ChatEntry) (room : Server.Room)
    : Server.Room :=
  {| Server.roomId := Server.roomId room;
     Server.streamerId := Server.streamerId room;
     Server.streamerSocketId := Server.streamerSocketId room;
     Server.streamerUsername := Server.streamerUsername room;
     Server.streamTitle := Server.streamTitle room;
     Server.viewers := Server.viewers room;
     Server.startedAt := Server.startedAt room;
     Server.chatHistory := h |}.

Definition addViewer (socketId userId username : string) (now : Z)
    (room : Server.Room) : Server.Room :=
  set_viewers
    (<[socketId := {| Server.userId := userId; Server.username := username;
                      Server.joinedAt := now |}]> (Server.viewers room)) room.

Definition removeViewer (socketId : string) (room : Server.Room) : Server.Room :=
  set_viewers (delete socketId (Server.viewers room)) room.

Definition getViewerCount (room : Server.Room) : nat := size (Server.viewers room).

(** [this.streamerSocketId !== null] *)
Definition hasStreamer (room : Server.Room) : bool :=
  bool_decide (Server.streamerSocketId room ≠ None).

Definition endStream (room : Server.Room) : Server.Room :=
  {| Server.roomId := Server.roomId room;
     Server.streamerId := None;
     Server.streamerSocketId := None;
     Server.streamerUsername := Server.streamerUsername room;
     Server.streamTitle := Server.streamTitle room;
     Server.viewers := Server.viewers room;
     Server.startedAt := Server.startedAt room;
     Server.chatHistory := Server.chatHistory room |}.

(** What the chat handler does to the transport and to the store. *)
Inductive ChatEffect :=
  | EmitError (socketId message : string)                 (* socket.emit('error') *)
  | BroadcastChat (roomId : string) (chatMessage : Server.ChatEntry)
                                               (* io.to(roomId).emit('chat-message') *)
  | SaveChat (chatMessage : Server.ChatEntry).  (* makePhpRequest('saveChatMessage') *)

(** [socket.on('chat-message', ...)] of a socket with the given id and
    user; [timestamp] is what [new Date().toISOString()] returns. *)
Definition on_chat_message (socketId userId username roomId : string)
    (message : jsstring) (timestamp : string) (rooms : gmap string Server.Room)
    : gmap string Server.Room * list ChatEffect :=
  match rooms !! roomId with
  | None => (rooms, [EmitError socketId "Room not found"])
  | Some room =>
      if bool_decide (message = []) || bool_decide (length (trim message) = 0%nat)
      then (rooms, [])
      else
        let chatMessage :=
          {| Server.c_roomId := roomId; Server.c_userId := userId;
             Server.c_username := username; Server.c_message := trim message;
             Server.c_timestamp := timestamp |} in
        let pushed := Server.chatHistory room ++ [chatMessage] in
        let history := if decide (100 < length pushed)%nat then tail pushed
                       else pushed in
        (<[roomId := set_chatHistory history room]> rooms,
         [BroadcastChat roomId chatMessage; SaveChat chatMessage])
  end.

End RootServer.

(** A registry of the root server with one room "r", streamed by "alice"
    on socket "s". *)
Definition root_rooms : gmap string Server.Room :=
  {[ "r" := RootServer.newRoom "r" "u1" "s" "alice" "Live" 1000 ]}.

(** * Properties *)

Lemma occupant_Some st roomId cur :
  occupant st roomId = Some cur ↔
  ∃ room, rooms st !! roomId = Some room ∧ streamer room = Some cur.
Proof.
  unfold occupant. destruct (rooms st !! roomId) as [room|]; simpl; split.
  - eauto.
  - by intros (? & [= <-] & ?).
  - done.
  - by intros (? & ? & ?).
Qed.

Lemma occupant_None st roomId :
  occupant st roomId = None ↔
  rooms st !! roomId = None ∨
  ∃ room, rooms st !! roomId = Some room ∧ streamer room = None.
Proof.
  unfold occupant. destruct (rooms st !! roomId) as [room|]; simpl; split; eauto.
  - by intros [|(? & [= <-] & ?)].
Qed.

(** *** addStreamer *)

Lemma addStreamer_occupied roomId socketId username now st cur :
  occupant st roomId = Some cur →
  addStreamer roomId socketId username now st =
    (st, StreamerErr "Room already has an active streamer" (s_username cur)).
Proof.
  intros (room & Hroom & Hcur)%occupant_Some.
  unfold addStreamer, getOrCreateRoom. by rewrite Hroom, Hcur.
Qed.

Lemma addStreamer_free roomId socketId username now st :
  occupant st roomId = None →
  ∃ st', addStreamer roomId socketId username now st = (st', StreamerOk) ∧
    occupant st' roomId =
      Some {| s_socketId := socketId; s_username := username; s_connectedAt := now |} ∧
    viewers_of st' roomId = viewers_of st roomId ∧
    socketToRoom st' = <[socketId := roomId]> (socketToRoom st) ∧
    messageRateLimits st' = messageRateLimits st ∧
    (∀ other, other ≠ roomId → rooms st' !! other = rooms st !! other).
Proof.
  intros Hfree. unfold addStreamer, getOrCreateRoom, createRoom, occupant, viewers_of in *.
  destruct (rooms st !! roomId) as [room|] eqn:Hroom; simpl in *.
  - rewrite Hfree. eexists; split; [done|]. simpl.
    rewrite lookup_insert_eq. simpl. repeat split; try done.
    intros other Hne. by rewrite lookup_insert_ne.
  - eexists; split; [done|]. simpl.
    rewrite lookup_insert_eq. simpl. repeat split; try done.
    intros other Hne. by rewrite !lookup_insert_ne.
Qed.

Lemma claimAll_occupied roomId claims st cur :
  occupant st roomId = Some cur →
  claimAll roomId claims st =
    (st, replicate (length claims)
           (StreamerErr "Room already has an active streamer" (s_username cur))).
Proof.
  intros Hocc. induction claims as [|[[socketId username] now] rest IH]; [done|].
  simpl. rewrite (addStreamer_occupied _ _ _ _ _ _ Hocc), IH. done.
Qed.

Lemma count_accepted_replicate_err n error name :
  count_accepted (replicate n (StreamerErr error name)) = 0%nat.
Proof. induction n; simpl; auto. Qed.

Lemma on_stop_stream_by_streamer socketId roomId st cur :
  occupant st roomId = Some cur → s_socketId cur = socketId →
  ∃ room,
    rooms st !! roomId = Some room ∧
    on_stop_stream socketId roomId st =
      (set_rooms (<[roomId := set_streamer None room]> (rooms st)) st,
       [IoTo roomId (PStreamEnded "The stream has ended")]).
Proof.
  intros (room & Hroom & Hcur)%occupant_Some Hid. exists room. split; [done|].
  unfold on_stop_stream. rewrite Hroom, Hcur. by rewrite decide_True.
Qed.

Lemma removeUser_streamer socketId roomId st cur :
  socketToRoom st !! socketId = Some roomId → roomId ≠ "" →
  occupant st roomId = Some cur → s_socketId cur = socketId →
  ∃ st', removeUser socketId st =
           (st', Some {| ud_roomId := roomId; ud_role := Some RoleStreamer;
                         ud_username := Some (s_username cur);
                         ud_viewerCount := size (viewers_of st roomId) |}) ∧
         occupant st' roomId = None ∧
         socketToRoom st' = delete socketId (socketToRoom st).
Proof.
  intros Hmap Hne (room & Hroom & Hcur)%occupant_Some Hid.
  unfold removeUser, viewers_of. rewrite Hmap, decide_False, Hroom, Hcur by done.
  rewrite decide_True by done. eexists; split; [reflexivity|].
  unfold occupant. destruct (room_is_empty _); simpl.
  - by rewrite lookup_delete_eq.
  - by rewrite lookup_insert_eq.
Qed.

(** C2. While the streamer slot of a room is occupied, every further
    [addStreamer] on it is rejected with the error "Room already has an
    active streamer" and the current streamer's user name, and leaves the
    state as it was; so of any sequence of claims on one room at most one
    succeeds. Once the slot is cleared, by [stop-stream] or by the
    streamer's disconnect, the next claim succeeds. *)
Theorem C2_at_most_one_streamer (roomId : string)
    (claims : list (string * string * Z)) (st : State) :
  (count_accepted (claimAll roomId claims st).2 ≤ 1)%nat ∧
  (∀ cur, occupant st roomId = Some cur →
     claimAll roomId claims st =
       (st, replicate (length claims)
              (StreamerErr "Room already has an active streamer" (s_username cur)))) ∧
  (∀ cur socketId username now, occupant st roomId = Some cur →
     (addStreamer roomId socketId username now
        (on_stop_stream (s_socketId cur) roomId st).1).2 = StreamerOk) ∧
  (∀ cur socketId username now now', occupant st roomId = Some cur →
     socketToRoom st !! s_socketId cur = Some roomId → roomId ≠ "" →
     (addStreamer roomId socketId username now
        (on_disconnect (s_socketId cur) now' st).1).2 = StreamerOk).
Proof.
  split; [|split; [|split]].
  - destruct claims as [|[[socketId username] now] rest]; [simpl; lia|].
    simpl. destruct (occupant st roomId) as [cur|] eqn:Hocc.
    + rewrite (addStreamer_occupied _ _ _ _ _ _ Hocc).
      rewrite (claimAll_occupied _ _ _ _ Hocc). simpl.
      rewrite count_accepted_replicate_err. lia.
    + destruct (addStreamer_free roomId socketId username now st Hocc)
        as (st' & -> & Hocc' & _).
      rewrite (claimAll_occupied _ _ _ _ Hocc'). simpl.
      rewrite count_accepted_replicate_err. lia.
  - intros cur Hocc. by apply claimAll_occupied.
  - intros cur socketId username now Hocc.
    destruct (on_stop_stream_by_streamer _ _ _ _ Hocc eq_refl) as (room & Hroom & ->).
    simpl.
    edestruct (addStreamer_free roomId socketId username now) as (st' & -> & _); [|done].
    unfold occupant. simpl. by rewrite lookup_insert_eq.
  - intros cur socketId username now now' Hocc Hmap Hne.
    destruct (removeUser_streamer _ _ _ _ Hmap Hne Hocc eq_refl) as (st' & Hrm & Hocc' & _).
    unfold on_disconnect. rewrite Hrm. simpl.
    by destruct (addStreamer_free roomId socketId username now st' Hocc') as (? & -> & _).
Qed.

Lemma live_state_occupant : occupant live_state "r" = Some alice.
Proof. reflexivity. Qed.

Lemma C2_at_most_one_streamer_witness :
  occupant live_state "r" = Some alice ∧
  claimAll "r" [("a", "ann", 2000); ("b", "bob", 3000)] live_state =
    (live_state,
     replicate 2 (StreamerErr "Room already has an active streamer" "alice")) ∧
  (addStreamer "r" "a" "ann" 3000 (on_stop_stream "s" "r" live_state).1).2 = StreamerOk ∧
  (addStreamer "r" "a" "ann" 3000 (on_disconnect "s" 2000 live_state).1).2 = StreamerOk.
Proof.
  pose proof (C2_at_most_one_streamer "r" [("a", "ann", 2000); ("b", "bob", 3000)]
                live_state) as (_ & Hrej & Hstop & Hdisc).
  split; [reflexivity|]. split; [|split].
  - exact (Hrej alice eq_refl).
  - exact (Hstop alice "a" "ann" 3000 eq_refl).
  - refine (Hdisc alice "a" "ann" 3000 2000 eq_refl _ _); [reflexivity|discriminate].
Defined.

(** *** Offer relay *)

(** The [offer] handler of [signaling.js] consults no room: whoever the
    sender is, the offer goes to the named target and the state is as
    before. *)
Lemma on_offer_unconditional socketId offer targetSocketId st :
  on_offer socketId offer targetSocketId st =
    (st, [IoTo targetSocketId (POffer offer socketId)]).
Proof. reflexivity. Qed.

(** The [offer] handler of the root [server.js] does check the role: the
    offer reaches the target when the sender is the streamer of the named
    room, and otherwise the sender alone gets an error. *)
Lemma server_offer_authorized (rooms : gmap string Server.Room)
    (socketId roomId offer targetSocketId : string) :
  (∃ room, rooms !! roomId = Some room ∧
           Server.streamerSocketId room = Some socketId) ∧
    Server.on_offer rooms socketId roomId offer targetSocketId =
      [IoTo targetSocketId (POffer offer socketId)]
  ∨
  ¬ (∃ room, rooms !! roomId = Some room ∧
             Server.streamerSocketId room = Some socketId) ∧
    Server.on_offer rooms socketId roomId offer targetSocketId =
      [SocketEmit socketId (PError "Only streamer can send offers")].
Proof.
  unfold Server.on_offer, Server.isStreamer.
  destruct (rooms !! roomId) as [room|] eqn:Hroom.
  - case_bool_decide as Hs.
    + left. eauto.
    + right. split; [|done]. by intros (? & [= <-] & ?).
  - right. split; [|done]. by intros (? & ? & ?).
Qed.

(** C1 (as the code behaves). In [signaling.js] a viewer's offer is relayed:
    with "alice" the streamer of room "r" and "bob" a viewer on connection
    "v", an [offer] event from "v" is forwarded to its target, and "v"
    gets no error. *)
Theorem C1_viewer_offer_is_relayed :
  occupant watched_state "r" = Some alice ∧
  is_Some (viewers_of watched_state "r" !! "v") ∧
  handle source_config "v" 3000 (Offer "sdp" "w") watched_state =
    (watched_state, [IoTo "w" (POffer "sdp" "v")]).
Proof. repeat split. by eexists. Qed.

(** *** Removal of empty rooms *)

Lemma room_is_empty_true room :
  room_is_empty room = true ↔ streamer room = None ∧ viewers room = ∅.
Proof.
  unfold room_is_empty. rewrite andb_true_iff, !bool_decide_eq_true.
  by rewrite map_size_empty_iff.
Qed.

(** What [removeUser] leaves of the room it has found: if the room is
    empty it is no longer registered, otherwise it is registered as
    modified. *)
Lemma removeUser_found socketId st st' ud :
  removeUser socketId st = (st', Some ud) →
  socketToRoom st !! socketId = Some (ud_roomId ud) ∧
  ud_roomId ud ≠ "" ∧
  is_Some (rooms st !! ud_roomId ud) ∧
  (∀ room, rooms st' !! ud_roomId ud = Some room → room_is_empty room = false) ∧
  socketToRoom st' = delete socketId (socketToRoom st) ∧
  messageRateLimits st' = delete socketId (messageRateLimits st) ∧
  (∀ other, other ≠ ud_roomId ud → rooms st' !! other = rooms st !! other).
Proof.
  unfold removeUser.
  destruct (socketToRoom st !! socketId) as [roomId|] eqn:Hmap; [|done].
  case_decide as Hne; [done|].
  destruct (rooms st !! roomId) as [room|] eqn:Hroom; [|done].
  set (viewer_case := match viewers room !! socketId with
                      | Some viewer => _ | None => _ end).
  set (choice := match streamer room with Some s => _ | None => _ end).
  destruct choice as [[room' role] username].
  destruct (room_is_empty room') eqn:Hempty; intros [= <- <-]; simpl;
    (repeat split; [done|by eexists|..]).
  - intros r. by rewrite lookup_delete_eq.
  - intros other Hother. by rewrite lookup_delete_ne, lookup_insert_ne.
  - intros r. rewrite lookup_insert_eq. by intros [= <-].
  - intros other Hother. by rewrite lookup_insert_ne.
Qed.

Lemma on_disconnect_state socketId now st :
  (on_disconnect socketId now st).1 = (removeUser socketId st).1.
Proof.
  unfold on_disconnect. destruct (removeUser socketId st) as [st1 [ud|]]; [|done].
  destruct (ud_role ud) as [[]|]; done.
Qed.

Lemma on_stop_stream_dom socketId roomId st :
  dom (rooms (on_stop_stream socketId roomId st).1) = dom (rooms st).
Proof.
  unfold on_stop_stream.
  destruct (rooms st !! roomId) as [room|] eqn:Hroom; [|done].
  destruct (streamer room) as [s|]; [|done].
  case_decide; [|done]. simpl. by apply dom_insert_lookup_L.
Qed.

(** C3, counterexample. "alice" starts a stream in room "r" and stops it
    while nobody watches: when the [stop-stream] handler has run, room "r"
    is still registered, with no streamer and no viewer. *)
Lemma C3_counterexample :
  ∃ room,
    rooms (run source_config
             [("s", 1000, StartStream "r" "alice"); ("s", 2000, StopStream "r")]
             initial_state).1 !! "r" = Some room ∧
    streamer room = None ∧ viewers room = ∅.
Proof. eexists. split; [reflexivity|]. split; reflexivity. Qed.

(** C3, amended. When the disconnect cleanup [removeUser] finds the room of
    the leaving connection, that room is not registered afterwards unless it
    still has a streamer or a viewer: it is deleted in the same step when
    it has become empty. The [stop-stream] handler clears the streamer slot
    only: it removes no room from the registry. *)
Theorem C3_empty_room_removed_on_disconnect (socketId : string) (now : Z)
    (st st' : State) (ud : UserData) :
  removeUser socketId st = (st', Some ud) →
  (on_disconnect socketId now st).1 = st' ∧
  (∀ room, rooms st' !! ud_roomId ud = Some room →
     is_Some (streamer room) ∨ viewers room ≠ ∅) ∧
  (∀ roomId, dom (rooms (on_stop_stream socketId roomId st).1) = dom (rooms st)).
Proof.
  intros Hrm. split; [|split].
  - by rewrite on_disconnect_state, Hrm.
  - intros room Hroom.
    apply removeUser_found in Hrm as (_ & _ & _ & Hne & _).
    specialize (Hne room Hroom).
    destruct (streamer room) as [s|] eqn:Hs; [left; by eexists|right].
    intros Hv. assert (room_is_empty room = true) as Hem
      by (by apply room_is_empty_true). congruence.
  - intros roomId. apply on_stop_stream_dom.
Qed.

Lemma C3_empty_room_removed_on_disconnect_witness :
  removeUser "s" live_state =
    (initial_state,
     Some {| ud_roomId := "r"; ud_role := Some RoleStreamer;
             ud_username := Some "alice"; ud_viewerCount := 0 |}) ∧
  (on_disconnect "s" 2000 live_state).1 = initial_state ∧
  (∀ room, rooms initial_state !! "r" = Some room →
     is_Some (streamer room) ∨ viewers room ≠ ∅) ∧
  (∀ roomId, dom (rooms (on_stop_stream "s" roomId live_state).1) = dom (rooms live_state)).
Proof.
  assert (removeUser "s" live_state =
    (initial_state,
     Some {| ud_roomId := "r"; ud_role := Some RoleStreamer;
             ud_username := Some "alice"; ud_viewerCount := 0 |})) as Hrm
    by (vm_compute; reflexivity).
  split; [exact Hrm|].
  exact (C3_empty_room_removed_on_disconnect "s" 2000 live_state initial_state _ Hrm).
Defined.

(** *** Streamer and viewers of one room *)

(** C4, counterexample. "alice" streams in room "r", "bob" joins as a
    viewer on connection "v", "alice" stops, and "bob" then starts a stream
    in "r" from the same connection: connection "v" is now the streamer of
    "r" and still an entry of its viewer map. *)
Lemma C4_counterexample :
  reachable source_config takeover_state ∧
  s_socketId <$> occupant takeover_state "r" = Some "v" ∧
  v_username <$> viewers_of takeover_state "r" !! "v" = Some "bob".
Proof.
  split; [|split; reflexivity].
  by exists [("s", 1000, StartStream "r" "alice"); ("v", 2000, JoinRoom "r" "bob");
             ("s", 3000, StopStream "r"); ("v", 4000, StartStream "r" "bob")].
Qed.

(** C4, amended. A successful [addStreamer] fills the streamer slot with
    the claiming connection and leaves the viewer map of the room as it
    was: nothing is evicted, so the new streamer is an entry of the viewer
    map afterwards exactly when it was one before. *)
Theorem C4_claim_keeps_viewers (roomId socketId username : string) (now : Z)
    (st st' : State) :
  addStreamer roomId socketId username now st = (st', StreamerOk) →
  occupant st' roomId =
    Some {| s_socketId := socketId; s_username := username; s_connectedAt := now |} ∧
  viewers_of st' roomId = viewers_of st roomId ∧
  (is_Some (viewers_of st' roomId !! socketId) ↔
   is_Some (viewers_of st roomId !! socketId)).
Proof.
  intros Hadd. destruct (occupant st roomId) as [cur|] eqn:Hocc.
  - rewrite (addStreamer_occupied _ _ _ _ _ _ Hocc) in Hadd. discriminate.
  - destruct (addStreamer_free roomId socketId username now st Hocc)
      as (st'' & Hadd' & Hocc' & Hv & _).
    rewrite Hadd' in Hadd. injection Hadd as <-.
    split; [done|]. split; [done|]. by rewrite Hv.
Qed.

Lemma C4_claim_keeps_viewers_witness :
  addStreamer "r" "v" "bob" 4000 stopped_state = (takeover_state, StreamerOk) ∧
  occupant takeover_state "r" =
    Some {| s_socketId := "v"; s_username := "bob"; s_connectedAt := 4000 |} ∧
  viewers_of takeover_state "r" = viewers_of stopped_state "r" ∧
  (is_Some (viewers_of takeover_state "r" !! "v") ↔
   is_Some (viewers_of stopped_state "r" !! "v")).
Proof.
  assert (addStreamer "r" "v" "bob" 4000 stopped_state = (takeover_state, StreamerOk))
    as Hadd by (vm_compute; reflexivity).
  split; [exact Hadd|].
  exact (C4_claim_keeps_viewers "r" "v" "bob" 4000 stopped_state takeover_state Hadd).
Defined.

(** *** addViewer *)

Lemma addViewer_no_stream cfg roomId socketId username now st :
  occupant st roomId = None →
  addViewer cfg roomId socketId username now st =
    ((getOrCreateRoom roomId now st).1, ViewerErr "No active stream in this room" true).
Proof.
  intros Hocc. unfold addViewer, getOrCreateRoom, createRoom, occupant in *.
  destruct (rooms st !! roomId) as [room|]; simpl in *; [by rewrite Hocc|done].
Qed.

Lemma addViewer_full cfg roomId socketId username now st room :
  rooms st !! roomId = Some room → is_Some (streamer room) →
  (MAX_VIEWERS_PER_ROOM cfg ≤ size (viewers room))%nat →
  addViewer cfg roomId socketId username now st =
    (st, ViewerErr (room_full_error cfg) false).
Proof.
  intros Hroom [cur Hcur] Hfull. unfold addViewer, getOrCreateRoom.
  rewrite Hroom, Hcur. by rewrite decide_True.
Qed.

Lemma addViewer_ok cfg roomId socketId username now st room :
  rooms st !! roomId = Some room → is_Some (streamer room) →
  (size (viewers room) < MAX_VIEWERS_PER_ROOM cfg)%nat →
  addViewer cfg roomId socketId username now st =
    (set_socketToRoom (<[socketId := roomId]> (socketToRoom st))
       (set_rooms (<[roomId := with_viewer socketId username now room]> (rooms st)) st),
     ViewerOk (size (viewers (with_viewer socketId username now room)))).
Proof.
  intros Hroom [cur Hcur] Hfree. unfold addViewer, getOrCreateRoom.
  rewrite Hroom, Hcur. rewrite decide_False by lia. reflexivity.
Qed.

(** [addViewer] never changes the streamer or the chat log of a room that
    is already registered; [join-room] reads both after the call. *)
Lemma addViewer_keeps_streamer_messages cfg roomId socketId username now st room :
  rooms st !! roomId = Some room →
  ∃ room', rooms (addViewer cfg roomId socketId username now st).1 !! roomId = Some room' ∧
           streamer room' = streamer room ∧ messages room' = messages room.
Proof.
  intros Hroom. unfold addViewer, getOrCreateRoom. rewrite Hroom.
  destruct (streamer room) as [cur|] eqn:Hcur; [|by exists room].
  case_decide; simpl; [by exists room|].
  rewrite lookup_insert_eq. by eexists.
Qed.

Lemma getOrCreateRoom_socketToRoom roomId now st :
  socketToRoom (getOrCreateRoom roomId now st).1 = socketToRoom st.
Proof. unfold getOrCreateRoom, createRoom. by destruct (rooms st !! roomId). Qed.

Lemma getOrCreateRoom_occupant roomId now st other :
  occupant (getOrCreateRoom roomId now st).1 other = occupant st other.
Proof.
  unfold getOrCreateRoom, createRoom, occupant.
  destruct (rooms st !! roomId) eqn:Hroom; [done|]. simpl.
  destruct (decide (roomId = other)) as [<-|Hne].
  - by rewrite lookup_insert_eq, Hroom.
  - by rewrite lookup_insert_ne.
Qed.

Lemma getOrCreateRoom_viewers_of roomId now st other :
  viewers_of (getOrCreateRoom roomId now st).1 other = viewers_of st other.
Proof.
  unfold getOrCreateRoom, createRoom, viewers_of.
  destruct (rooms st !! roomId) eqn:Hroom; [done|]. simpl.
  destruct (decide (roomId = other)) as [<-|Hne].
  - by rewrite lookup_insert_eq, Hroom.
  - by rewrite lookup_insert_ne.
Qed.

Lemma getOrCreateRoom_result roomId now st :
  rooms (getOrCreateRoom roomId now st).1 !! roomId =
    Some (getOrCreateRoom roomId now st).2.
Proof.
  unfold getOrCreateRoom, createRoom.
  destruct (rooms st !! roomId) eqn:Hroom; [done|]. simpl. by rewrite lookup_insert_eq.
Qed.

(** *** The reverse map *)

(** C5, counterexample. After [start-stream] and [stop-stream] by
    connection "s" in room "r", "s" is neither the streamer nor a viewer of
    "r", and the reverse map still sends "s" to "r". *)
Lemma C5_counterexample :
  reachable source_config idle_state ∧ ¬ reverse_map_exact idle_state.
Proof.
  split; [by eexists|].
  intros Hexact. destruct (proj1 (Hexact "s" "r") eq_refl) as [Hs|[v Hv]];
    vm_compute in Hs || vm_compute in Hv; discriminate.
Qed.

Lemma on_join_room_socketToRoom cfg socketId roomId username now st :
  let st' := (on_join_room cfg socketId roomId username now st).1 in
  if decide (roomId ≠ "" ∧ username ≠ "" ∧ is_Some (occupant st roomId) ∧
             (size (viewers_of st roomId) < MAX_VIEWERS_PER_ROOM cfg)%nat)
  then socketToRoom st' = <[socketId := roomId]> (socketToRoom st) ∧
       is_Some (viewers_of st' roomId !! socketId)
  else socketToRoom st' = socketToRoom st.
Proof.
  unfold on_join_room.
  destruct (decide (roomId = "" ∨ username = "")) as [Hinv|Hvalid].
  { rewrite decide_False by tauto. done. }
  assert (roomId ≠ "" ∧ username ≠ "") as [Hr Hu] by tauto.
  destruct (getOrCreateRoom roomId now st) as [st1 room] eqn:Hget.
  pose proof (getOrCreateRoom_socketToRoom roomId now st) as Hmap.
  pose proof (getOrCreateRoom_occupant roomId now st roomId) as Hocc.
  pose proof (getOrCreateRoom_viewers_of roomId now st roomId) as Hvs.
  pose proof (getOrCreateRoom_result roomId now st) as Hroom.
  rewrite Hget in Hmap, Hocc, Hvs, Hroom. simpl in Hmap, Hocc, Hvs, Hroom.
  assert (occupant st1 roomId = streamer room) as Hocc1
    by (unfold occupant; by rewrite Hroom).
  assert (viewers_of st1 roomId = viewers room) as Hvs1
    by (unfold viewers_of; by rewrite Hroom).
  rewrite <- Hocc, <- Hvs, Hocc1, Hvs1.
  destruct (streamer room) as [s|] eqn:Hs.
  - destruct (decide (size (viewers room) < MAX_VIEWERS_PER_ROOM cfg)%nat) as [Hlt|Hge].
    + rewrite decide_True by (repeat split; eauto).
      rewrite (addViewer_ok cfg roomId socketId username now st1 room) by eauto.
      simpl. rewrite Hmap. split; [done|].
      unfold viewers_of. simpl. rewrite lookup_insert_eq. simpl.
      rewrite lookup_insert_eq. by eexists.
    + rewrite decide_False by tauto.
      rewrite (addViewer_full cfg roomId socketId username now st1 room)
        by (eauto; lia). done.
  - rewrite decide_False; [done|]. intros (_ & _ & [? ?] & _). done.
Qed.

Lemma on_start_stream_socketToRoom socketId roomId username now st :
  let st' := (on_start_stream socketId roomId username now st).1 in
  match occupant st roomId with
  | None => socketToRoom st' = <[socketId := roomId]> (socketToRoom st) ∧
            s_socketId <$> occupant st' roomId = Some socketId
  | Some _ => socketToRoom st' = socketToRoom st
  end.
Proof.
  unfold on_start_stream. destruct (occupant st roomId) as [cur|] eqn:Hocc.
  - by rewrite (addStreamer_occupied _ _ _ _ _ _ Hocc).
  - destruct (addStreamer_free roomId socketId username now st Hocc)
      as (st' & -> & Hocc' & _ & Hmap & _). simpl. by rewrite Hocc'.
Qed.

Lemma removeUser_not_found socketId st :
  (removeUser socketId st).2 = None → (removeUser socketId st).1 = st.
Proof.
  unfold removeUser.
  destruct (socketToRoom st !! socketId) as [roomId|]; [|done].
  case_decide; [done|].
  destruct (rooms st !! roomId) as [room|]; [|done].
  by destruct (match streamer room with Some s => _ | None => _ end) as [[? ?] ?].
Qed.

Lemma addMessage_socketToRoom cfg roomId socketId username message now st :
  socketToRoom (addMessage cfg roomId socketId username message now st).1 =
    socketToRoom st.
Proof.
  unfold addMessage. destruct (rooms st !! roomId) as [room|]; [|done].
  case_decide; [done|]. by destruct (sanitize message).
Qed.

(** C5, amended. An event changes the reverse map at the key of the
    connection that sent it and nowhere else, in three ways only:
    [start-stream] on a room without a streamer and [join-room] on a room
    with a streamer and a free viewer place set the entry to that room, of
    which the connection has just become the streamer or a viewer; a
    [disconnect] whose [removeUser] finds the mapped room deletes the
    entry; every other event, [stop-stream] included, leaves the reverse
    map as it is, so the entry of a streamer outlives its [stop-stream]. *)
Theorem C5_reverse_map_updates (cfg : Config) (socketId : string) (now : Z)
    (e : Event) (st : State) :
  let st' := (handle cfg socketId now e st).1 in
  match e with
  | StartStream roomId _ =>
      match occupant st roomId with
      | None => socketToRoom st' = <[socketId := roomId]> (socketToRoom st) ∧
                member st' socketId roomId
      | Some _ => socketToRoom st' = socketToRoom st
      end
  | JoinRoom roomId username =>
      if decide (roomId ≠ "" ∧ username ≠ "" ∧ is_Some (occupant st roomId) ∧
                 (size (viewers_of st roomId) < MAX_VIEWERS_PER_ROOM cfg)%nat)
      then socketToRoom st' = <[socketId := roomId]> (socketToRoom st) ∧
           member st' socketId roomId
      else socketToRoom st' = socketToRoom st
  | Disconnect =>
      match (removeUser socketId st).2 with
      | Some _ => socketToRoom st' = delete socketId (socketToRoom st)
      | None => socketToRoom st' = socketToRoom st
      end
  | _ => socketToRoom st' = socketToRoom st
  end.
Proof.
  destruct e as [roomId username|roomId username|?|?|?|roomId|roomId username message
                 |roomId|]; simpl.
  - pose proof (on_join_room_socketToRoom cfg socketId roomId username now st) as H.
    simpl in H. case_decide; [|done]. destruct H as [H1 H2]. split; [done|by right].
  - pose proof (on_start_stream_socketToRoom socketId roomId username now st) as H.
    simpl in H. destruct (occupant st roomId); [done|].
    destruct H as [H1 H2]. split; [done|by left].
  - done.
  - done.
  - done.
  - unfold on_request_stream. destruct (rooms st !! roomId) as [room|]; [|done].
    by destruct (streamer room).
  - unfold on_chat_message.
    pose proof (addMessage_socketToRoom cfg roomId socketId username message now st) as H.
    destruct (addMessage _ _ _ _ _ _ _) as [st1 [m|err]]; done.
  - unfold on_stop_stream. destruct (rooms st !! roomId) as [room|]; [|done].
    destruct (streamer room); [|done]. by case_decide.
  - rewrite on_disconnect_state.
    destruct (removeUser socketId st) as [st1 [ud|]] eqn:Hrm; simpl.
    + by apply removeUser_found in Hrm as (_ & _ & _ & _ & -> & _).
    + pose proof (removeUser_not_found socketId st) as H. rewrite Hrm in H.
      simpl in H. by rewrite H.
Qed.

(** *** The viewer cap *)

Lemma with_viewer_viewers socketId username now room :
  viewers (with_viewer socketId username now room) =
    <[socketId := {| v_username := username; v_connectedAt := now |}]> (viewers room).
Proof. reflexivity. Qed.

(** C6. [addViewer] is rejected with "No active stream in this room" when
    the room has no streamer, and with "Room is full (max N viewers)" when
    the viewer map already has [MAX_VIEWERS_PER_ROOM] = N entries (20 in the
    source). Otherwise it puts the connection into the viewer map, adds one
    to [stats.totalViewers], sets [stats.peakViewers] to the maximum of the
    old peak and the new size of the viewer map, and returns that size.
    With a cap of 2 and a live room without viewers, three calls of which
    the first two come from different connections give two acceptances,
    with counts 1 and 2, and then one "Room is full" rejection. *)
Theorem C6_viewer_admission (cfg : Config) (roomId socketId username : string)
    (now : Z) (st : State) :
  (occupant st roomId = None →
     (addViewer cfg roomId socketId username now st).2 =
       ViewerErr "No active stream in this room" true) ∧
  (∀ room, rooms st !! roomId = Some room → is_Some (streamer room) →
     (MAX_VIEWERS_PER_ROOM cfg ≤ size (viewers room))%nat →
     addViewer cfg roomId socketId username now st =
       (st, ViewerErr ("Room is full (max " +:+ pretty (MAX_VIEWERS_PER_ROOM cfg)
                         +:+ " viewers)") false)) ∧
  (∀ room, rooms st !! roomId = Some room → is_Some (streamer room) →
     (size (viewers room) < MAX_VIEWERS_PER_ROOM cfg)%nat →
     ∃ st' room',
       addViewer cfg roomId socketId username now st =
         (st', ViewerOk (size (viewers room'))) ∧
       rooms st' !! roomId = Some room' ∧
       viewers room' =
         <[socketId := {| v_username := username; v_connectedAt := now |}]>
           (viewers room) ∧
       totalViewers (stats room') = S (totalViewers (stats room)) ∧
       peakViewers (stats room') =
         Nat.max (peakViewers (stats room)) (size (viewers room')) ∧
       streamer room' = streamer room) ∧
  (MAX_VIEWERS_PER_ROOM source_config = 20%nat ∧
   "Room is full (max " +:+ pretty (MAX_VIEWERS_PER_ROOM source_config) +:+ " viewers)"
     = "Room is full (max 20 viewers)") ∧
  (∀ room a b c ua ub uc ta tb tc,
     MAX_VIEWERS_PER_ROOM cfg = 2%nat →
     rooms st !! roomId = Some room → is_Some (streamer room) → viewers room = ∅ →
     a ≠ b →
     (addViewers cfg roomId [(a, ua, ta); (b, ub, tb); (c, uc, tc)] st).2 =
       [ViewerOk 1; ViewerOk 2; ViewerErr "Room is full (max 2 viewers)" false]).
Proof.
  split; [|split; [|split; [|split]]].
  - intros Hocc. by rewrite addViewer_no_stream.
  - intros room Hroom Hs Hfull. by apply (addViewer_full cfg _ _ _ _ _ room).
  - intros room Hroom Hs Hfree.
    rewrite (addViewer_ok cfg roomId socketId username now st room) by done.
    eexists _, _. split; [reflexivity|]. simpl. rewrite lookup_insert_eq. done.
  - split; reflexivity.
  - intros room a b c ua ub uc ta tb tc Hcap Hroom Hs Hv Hab. simpl.
    rewrite (addViewer_ok cfg roomId a ua ta st room)
      by (rewrite ?Hv, ?Hcap, ?map_size_empty; done || lia).
    set (room1 := with_viewer a ua ta room).
    set (st1 := set_socketToRoom _ _).
    assert (rooms st1 !! roomId = Some room1) as Hroom1
      by (subst st1; simpl; by rewrite lookup_insert_eq).
    assert (size (viewers room1) = 1%nat) as Hsize1.
    { unfold room1. rewrite with_viewer_viewers, Hv.
      by rewrite insert_empty, map_size_singleton. }
    rewrite (addViewer_ok cfg roomId b ub tb st1 room1)
      by (rewrite ?Hsize1, ?Hcap; done || lia).
    set (room2 := with_viewer b ub tb room1).
    set (st2 := set_socketToRoom _ _).
    assert (rooms st2 !! roomId = Some room2) as Hroom2
      by (subst st2; simpl; by rewrite lookup_insert_eq).
    assert (size (viewers room2) = 2%nat) as Hsize2.
    { unfold room2. rewrite with_viewer_viewers.
      rewrite map_size_insert_None, Hsize1; [done|].
      unfold room1. rewrite with_viewer_viewers, Hv. by rewrite lookup_insert_ne. }
    rewrite (addViewer_full cfg roomId c uc tc st2 room2)
      by (rewrite ?Hsize2, ?Hcap; done || lia).
    cbn [snd]. rewrite Hsize1, Hsize2. unfold room_full_error. rewrite Hcap. reflexivity.
Qed.

Lemma live_state_room : rooms live_state !! "r" = Some live_room.
Proof. reflexivity. Qed.

Lemma C6_viewer_admission_witness :
  (addViewer two_viewers_config "r" "a" "ann" 2000 initial_state).2 =
    ViewerErr "No active stream in this room" true ∧
  (∃ st' room',
     addViewer two_viewers_config "r" "a" "ann" 2000 live_state =
       (st', ViewerOk (size (viewers room'))) ∧
     rooms st' !! "r" = Some room' ∧
     viewers room' = <[ "a" := {| v_username := "ann"; v_connectedAt := 2000 |}]> ∅ ∧
     totalViewers (stats room') = 1%nat ∧
     peakViewers (stats room') = Nat.max 0 (size (viewers room')) ∧
     streamer room' = Some alice) ∧
  (addViewers two_viewers_config "r"
     [("a", "ann", 2000); ("b", "bob", 3000); ("c", "cat", 4000)] live_state).2 =
    [ViewerOk 1; ViewerOk 2; ViewerErr "Room is full (max 2 viewers)" false].
Proof.
  split; [|split].
  - apply (proj1 (C6_viewer_admission two_viewers_config "r" "a" "ann" 2000
                    initial_state)).
    reflexivity.
  - destruct (C6_viewer_admission two_viewers_config "r" "a" "ann" 2000 live_state)
      as (_ & _ & Hok & _).
    apply (Hok live_room live_state_room).
    + by eexists.
    + vm_compute. lia.
  - destruct (C6_viewer_admission two_viewers_config "r" "a" "ann" 2000 live_state)
      as (_ & _ & _ & _ & Hcap).
    apply (Hcap live_room); try reflexivity.
    + by eexists.
    + discriminate.
Defined.

(** *** Chat: the rate limit *)

Lemma addMessage_no_room cfg roomId socketId username message now st :
  rooms st !! roomId = None →
  addMessage cfg roomId socketId username message now st =
    (st, MessageErr "Room not found").
Proof. intros Hroom. unfold addMessage. by rewrite Hroom. Qed.

Lemma addMessage_too_fast cfg roomId socketId username message now st :
  is_Some (rooms st !! roomId) →
  now - lastMessageTime st socketId < MESSAGE_RATE_LIMIT cfg →
  addMessage cfg roomId socketId username message now st =
    (st, MessageErr "Sending messages too quickly").
Proof.
  intros [room Hroom] Hfast. unfold addMessage, lastMessageTime in *.
  rewrite Hroom. by rewrite decide_True.
Qed.

Lemma addMessage_empty cfg roomId socketId username message now st :
  is_Some (rooms st !! roomId) →
  ¬ now - lastMessageTime st socketId < MESSAGE_RATE_LIMIT cfg →
  sanitize message = [] →
  addMessage cfg roomId socketId username message now st =
    (set_messageRateLimits (<[socketId := now]> (messageRateLimits st)) st,
     MessageErr "Empty message").
Proof.
  intros [room Hroom] Hslow Hempty. unfold addMessage, lastMessageTime in *.
  rewrite Hroom. rewrite decide_False by done. by rewrite Hempty.
Qed.

Lemma addMessage_stored cfg roomId socketId username message now st room :
  rooms st !! roomId = Some room →
  ¬ now - lastMessageTime st socketId < MESSAGE_RATE_LIMIT cfg →
  sanitize message ≠ [] →
  addMessage cfg roomId socketId username message now st =
    (set_rooms
       (<[roomId := with_message cfg (messageObj socketId username message now) room]>
          (rooms st))
       (set_messageRateLimits (<[socketId := now]> (messageRateLimits st)) st),
     MessageOk (messageObj socketId username message now)).
Proof.
  intros Hroom Hslow Hne. unfold addMessage, lastMessageTime in *.
  rewrite Hroom. rewrite decide_False by done.
  unfold messageObj, with_message.
  destruct (sanitize message) as [|c s] eqn:Hs; [done|].
  simpl. repeat f_equal. by case_decide.
Qed.

(** C7, counterexample. In the live room "r", connection "s" sends a body
    of three spaces at time 5000 and the body "hi" at time 5100. The first
    is rejected as empty, so no message of "s" has been accepted and the
    log is empty; the second is rejected all the same as sent too
    quickly. *)
Lemma C7_counterexample :
  (addMessage source_config "r" "s" "alice" (js "   ") 5000 live_state).2 =
    MessageErr "Empty message" ∧
  addMessage source_config "r" "s" "alice" (js "hi") 5100
    (addMessage source_config "r" "s" "alice" (js "   ") 5000 live_state).1 =
    ((addMessage source_config "r" "s" "alice" (js "   ") 5000 live_state).1,
     MessageErr "Sending messages too quickly") ∧
  messages <$>
    rooms (addMessage source_config "r" "s" "alice" (js "   ") 5000 live_state).1 !! "r"
    = Some [].
Proof. repeat split. Qed.

(** C7, amended. On a registered room, [addMessage] rejects with "Sending
    messages too quickly" exactly when the time elapsed since the entry of
    the sending connection in [messageRateLimits] (0 when it has none) is
    below [MESSAGE_RATE_LIMIT] (500 ms in the source), and then changes
    nothing. An append that passes this check writes the current time into
    the entry before the body is examined, so the entry is the time of the
    connection's last append that passed the check, whether it was then
    stored or rejected as empty. The map is keyed by connection only:
    other connections' entries are untouched, and the entry counts against
    the same connection in every room. Hence of two appends with non-empty
    bodies from one connection less than the limit apart the first is
    stored and the second rejected as too quick, and a third, at least the
    limit after the first, is stored. *)
Theorem C7_rate_limit (cfg : Config) (roomId socketId username : string)
    (message : jsstring) (now : Z) (st : State) :
  is_Some (rooms st !! roomId) →
  let out := addMessage cfg roomId socketId username message now st in
  MESSAGE_RATE_LIMIT source_config = 500 ∧
  (out.2 = MessageErr "Sending messages too quickly" ↔
     now - lastMessageTime st socketId < MESSAGE_RATE_LIMIT cfg) ∧
  (now - lastMessageTime st socketId < MESSAGE_RATE_LIMIT cfg → out.1 = st) ∧
  (¬ now - lastMessageTime st socketId < MESSAGE_RATE_LIMIT cfg →
     messageRateLimits out.1 = <[socketId := now]> (messageRateLimits st) ∧
     (out.2 = MessageErr "Empty message" ∨
      out.2 = MessageOk (messageObj socketId username message now)) ∧
     ∀ roomId' username' message' now',
       is_Some (rooms out.1 !! roomId') → now' - now < MESSAGE_RATE_LIMIT cfg →
       (addMessage cfg roomId' socketId username' message' now' out.1).2 =
         MessageErr "Sending messages too quickly") ∧
  (∀ other, other ≠ socketId →
     messageRateLimits out.1 !! other = messageRateLimits st !! other) ∧
  (∀ username2 message2 now2 username3 message3 now3,
     ¬ now - lastMessageTime st socketId < MESSAGE_RATE_LIMIT cfg →
     sanitize message ≠ [] → sanitize message3 ≠ [] →
     now2 - now < MESSAGE_RATE_LIMIT cfg →
     MESSAGE_RATE_LIMIT cfg ≤ now3 - now →
     let out2 := addMessage cfg roomId socketId username2 message2 now2 out.1 in
     let out3 := addMessage cfg roomId socketId username3 message3 now3 out2.1 in
     out.2 = MessageOk (messageObj socketId username message now) ∧
     out2.2 = MessageErr "Sending messages too quickly" ∧
     out3.2 = MessageOk (messageObj socketId username3 message3 now3)).
Proof.
  intros [room Hroom] out.
  assert (is_Some (rooms st !! roomId)) as Hsome by eauto.
  assert (∀ st1 : State, messageRateLimits st1 !! socketId = Some now →
            lastMessageTime st1 socketId = now) as Hlast
    by (intros st1 H1; unfold lastMessageTime; by rewrite H1).
  split; [reflexivity|].
  destruct (decide (now - lastMessageTime st socketId < MESSAGE_RATE_LIMIT cfg))
    as [Hfast|Hslow].
  - assert (out = (st, MessageErr "Sending messages too quickly")) as ->
      by (by apply addMessage_too_fast).
    simpl. repeat split; try done.
  - assert (messageRateLimits out.1 = <[socketId := now]> (messageRateLimits st) ∧
            (out.2 = MessageErr "Empty message" ∨
             out.2 = MessageOk (messageObj socketId username message now)) ∧
            is_Some (rooms out.1 !! roomId)) as (Hmap & Hres & Hroom').
    { subst out. destruct (sanitize message) as [|c s] eqn:Hs.
      - rewrite addMessage_empty by done. simpl. eauto.
      - rewrite (addMessage_stored cfg roomId socketId username message now st room)
          by (done || by rewrite Hs).
        simpl. rewrite lookup_insert_eq. eauto. }
    assert (lastMessageTime out.1 socketId = now) as Hnow
      by (apply Hlast; by rewrite Hmap, lookup_insert_eq).
    split; [|split; [|split; [|split]]].
    + split; [|done]. intros Hq. destruct Hres as [He|He]; congruence.
    + done.
    + intros _. split; [done|]. split; [done|].
      intros roomId' username' message' now' Hr' Hnear.
      rewrite addMessage_too_fast; [done|done|]. by rewrite Hnow.
    + intros other Hother. by rewrite Hmap, lookup_insert_ne.
    + intros username2 message2 now2 username3 message3 now3 _ Hne Hne3 Hnear Hfar.
      destruct Hres as [He|He].
      { exfalso. subst out.
        rewrite (addMessage_stored cfg roomId socketId username message now st room)
          in He by done. discriminate. }
      intros out2 out3. split; [done|].
      assert (out2 = (out.1, MessageErr "Sending messages too quickly")) as Hout2.
      { subst out2. apply addMessage_too_fast; [done|]. by rewrite Hnow. }
      split; [by rewrite Hout2|].
      subst out3. rewrite Hout2. simpl.
      destruct Hroom' as [room' Hroom'].
      rewrite (addMessage_stored cfg roomId socketId username3 message3 now3 out.1 room');
        [done|done| |done].
      rewrite Hnow. lia.
Qed.

Lemma C7_rate_limit_witness :
  is_Some (rooms live_state !! "r") ∧
  let out := addMessage source_config "r" "s" "alice" (js "hi") 5000 live_state in
  let out2 := addMessage source_config "r" "s" "alice" (js "again") 5499 out.1 in
  let out3 := addMessage source_config "r" "s" "alice" (js "later") 5500 out2.1 in
  out.2 = MessageOk (messageObj "s" "alice" (js "hi") 5000) ∧
  out2.2 = MessageErr "Sending messages too quickly" ∧
  out3.2 = MessageOk (messageObj "s" "alice" (js "later") 5500).
Proof.
  assert (is_Some (rooms live_state !! "r")) as Hroom by (by eexists).
  split; [exact Hroom|].
  destruct (C7_rate_limit source_config "r" "s" "alice" (js "hi") 5000 live_state Hroom)
    as (_ & _ & _ & _ & _ & Hthree).
  apply (Hthree "alice" (js "again") 5499 "alice" (js "later") 5500).
  - vm_compute. intros H. discriminate H.
  - vm_compute. discriminate.
  - vm_compute. discriminate.
  - vm_compute. reflexivity.
  - vm_compute. discriminate.
Defined.

(** *** Chat: sanitizing the body *)

Lemma trimStart_spec (s : jsstring) :
  ∃ l, s = l ++ trimStart s ∧ Forall (λ c, isWhiteSpace c = true) l ∧
       head (isWhiteSpace <$> trimStart s) ≠ Some true.
Proof.
  induction s as [|c s IH]; simpl.
  - exists []. by repeat split.
  - destruct (isWhiteSpace c) eqn:Hc.
    + destruct IH as (l & Heq & Hl & Hhead). exists (c :: l).
      repeat split; [by rewrite <- app_comm_cons, <- Heq|by constructor|done].
    + exists []. repeat split; [constructor|]. simpl. rewrite Hc. discriminate.
Qed.

Lemma trimEnd_spec (s : jsstring) :
  ∃ r, s = trimEnd s ++ r ∧ Forall (λ c, isWhiteSpace c = true) r ∧
       last (isWhiteSpace <$> trimEnd s) ≠ Some true.
Proof.
  unfold trimEnd. destruct (trimStart_spec (reverse s)) as (l & Heq & Hl & Hhead).
  exists (reverse l). repeat split.
  - rewrite <- reverse_app, <- Heq. by rewrite reverse_involutive.
  - by apply Forall_reverse.
  - rewrite fmap_reverse, last_reverse. done.
Qed.

(** [trim] removes a run of white space at either end, and what is left
    neither starts nor ends with white space. *)
Lemma trim_spec (s : jsstring) :
  ∃ l r, s = l ++ trim s ++ r ∧
         Forall (λ c, isWhiteSpace c = true) l ∧
         Forall (λ c, isWhiteSpace c = true) r ∧
         head (isWhiteSpace <$> trim s) ≠ Some true ∧
         last (isWhiteSpace <$> trim s) ≠ Some true.
Proof.
  destruct (trimStart_spec s) as (l & Heq & Hl & Hhead).
  destruct (trimEnd_spec (trimStart s)) as (r & Heq' & Hr & Hlast).
  exists l, r. unfold trim. repeat split; try done.
  - by rewrite <- Heq', <- Heq.
  - intros Hh. apply Hhead. rewrite Heq'.
    destruct (trimEnd (trimStart s)) as [|c t]; [done|]. done.
Qed.

Lemma replaceAll_app c by_ s1 s2 :
  replaceAll c by_ (s1 ++ s2) = replaceAll c by_ s1 ++ replaceAll c by_ s2.
Proof. induction s1 as [|x s1 IH]; simpl; [done|]. by rewrite IH, app_assoc. Qed.

Lemma replace_twice_escape (s : jsstring) :
  replaceAll gt_char amp_gt (replaceAll lt_char amp_lt s) = s ≫= escape.
Proof.
  induction s as [|x s IH]; [done|].
  simpl replaceAll. rewrite replaceAll_app, IH.
  change ((x :: s) ≫= escape) with (escape x ++ (s ≫= escape)). f_equal.
  unfold escape. destruct (x =? lt_char)%N eqn:Hlt; [done|]. simpl.
  by destruct (x =? gt_char)%N.
Qed.

Lemma escape_length (s : jsstring) :
  length (s ≫= escape) = (length s + 3 * length (filter (λ c, is_markup c = true) s))%nat.
Proof.
  induction s as [|x s IH]; [done|].
  change ((x :: s) ≫= escape) with (escape x ++ (s ≫= escape)).
  rewrite length_app, IH, filter_cons. unfold escape, is_markup.
  destruct (x =? lt_char)%N; simpl; [lia|].
  destruct (x =? gt_char)%N; simpl; lia.
Qed.

Lemma escape_no_markup (s : jsstring) (c : N) :
  c ∈ s ≫= escape → c ≠ lt_char ∧ c ≠ gt_char.
Proof.
  intros (x & Hc & _)%list_elem_of_bind. unfold escape in Hc.
  destruct (x =? lt_char)%N eqn:Hlt.
  { unfold amp_lt in Hc. set_unfold. unfold lt_char, gt_char. lia. }
  destruct (x =? gt_char)%N eqn:Hgt.
  { unfold amp_gt in Hc. set_unfold. unfold lt_char, gt_char. lia. }
  apply list_elem_of_singleton in Hc as ->. split; intros ->; by rewrite N.eqb_refl in *.
Qed.

Lemma sanitize_length (message : jsstring) :
  let kept := substring0 500 (trim message) in
  (length kept ≤ 500)%nat ∧
  length (sanitize message) =
    (length kept + 3 * length (filter (λ c, is_markup c = true) kept))%nat ∧
  (length (sanitize message) ≤ 2000)%nat.
Proof.
  intros kept. unfold sanitize. fold kept. rewrite replace_twice_escape, escape_length.
  assert (length kept ≤ 500)%nat as Hkept
    by (unfold kept, substring0; rewrite length_take; lia).
  pose proof (length_filter (λ c, is_markup c = true) kept). lia.
Qed.

(** C8, counterexample. A body of 500 times the character '<' is accepted
    in the live room "r", and the body stored for it has 2000 characters. *)
Lemma C8_counterexample :
  ∃ m, (addMessage source_config "r" "s" "alice" (replicate 500 lt_char) 5000
          live_state).2 = MessageOk m ∧
       length (m_message m) = 2000%nat.
Proof. eexists. split; [reflexivity|]. vm_compute. reflexivity. Qed.

(** C8, amended. The body that [addMessage] examines and stores is the raw
    input trimmed of surrounding white space, cut to its first 500
    characters, and then with every '<' replaced by "&lt;" and every '>'
    by "&gt;". Since the escape comes after the cut, this body has the
    length of the cut text plus three for each escaped character: it holds
    no '<' or '>' and at most 2000 characters, and at most 500 when nothing
    had to be escaped. When it is empty, an append that has passed the rate
    check is rejected with "Empty message" and no room changes; otherwise
    the append is accepted and its message, with this body, is the newest
    entry of the log. *)
Theorem C8_sanitized_body (cfg : Config) (roomId socketId username : string)
    (message : jsstring) (now : Z) (st : State) (room : Room) :
  rooms st !! roomId = Some room →
  ¬ now - lastMessageTime st socketId < MESSAGE_RATE_LIMIT cfg →
  (0 < MAX_MESSAGES_PER_ROOM cfg)%nat →
  let out := addMessage cfg roomId socketId username message now st in
  let kept := take 500 (trim message) in
  sanitize message = kept ≫= escape ∧
  (length kept ≤ 500)%nat ∧
  length (sanitize message) =
    (length kept + 3 * length (filter (λ c, is_markup c = true) kept))%nat ∧
  (length (sanitize message) ≤ 2000)%nat ∧
  (∀ c, c ∈ sanitize message → c ≠ lt_char ∧ c ≠ gt_char) ∧
  (sanitize message = [] →
     out.2 = MessageErr "Empty message" ∧ rooms out.1 = rooms st) ∧
  (sanitize message ≠ [] →
     ∃ m room', out.2 = MessageOk m ∧ m_message m = sanitize message ∧
                rooms out.1 !! roomId = Some room' ∧ last (messages room') = Some m).
Proof.
  intros Hroom Hslow Hcap out kept.
  assert (sanitize message = kept ≫= escape) as Hesc
    by (unfold sanitize, substring0; apply replace_twice_escape).
  destruct (sanitize_length message) as (Hkept & Hlen & Hmax).
  split; [done|]. split; [done|]. split; [done|]. split; [done|].
  split; [|split].
  - intros c. rewrite Hesc. apply escape_no_markup.
  - intros Hempty. subst out. rewrite addMessage_empty by eauto. done.
  - intros Hne. subst out.
    rewrite (addMessage_stored cfg roomId socketId username message now st room)
      by done.
    eexists _, _. split; [reflexivity|]. split; [reflexivity|]. simpl.
    rewrite lookup_insert_eq. split; [reflexivity|]. simpl.
    case_decide as Hover; [|by rewrite last_snoc].
    destruct (messages room) as [|m0 ms]; simpl in *; [lia|].
    by rewrite last_snoc.
Qed.

Lemma C8_sanitized_body_witness :
  rooms live_state !! "r" = Some live_room ∧
  sanitize (js "  <b>hi</b>  ") = js "&lt;b&gt;hi&lt;/b&gt;" ∧
  (addMessage source_config "r" "s" "alice" (js "   ") 5000 live_state).2 =
    MessageErr "Empty message" ∧
  ∃ m room',
    (addMessage source_config "r" "s" "alice" (js "  <b>hi</b>  ") 5000 live_state).2 =
      MessageOk m ∧
    m_message m = sanitize (js "  <b>hi</b>  ") ∧
    rooms (addMessage source_config "r" "s" "alice" (js "  <b>hi</b>  ") 5000
             live_state).1 !! "r" = Some room' ∧
    last (messages room') = Some m.
Proof.
  assert (¬ 5000 - lastMessageTime live_state "s" < MESSAGE_RATE_LIMIT source_config)
    as Hslow by (vm_compute; intros H; discriminate H).
  assert (0 < MAX_MESSAGES_PER_ROOM source_config)%nat as Hcap by (vm_compute; lia).
  split; [exact live_state_room|]. split; [vm_compute; reflexivity|]. split.
  - destruct (C8_sanitized_body source_config "r" "s" "alice" (js "   ") 5000
                live_state live_room live_state_room Hslow Hcap)
      as (_ & _ & _ & _ & _ & He & _).
    apply He. vm_compute. reflexivity.
  - destruct (C8_sanitized_body source_config "r" "s" "alice" (js "  <b>hi</b>  ") 5000
                live_state live_room live_state_room Hslow Hcap)
      as (_ & _ & _ & _ & _ & _ & Hs).
    apply Hs. vm_compute. discriminate.
Defined.

(** *** Chat: the bounded log *)

Lemma lastn_length {A} n (l : list A) : length (lastn n l) = (length l `min` n)%nat.
Proof. unfold lastn. rewrite length_drop. lia. Qed.

Lemma lastn_app {A} n (l r : list A) : lastn n (lastn n l ++ r) = lastn n (l ++ r).
Proof.
  unfold lastn. rewrite !length_app, length_drop.
  destruct (decide (length l ≤ n)%nat) as [Hle|Hgt].
  - replace (length l - n)%nat with 0%nat by lia. simpl. f_equal. lia.
  - rewrite <- (drop_app_le l r (length l - n)) by lia.
    rewrite drop_drop. f_equal. lia.
Qed.

Lemma with_message_messages cfg m room :
  (length (messages room) ≤ MAX_MESSAGES_PER_ROOM cfg)%nat →
  messages (with_message cfg m room) =
    lastn (MAX_MESSAGES_PER_ROOM cfg) (messages room ++ [m]).
Proof.
  intros Hle. unfold with_message, lastn. simpl. rewrite length_app. simpl.
  case_decide as Hover.
  - replace (length (messages room) + 1 - MAX_MESSAGES_PER_ROOM cfg)%nat with 1%nat
      by (simpl in Hover; lia).
    by destruct (messages room ++ [m]).
  - simpl in Hover.
    by replace (length (messages room) + 1 - MAX_MESSAGES_PER_ROOM cfg)%nat
      with 0%nat by lia.
Qed.

Lemma with_message_bounded cfg m room :
  (length (messages room) ≤ MAX_MESSAGES_PER_ROOM cfg)%nat →
  (length (messages (with_message cfg m room)) ≤ MAX_MESSAGES_PER_ROOM cfg)%nat.
Proof. intros Hle. rewrite with_message_messages, lastn_length by done. lia. Qed.

(** An accepted append, read backwards. *)
Lemma addMessage_ok_inv cfg roomId socketId username message now st st' m :
  addMessage cfg roomId socketId username message now st = (st', MessageOk m) →
  ∃ room, rooms st !! roomId = Some room ∧
          m = messageObj socketId username message now ∧
          rooms st' = <[roomId := with_message cfg m room]> (rooms st).
Proof.
  intros Hadd. destruct (rooms st !! roomId) as [room|] eqn:Hroom.
  - destruct (decide (now - lastMessageTime st socketId < MESSAGE_RATE_LIMIT cfg)).
    { rewrite addMessage_too_fast in Hadd by eauto. discriminate. }
    destruct (decide (sanitize message = [])).
    { rewrite addMessage_empty in Hadd by eauto. discriminate. }
    rewrite (addMessage_stored cfg roomId socketId username message now st room)
      in Hadd by done.
    injection Hadd as <- <-. by exists room.
  - rewrite addMessage_no_room in Hadd by done. discriminate.
Qed.

Lemma addMessage_rooms cfg roomId socketId username message now st :
  let out := addMessage cfg roomId socketId username message now st in
  rooms out.1 = rooms st ∨
  ∃ room, rooms st !! roomId = Some room ∧
          rooms out.1 = <[roomId := with_message cfg
                                      (messageObj socketId username message now) room]>
                          (rooms st).
Proof.
  simpl. destruct (addMessage cfg roomId socketId username message now st)
    as [st' [m|err]] eqn:Hadd.
  - right. apply addMessage_ok_inv in Hadd as (room & Hroom & -> & Hrooms). eauto.
  - left. unfold addMessage in Hadd.
    destruct (rooms st !! roomId); [|by injection Hadd as <- _].
    case_decide; [by injection Hadd as <- _|].
    destruct (sanitize message); [by injection Hadd as <- _|discriminate].
Qed.

Lemma getOrCreateRoom_bounded cfg roomId now st :
  log_bounded cfg st →
  log_bounded cfg (getOrCreateRoom roomId now st).1 ∧
  (length (messages (getOrCreateRoom roomId now st).2) ≤ MAX_MESSAGES_PER_ROOM cfg)%nat.
Proof.
  intros Hb. unfold getOrCreateRoom, createRoom.
  destruct (rooms st !! roomId) as [room|] eqn:Hroom; simpl.
  - split; [done|]. by apply (map_Forall_lookup_1 _ _ _ _ Hb Hroom).
  - split; [|lia]. apply map_Forall_insert_2; [simpl; lia|done].
Qed.

Lemma addStreamer_bounded cfg roomId socketId username now st :
  log_bounded cfg st → log_bounded cfg (addStreamer roomId socketId username now st).1.
Proof.
  intros Hb. unfold addStreamer.
  destruct (getOrCreateRoom_bounded cfg roomId now st Hb) as [Hb1 Hroom].
  destruct (getOrCreateRoom roomId now st) as [st1 room]. simpl in *.
  destruct (streamer room); [done|]. by apply map_Forall_insert_2.
Qed.

Lemma addViewer_bounded cfg roomId socketId username now st :
  log_bounded cfg st → log_bounded cfg (addViewer cfg roomId socketId username now st).1.
Proof.
  intros Hb. unfold addViewer.
  destruct (getOrCreateRoom_bounded cfg roomId now st Hb) as [Hb1 Hroom].
  destruct (getOrCreateRoom roomId now st) as [st1 room]. simpl in *.
  destruct (streamer room); [|done]. case_decide; [done|].
  by apply map_Forall_insert_2.
Qed.

Lemma removeUser_bounded cfg socketId st :
  log_bounded cfg st → log_bounded cfg (removeUser socketId st).1.
Proof.
  intros Hb. unfold removeUser.
  destruct (socketToRoom st !! socketId) as [roomId|]; [|done].
  case_decide; [done|].
  destruct (rooms st !! roomId) as [room|] eqn:Hroom; [|done].
  pose proof (map_Forall_lookup_1 _ _ _ _ Hb Hroom) as Hlen. simpl in Hlen.
  assert (∀ room', messages room' = messages room →
            log_bounded cfg
              (if room_is_empty room'
               then set_rooms (delete roomId (<[roomId := room']> (rooms st)))
                      (set_messageRateLimits (delete socketId (messageRateLimits st))
                         (set_socketToRoom (delete socketId (socketToRoom st))
                            (set_rooms (<[roomId := room']> (rooms st)) st)))
               else set_messageRateLimits (delete socketId (messageRateLimits st))
                      (set_socketToRoom (delete socketId (socketToRoom st))
                         (set_rooms (<[roomId := room']> (rooms st)) st)))) as Hkeep.
  { intros room' Hm.
    assert (log_bounded cfg (set_rooms (<[roomId := room']> (rooms st)) st)) as Hins
      by (apply map_Forall_insert_2; [by rewrite Hm|done]).
    destruct (room_is_empty room'); [|done]. by apply map_Forall_delete. }
  destruct (streamer room) as [s|]; [case_decide|];
    try destruct (viewers room !! socketId); by apply Hkeep.
Qed.

Lemma addMessage_bounded cfg roomId socketId username message now st :
  log_bounded cfg st →
  log_bounded cfg (addMessage cfg roomId socketId username message now st).1.
Proof.
  intros Hb. unfold log_bounded.
  destruct (addMessage_rooms cfg roomId socketId username message now st)
    as [->|(room & Hroom & ->)]; [done|].
  apply map_Forall_insert_2; [|done]. apply with_message_bounded.
  by apply (map_Forall_lookup_1 _ _ _ _ Hb Hroom).
Qed.

Lemma handle_bounded cfg socketId now e st :
  log_bounded cfg st → log_bounded cfg (handle cfg socketId now e st).1.
Proof.
  intros Hb. destruct e as [roomId username|roomId username|?|?|?|roomId
                            |roomId username message|roomId|]; simpl.
  - unfold on_join_room. case_decide; [done|].
    destruct (getOrCreateRoom_bounded cfg roomId now st Hb) as [Hb1 _].
    destruct (getOrCreateRoom roomId now st) as [st1 room]. simpl in Hb1.
    destruct (streamer room); [|done].
    pose proof (addViewer_bounded cfg roomId socketId username now st1 Hb1) as Hb2.
    by destruct (addViewer cfg roomId socketId username now st1) as [st2 [?|? ?]].
  - unfold on_start_stream.
    pose proof (addStreamer_bounded cfg roomId socketId username now st Hb) as Hb1.
    by destruct (addStreamer roomId socketId username now st) as [st1 [|? ?]].
  - done.
  - done.
  - done.
  - unfold on_request_stream. destruct (rooms st !! roomId) as [room|]; [|done].
    by destruct (streamer room).
  - unfold on_chat_message.
    pose proof (addMessage_bounded cfg roomId socketId username message now st Hb) as Hb1.
    by destruct (addMessage cfg roomId socketId username message now st) as [st1 [?|?]].
  - unfold on_stop_stream. destruct (rooms st !! roomId) as [room|] eqn:Hroom; [|done].
    destruct (streamer room); [|done]. case_decide; [|done].
    apply map_Forall_insert_2; [|done]. simpl.
    by apply (map_Forall_lookup_1 _ _ _ _ Hb Hroom).
  - rewrite on_disconnect_state. by apply removeUser_bounded.
Qed.

Lemma run_bounded cfg evs st :
  log_bounded cfg st → log_bounded cfg (run cfg evs st).1.
Proof.
  revert st. induction evs as [|[[socketId now] e] evs IH]; intros st Hb; [done|].
  simpl. pose proof (handle_bounded cfg socketId now e st Hb) as Hb1.
  destruct (handle cfg socketId now e st) as [st1 out1]. simpl in Hb1.
  specialize (IH st1 Hb1). by destruct (run cfg evs st1).
Qed.

Lemma reachable_bounded cfg st : reachable cfg st → log_bounded cfg st.
Proof.
  intros [evs <-]. apply run_bounded. unfold log_bounded. simpl.
  apply map_Forall_empty.
Qed.

Lemma addMessages_accepted cfg roomId posts st room :
  rooms st !! roomId = Some room →
  (length (messages room) ≤ MAX_MESSAGES_PER_ROOM cfg)%nat →
  forallb message_accepted (addMessages cfg roomId posts st).2 = true →
  ∃ room', rooms (addMessages cfg roomId posts st).1 !! roomId = Some room' ∧
           messages room' =
             lastn (MAX_MESSAGES_PER_ROOM cfg)
               (messages room ++ (post_message <$> posts)).
Proof.
  revert st room.
  induction posts as [|[[[socketId username] message] now] rest IH];
    intros st room Hroom Hlen Hok.
  - exists room. split; [done|]. simpl. rewrite app_nil_r.
    unfold lastn. by replace (length (messages room) - _)%nat with 0%nat by lia.
  - simpl in *.
    destruct (addMessage cfg roomId socketId username message now st)
      as [st1 r] eqn:Hadd.
    destruct (addMessages cfg roomId rest st1) as [st2 rs] eqn:Hrest.
    simpl in Hok. apply andb_true_iff in Hok as [Hr Hrs].
    destruct r as [m|err]; [|done].
    apply addMessage_ok_inv in Hadd as (room0 & Hroom0 & -> & Hrooms).
    assert (room0 = room) as -> by congruence.
    pose proof (with_message_bounded cfg (messageObj socketId username message now)
                  room Hlen) as Hlen1.
    pose proof (with_message_messages cfg (messageObj socketId username message now)
                  room Hlen) as Hmsgs1.
    remember (with_message cfg (messageObj socketId username message now) room)
      as room1 eqn:Hroom1.
    specialize (IH st1 room1). rewrite Hrest in IH. simpl in IH.
    destruct IH as (room' & Hroom' & Hmsgs).
    + by rewrite Hrooms, lookup_insert_eq.
    + done.
    + done.
    + exists room'. split; [done|]. rewrite Hmsgs, Hmsgs1.
      rewrite lastn_app. by rewrite <- app_assoc.
Qed.

Lemma on_join_room_viewer cfg socketId roomId username now st room cur :
  roomId ≠ "" → username ≠ "" →
  rooms st !! roomId = Some room → streamer room = Some cur →
  (size (viewers room) < MAX_VIEWERS_PER_ROOM cfg)%nat →
  on_join_room cfg socketId roomId username now st =
    (set_socketToRoom (<[socketId := roomId]> (socketToRoom st))
       (set_rooms (<[roomId := with_viewer socketId username now room]> (rooms st)) st),
     let viewerCount := size (viewers (with_viewer socketId username now room)) in
     [SocketJoin socketId roomId;
      SocketEmit socketId (PRoleViewer roomId (s_username cur) viewerCount);
      SocketEmit socketId (PChatHistory (messages room));
      IoTo (s_socketId cur) (PViewerJoined username viewerCount);
      IoTo roomId (PViewerCountUpdate viewerCount);
      IoTo roomId (PSystemMessage "System" (username +:+ " joined the stream") now)]).
Proof.
  intros Hr Hu Hroom Hcur Hfree. unfold on_join_room.
  rewrite decide_False by tauto. unfold getOrCreateRoom. rewrite Hroom, Hcur.
  rewrite (addViewer_ok cfg roomId socketId username now st room) by eauto.
  reflexivity.
Qed.

(** C9, counterexample. With 60 messages in the log of the live room "r",
    a viewer who joins is sent a chat history of 60 messages, not of the
    most recent 50. *)
Lemma C9_counterexample :
  reachable source_config busy_state ∧
  messages <$> rooms busy_state !! "r" = Some (post_message <$> posts_from 2 60) ∧
  history_sent (on_join_room source_config "v" "r" "bob" 99000 busy_state).2 =
    Some (post_message <$> posts_from 2 60) ∧
  length (post_message <$> posts_from 2 60) = 60%nat.
Proof.
  split.
  - exists (("s", 1000, StartStream "r" "alice") ::
            ((λ i : nat, ("s", 1000 * Z.of_nat i, ChatMessage "r" "alice" (js "hello")))
               <$> seq 2 60)).
    vm_compute. reflexivity.
  - vm_compute. repeat split.
Qed.

(** C9, amended. In every reachable state the chat log of every room holds
    at most [MAX_MESSAGES_PER_ROOM] messages (100 in the source). An
    accepted append goes to the end of the log and the oldest entry is
    dropped when the log has grown beyond the cap, so after a run of
    accepted appends the log is the last [MAX_MESSAGES_PER_ROOM] of the
    old entries followed by the new ones, oldest first. The chat history
    sent to a connection that joins as a viewer is the whole stored log,
    oldest first, however long it is; sending it leaves the log as it
    was. *)
Theorem C9_bounded_chat_log (cfg : Config) :
  MAX_MESSAGES_PER_ROOM source_config = 100%nat ∧
  (∀ st roomId room,
     reachable cfg st → rooms st !! roomId = Some room →
     (length (messages room) ≤ MAX_MESSAGES_PER_ROOM cfg)%nat) ∧
  (∀ st roomId room posts,
     rooms st !! roomId = Some room →
     (length (messages room) ≤ MAX_MESSAGES_PER_ROOM cfg)%nat →
     forallb message_accepted (addMessages cfg roomId posts st).2 = true →
     ∃ room', rooms (addMessages cfg roomId posts st).1 !! roomId = Some room' ∧
              messages room' =
                lastn (MAX_MESSAGES_PER_ROOM cfg)
                  (messages room ++ (post_message <$> posts))) ∧
  (∀ st socketId roomId username now room,
     roomId ≠ "" → username ≠ "" →
     rooms st !! roomId = Some room → is_Some (streamer room) →
     (size (viewers room) < MAX_VIEWERS_PER_ROOM cfg)%nat →
     let out := on_join_room cfg socketId roomId username now st in
     history_sent out.2 = Some (messages room) ∧
     messages <$> rooms out.1 !! roomId = Some (messages room)).
Proof.
  split; [reflexivity|]. split; [|split].
  - intros st roomId room Hreach Hroom.
    by apply (map_Forall_lookup_1 _ _ _ _ (reachable_bounded cfg st Hreach) Hroom).
  - intros st roomId room posts. apply addMessages_accepted.
  - intros st socketId roomId username now room Hr Hu Hroom [cur Hcur] Hfree out.
    subst out.
    rewrite (on_join_room_viewer cfg socketId roomId username now st room cur) by done.
    simpl. by rewrite lookup_insert_eq.
Qed.

Lemma C9_bounded_chat_log_witness :
  reachable source_config live_state ∧
  rooms live_state !! "r" = Some live_room ∧
  (length (messages live_room) ≤ MAX_MESSAGES_PER_ROOM source_config)%nat ∧
  (∃ room', rooms crowded_state !! "r" = Some room' ∧
            messages room' = post_message <$> posts_from 52 100) ∧
  history_sent (on_join_room source_config "v" "r" "bob" 2000 live_state).2 = Some [].
Proof.
  assert (reachable source_config live_state) as Hreach by (by eexists).
  destruct (C9_bounded_chat_log source_config) as (_ & Hinv & Hrun & Hjoin).
  split; [exact Hreach|]. split; [exact live_state_room|].
  split; [exact (Hinv live_state "r" live_room Hreach live_state_room)|]. split.
  - destruct (Hrun live_state "r" live_room (posts_from 2 150) live_state_room)
      as (room' & Hroom' & Hmsgs).
    + exact (Hinv live_state "r" live_room Hreach live_state_room).
    + vm_compute. reflexivity.
    + exists room'. split; [exact Hroom'|]. rewrite Hmsgs. vm_compute. reflexivity.
  - refine (proj1 (Hjoin live_state "v" "r" "bob" 2000 live_room _ _
                     live_state_room _ _)).
    + discriminate.
    + discriminate.
    + by eexists.
    + vm_compute. lia.
Defined.

(** *** Joining a room that has no streamer *)

Lemma handle_socketToRoom_cases cfg sender now e st :
  let st' := (handle cfg sender now e st).1 in
  socketToRoom st' = socketToRoom st ∨
  socketToRoom st' = delete sender (socketToRoom st) ∨
  (∃ roomId, socketToRoom st' = <[sender := roomId]> (socketToRoom st)) ∧
  match e with JoinRoom _ _ | StartStream _ _ => True | _ => False end.
Proof.
  destruct e as [roomId username|roomId username|?|?|?|roomId|roomId username message
                 |roomId|]; simpl.
  - pose proof (on_join_room_socketToRoom cfg sender roomId username now st) as H.
    simpl in H. case_decide; [|by left]. right; right. split; [|done].
    exists roomId. apply H.
  - pose proof (on_start_stream_socketToRoom sender roomId username now st) as H.
    simpl in H. destruct (occupant st roomId); [by left|]. right; right.
    split; [|done]. exists roomId. apply H.
  - by left.
  - by left.
  - by left.
  - left. unfold on_request_stream. destruct (rooms st !! roomId) as [room|]; [|done].
    by destruct (streamer room).
  - left. unfold on_chat_message.
    pose proof (addMessage_socketToRoom cfg roomId sender username message now st) as H.
    by destruct (addMessage _ _ _ _ _ _ _) as [st1 [m|err]].
  - left. unfold on_stop_stream. destruct (rooms st !! roomId) as [room|]; [|done].
    destruct (streamer room); [|done]. by case_decide.
  - rewrite on_disconnect_state.
    destruct (removeUser sender st) as [st1 [ud|]] eqn:Hrm; simpl.
    + right; left. by apply removeUser_found in Hrm as (_ & _ & _ & _ & -> & _).
    + left. pose proof (removeUser_not_found sender st) as H. rewrite Hrm in H.
      simpl in H. by rewrite H.
Qed.

Lemma run_keeps_unbound cfg socketId evs st :
  forallb (keeps_unbound socketId) evs = true →
  socketToRoom st !! socketId = None →
  socketToRoom (run cfg evs st).1 !! socketId = None.
Proof.
  revert st. induction evs as [|[[sender now] e] evs IH]; intros st Hev Hnone; [done|].
  simpl in Hev. apply andb_true_iff in Hev as [Hone Hrest]. simpl.
  pose proof (handle_socketToRoom_cases cfg sender now e st) as Hcases. simpl in Hcases.
  destruct (handle cfg sender now e st) as [st1 out1]. simpl in Hcases.
  specialize (IH st1 Hrest). destruct (run cfg evs st1) as [st2 out2]. simpl in *.
  apply IH. destruct Hcases as [->|[->|[[roomId ->] He]]].
  - done.
  - rewrite lookup_delete. by case_decide.
  - apply orb_true_iff in Hone as [Hne|He'].
    + apply bool_decide_eq_true in Hne. by rewrite lookup_insert_ne.
    + by destruct e.
Qed.

Lemma removeUser_unbound socketId st :
  socketToRoom st !! socketId = None → removeUser socketId st = (st, None).
Proof. intros Hnone. unfold removeUser. by rewrite Hnone. Qed.

Lemma on_disconnect_unbound socketId now st :
  socketToRoom st !! socketId = None → on_disconnect socketId now st = (st, []).
Proof. intros Hnone. unfold on_disconnect. by rewrite removeUser_unbound. Qed.

(** C10, counterexample. Two runs in which a connection joins a room
    without a streamer, never sends [start-stream], and is still found by
    [removeUser] at its disconnect. In the first, "bob" is a viewer on
    connection "v" of room "r" when "alice" stops her stream; "v" joins "r"
    again and is answered 'awaiting-stream' while it is an entry of the
    viewer map and of the reverse map; its disconnect is a viewer's, is
    announced to the room, and deletes the room. In the second, a new
    connection "v" joins the unknown room "r" and is answered
    'awaiting-stream', "alice" goes live in "r", "v" joins again, now as a
    viewer, and its disconnect is announced to the streamer and the
    room. *)
Lemma C10_counterexample :
  (reachable source_config stopped_state ∧
   let joined := on_join_room source_config "v" "r" "bob" 4000 stopped_state in
   occupant stopped_state "r" = None ∧
   joined.2 = [SocketJoin "v" "r"; SocketEmit "v" (PRoleAwaiting "r" go_live_message)] ∧
   v_username <$> viewers_of joined.1 "r" !! "v" = Some "bob" ∧
   socketToRoom joined.1 !! "v" = Some "r" ∧
   (removeUser "v" joined.1).2 =
     Some {| ud_roomId := "r"; ud_role := Some RoleViewer; ud_username := Some "bob";
             ud_viewerCount := 0 |} ∧
   (on_disconnect "v" 5000 joined.1).2 =
     [IoTo "r" (PViewerCountUpdate 0);
      IoTo "r" (PSystemMessage "System" "bob left the stream" 5000)] ∧
   rooms (on_disconnect "v" 5000 joined.1).1 !! "r" = None) ∧
  (let joined := on_join_room source_config "v" "r" "bob" 1000 initial_state in
   let later := (run source_config
                   [("s", 2000, StartStream "r" "alice"); ("v", 3000, JoinRoom "r" "bob")]
                   joined.1).1 in
   joined.2 = [SocketJoin "v" "r"; SocketEmit "v" (PRoleAwaiting "r" go_live_message)] ∧
   (removeUser "v" later).2 =
     Some {| ud_roomId := "r"; ud_role := Some RoleViewer; ud_username := Some "bob";
             ud_viewerCount := 0 |} ∧
   (on_disconnect "v" 4000 later).2 =
     [IoTo "s" (PViewerLeft "bob" 0); IoTo "r" (PViewerCountUpdate 0);
      IoTo "r" (PSystemMessage "System" "bob left the stream" 4000)]).
Proof.
  split.
  - split; [by eexists|]. vm_compute. repeat split.
  - vm_compute. repeat split.
Qed.

(** C10, amended. A [join-room] with a room id and a user name, on a room
    without a streamer, answers [role-assigned] with role
    'awaiting-stream' and changes neither the reverse map nor the viewers
    of the room, so that a connection recorded in neither before the join
    is recorded in neither after it; the room is registered afterwards,
    created empty if it was not there. If the connection had no
    reverse-map entry, then as long as it sends neither [start-stream] nor
    a further [join-room], whatever else happens, it has none at its
    disconnect: [removeUser] returns null, the [disconnect] handler sends
    nothing and changes nothing. In particular the empty room that the
    join created is still registered after a disconnect that follows the
    join. *)
Theorem C10_awaiting_stream_join (cfg : Config) (socketId roomId username : string)
    (now : Z) (st : State) :
  roomId ≠ "" → username ≠ "" → occupant st roomId = None →
  let out := on_join_room cfg socketId roomId username now st in
  go_live_message = "You can start streaming by clicking " +:+ dquote +:+ "Go Live"
                      +:+ dquote ∧
  out.2 = [SocketJoin socketId roomId;
           SocketEmit socketId (PRoleAwaiting roomId go_live_message)] ∧
  socketToRoom out.1 = socketToRoom st ∧
  viewers_of out.1 roomId = viewers_of st roomId ∧
  (socketToRoom st !! socketId = None → viewers_of st roomId !! socketId = None →
     socketToRoom out.1 !! socketId = None ∧
     viewers_of out.1 roomId !! socketId = None) ∧
  is_Some (rooms out.1 !! roomId) ∧
  (socketToRoom st !! socketId = None →
     ∀ evs now',
       forallb (keeps_unbound socketId) evs = true →
       let st' := (run cfg evs out.1).1 in
       removeUser socketId st' = (st', None) ∧
       on_disconnect socketId now' st' = (st', [])) ∧
  (socketToRoom st !! socketId = None → rooms st !! roomId = None →
     ∀ now', ∃ room,
       rooms (on_disconnect socketId now' out.1).1 !! roomId = Some room ∧
       streamer room = None ∧ viewers room = ∅).
Proof.
  intros Hr Hu Hocc out.
  assert (out = ((getOrCreateRoom roomId now st).1,
                 [SocketJoin socketId roomId;
                  SocketEmit socketId (PRoleAwaiting roomId go_live_message)])) as ->.
  { subst out. unfold on_join_room. rewrite decide_False by tauto.
    pose proof (getOrCreateRoom_occupant roomId now st roomId) as Hocc1.
    pose proof (getOrCreateRoom_result roomId now st) as Hres.
    destruct (getOrCreateRoom roomId now st) as [st1 room]. simpl in *.
    rewrite Hocc in Hocc1. unfold occupant in Hocc1.
    rewrite Hres in Hocc1. simpl in Hocc1. by rewrite Hocc1. }
  simpl. split; [done|]. split; [done|].
  split; [apply getOrCreateRoom_socketToRoom|].
  split; [apply getOrCreateRoom_viewers_of|].
  split.
  { intros Hnone Hnv.
    by rewrite getOrCreateRoom_socketToRoom, getOrCreateRoom_viewers_of. }
  split; [rewrite getOrCreateRoom_result; by eexists|].
  split.
  - intros Hnone evs now' Hevs.
    assert (socketToRoom (run cfg evs (getOrCreateRoom roomId now st).1).1 !! socketId
            = None) as Hnone'.
    { apply run_keeps_unbound; [done|]. by rewrite getOrCreateRoom_socketToRoom. }
    split; [by apply removeUser_unbound|by apply on_disconnect_unbound].
  - intros Hnone Hroom now'.
    rewrite on_disconnect_unbound by (by rewrite getOrCreateRoom_socketToRoom).
    simpl. unfold getOrCreateRoom, createRoom. rewrite Hroom. simpl.
    rewrite lookup_insert_eq. by eexists.
Qed.

Lemma C10_awaiting_stream_join_witness :
  let out := on_join_room source_config "v" "r" "bob" 1000 initial_state in
  out.2 = [SocketJoin "v" "r"; SocketEmit "v" (PRoleAwaiting "r" go_live_message)] ∧
  socketToRoom out.1 = ∅ ∧
  viewers_of out.1 "r" = ∅ ∧
  (socketToRoom out.1 !! "v" = None ∧ viewers_of out.1 "r" !! "v" = None) ∧
  (let st' := (run source_config
                 [("s", 2000, StartStream "r" "alice");
                  ("v", 3000, ChatMessage "r" "bob" (js "hi"));
                  ("s", 4000, Disconnect)] out.1).1 in
   removeUser "v" st' = (st', None) ∧ on_disconnect "v" 5000 st' = (st', [])) ∧
  ∃ room, rooms (on_disconnect "v" 2000 out.1).1 !! "r" = Some room ∧
          streamer room = None ∧ viewers room = ∅.
Proof.
  intros out.
  assert ("r" ≠ "") as Hr by discriminate.
  assert ("bob" ≠ "") as Hu by discriminate.
  destruct (C10_awaiting_stream_join source_config "v" "r" "bob" 1000 initial_state
              Hr Hu eq_refl) as (_ & Hout & Hmap & Hvs & Hnew & _ & Hgone & Hroom).
  split; [exact Hout|]. split; [exact Hmap|]. split; [exact Hvs|].
  split; [exact (Hnew eq_refl eq_refl)|]. split.
  - apply (Hgone eq_refl); reflexivity.
  - apply (Hroom eq_refl eq_refl).
Defined.

(** * Further properties *)
(** ** Invariants of the rooms *)

(** Every way in which an event can change, add or drop a room, as a
    closure property: a predicate on rooms that holds of a fresh room and
    survives the four kinds of update holds of every room of every
    reachable state. *)
Section RoomInvariant.
Context (cfg : Config) (P : Room → Prop).
Hypothesis P_fresh : ∀ now,
  P {| streamer := None; viewers := ∅; messages := []; createdAt := now;
       stats := {| totalViewers := 0; peakViewers := 0; messagesCount := 0 |} |}.
Hypothesis P_streamer : ∀ s room, P room → P (set_streamer s room).
Hypothesis P_viewer : ∀ socketId username now room,
  P room → (size (viewers room) < MAX_VIEWERS_PER_ROOM cfg)%nat →
  P (with_viewer socketId username now room).
Hypothesis P_leave : ∀ socketId room,
  P room → P (set_viewers (delete socketId (viewers room)) room).
Hypothesis P_message : ∀ m room, P room → P (with_message cfg m room).

Lemma getOrCreateRoom_Forall roomId now st :
  map_Forall (λ _, P) (rooms st) →
  map_Forall (λ _, P) (rooms (getOrCreateRoom roomId now st).1) ∧
  P (getOrCreateRoom roomId now st).2.
Proof using P_fresh.
  intros Hall. unfold getOrCreateRoom, createRoom.
  destruct (rooms st !! roomId) as [room|] eqn:Hroom; simpl.
  - split; [done|]. by apply (map_Forall_lookup_1 _ _ _ _ Hall Hroom).
  - split; [|done]. by apply map_Forall_insert_2.
Qed.

Lemma addStreamer_Forall roomId socketId username now st :
  map_Forall (λ _, P) (rooms st) →
  map_Forall (λ _, P) (rooms (addStreamer roomId socketId username now st).1).
Proof using P_fresh P_streamer.
  intros Hall. unfold addStreamer.
  destruct (getOrCreateRoom_Forall roomId now st Hall) as [Hall1 Hroom].
  destruct (getOrCreateRoom roomId now st) as [st1 room]. simpl in *.
  destruct (streamer room); [done|]. apply map_Forall_insert_2; [|done].
  by apply P_streamer.
Qed.

Lemma addViewer_Forall roomId socketId username now st :
  map_Forall (λ _, P) (rooms st) →
  map_Forall (λ _, P) (rooms (addViewer cfg roomId socketId username now st).1).
Proof using P_fresh P_viewer.
  intros Hall. unfold addViewer.
  destruct (getOrCreateRoom_Forall roomId now st Hall) as [Hall1 Hroom].
  destruct (getOrCreateRoom roomId now st) as [st1 room]. simpl in *.
  destruct (streamer room); [|done]. case_decide as Hfull; [done|].
  apply map_Forall_insert_2; [|done].
  apply (P_viewer socketId username now room Hroom). lia.
Qed.

Lemma removeUser_Forall socketId st :
  map_Forall (λ _, P) (rooms st) →
  map_Forall (λ _, P) (rooms (removeUser socketId st).1).
Proof using P_streamer P_leave.
  intros Hall. unfold removeUser.
  destruct (socketToRoom st !! socketId) as [roomId|]; [|done].
  case_decide; [done|].
  destruct (rooms st !! roomId) as [room|] eqn:Hroom; [|done].
  pose proof (map_Forall_lookup_1 _ _ _ _ Hall Hroom) as HP. simpl in HP.
  assert (∀ room' role username, P room' →
            map_Forall (λ _, P)
              (rooms
                 (let '(room', role, username) := (room', role, username) in
                  let st1 := set_rooms (<[roomId := room']> (rooms st)) st in
                  let st2 := set_socketToRoom (delete socketId (socketToRoom st1)) st1 in
                  let st3 := set_messageRateLimits
                               (delete socketId (messageRateLimits st2)) st2 in
                  let st4 := if room_is_empty room'
                             then set_rooms (delete roomId (rooms st3)) st3 else st3 in
                  (st4, Some {| ud_roomId := roomId; ud_role := role;
                                ud_username := username;
                                ud_viewerCount := size (viewers room') |})).1))
    as Hkeep.
  { intros room' role username HP'. simpl.
    assert (map_Forall (λ _, P) (<[roomId := room']> (rooms st))) as Hins
      by (by apply map_Forall_insert_2).
    destruct (room_is_empty room'); simpl; [|done]. by apply map_Forall_delete. }
  destruct (streamer room) as [s|]; [case_decide|];
    try destruct (viewers room !! socketId);
    apply Hkeep; auto.
Qed.

Lemma handle_Forall socketId now e st :
  map_Forall (λ _, P) (rooms st) →
  map_Forall (λ _, P) (rooms (handle cfg socketId now e st).1).
Proof using All.
  intros Hall. destruct e as [roomId username|roomId username|?|?|?|roomId
                              |roomId username message|roomId|]; simpl.
  - unfold on_join_room. case_decide; [done|].
    destruct (getOrCreateRoom_Forall roomId now st Hall) as [Hall1 _].
    destruct (getOrCreateRoom roomId now st) as [st1 room]. simpl in Hall1.
    destruct (streamer room); [|done].
    pose proof (addViewer_Forall roomId socketId username now st1 Hall1) as Hall2.
    by destruct (addViewer cfg roomId socketId username now st1) as [st2 [?|? ?]].
  - unfold on_start_stream.
    pose proof (addStreamer_Forall roomId socketId username now st Hall) as Hall1.
    by destruct (addStreamer roomId socketId username now st) as [st1 [|? ?]].
  - done.
  - done.
  - done.
  - unfold on_request_stream. destruct (rooms st !! roomId) as [room|]; [|done].
    by destruct (streamer room).
  - unfold on_chat_message.
    destruct (addMessage_rooms cfg roomId socketId username message now st)
      as [Hsame|(room & Hroom & Hins)];
      destruct (addMessage cfg roomId socketId username message now st)
        as [st1 [?|?]]; simpl in *; rewrite ?Hsame, ?Hins; try done;
      (apply map_Forall_insert_2; [|done]); apply P_message;
      by apply (map_Forall_lookup_1 _ _ _ _ Hall Hroom).
  - unfold on_stop_stream. destruct (rooms st !! roomId) as [room|] eqn:Hroom; [|done].
    destruct (streamer room); [|done]. case_decide; [|done].
    apply map_Forall_insert_2; [|done]. apply P_streamer.
    by apply (map_Forall_lookup_1 _ _ _ _ Hall Hroom).
  - rewrite on_disconnect_state. by apply removeUser_Forall.
Qed.

Lemma reachable_Forall st roomId room :
  reachable cfg st → rooms st !! roomId = Some room → P room.
Proof using All.
  intros [evs <-]. revert roomId room.
  assert (∀ st0, map_Forall (λ _, P) (rooms st0) →
                 map_Forall (λ _, P) (rooms (run cfg evs st0).1)) as Hrun.
  { induction evs as [|[[socketId now] e] evs IH]; intros st0 Hall; [done|].
    simpl. pose proof (handle_Forall socketId now e st0 Hall) as Hall1.
    destruct (handle cfg socketId now e st0) as [st1 out1]. simpl in Hall1.
    specialize (IH st1 Hall1). by destruct (run cfg evs st1). }
  intros roomId room Hroom.
  apply (map_Forall_lookup_1 _ _ _ _ (Hrun initial_state (map_Forall_empty _)) Hroom).
Qed.

End RoomInvariant.
Lemma room_consistent_reachable cfg st roomId room :
  reachable cfg st → rooms st !! roomId = Some room → room_consistent cfg room.
Proof.
  apply (reachable_Forall cfg (room_consistent cfg)); unfold room_consistent.
  - intros now. simpl. rewrite map_size_empty. lia.
  - intros s room0. done.
  - intros socketId username now room0 (Hcap & Hpeak & Htotal & Hpmax & Hlog) Hfree.
    simpl.
    assert (size (<[socketId := {| v_username := username; v_connectedAt := now |}]>
                    (viewers room0)) ≤ S (size (viewers room0)))%nat as Hsize.
    { destruct (viewers room0 !! socketId) eqn:Hin.
      - rewrite map_size_insert_Some by eauto. lia.
      - rewrite map_size_insert_None by done. lia. }
    lia.
  - intros socketId room0 (Hcap & Hpeak & Htotal & Hpmax & Hlog). simpl.
    assert (size (delete socketId (viewers room0)) ≤ size (viewers room0))%nat as Hsize.
    { destruct (viewers room0 !! socketId) eqn:Hin.
      - rewrite map_size_delete_Some by eauto. lia.
      - rewrite delete_id by done. lia. }
    lia.
  - intros m room0 (Hcap & Hpeak & Htotal & Hpmax & Hlog). simpl.
    repeat split; try done. case_decide.
    + destruct (messages room0 ++ [m]) eqn:Hl; simpl; [lia|].
      apply (f_equal length) in Hl. rewrite length_app in Hl. simpl in Hl. lia.
    + rewrite length_app. simpl. lia.
Qed.

(** X1. In every reachable state every room has at most
    [MAX_VIEWERS_PER_ROOM] viewers: the test in [addViewer] is the only
    way into a viewer map, whatever the order of joins, stops and
    disconnects. *)
Theorem X1_viewer_cap_invariant (cfg : Config) (st : State) (roomId : string)
    (room : Room) :
  reachable cfg st → rooms st !! roomId = Some room →
  (size (viewers room) ≤ MAX_VIEWERS_PER_ROOM cfg)%nat ∧
  (getViewerCount roomId st ≤ MAX_VIEWERS_PER_ROOM cfg)%nat.
Proof.
  intros Hreach Hroom.
  destruct (room_consistent_reachable cfg st roomId room Hreach Hroom) as (Hcap & _).
  split; [done|]. unfold getViewerCount. by rewrite Hroom.
Qed.

Lemma X1_viewer_cap_invariant_witness :
  reachable source_config watched_state ∧
  (∃ room, rooms watched_state !! "r" = Some room ∧
           (size (viewers room) ≤ MAX_VIEWERS_PER_ROOM source_config)%nat) ∧
  (getViewerCount "r" watched_state ≤ MAX_VIEWERS_PER_ROOM source_config)%nat.
Proof.
  assert (reachable source_config watched_state) as Hreach by (by eexists).
  assert (is_Some (rooms watched_state !! "r")) as [room Hroom] by (by eexists).
  destruct (X1_viewer_cap_invariant source_config watched_state "r" room Hreach Hroom)
    as [Hsize Hcount].
  split; [exact Hreach|]. split; [|exact Hcount]. exists room. by split.
Defined.

(** X2. In every reachable state the statistics of a room agree with its
    contents: the viewer map is no larger than [peakViewers], which is at
    most [totalViewers] and at most the cap, and the chat log is no longer
    than [messagesCount]. *)
Theorem X2_stats_consistent (cfg : Config) (st : State) (roomId : string)
    (room : Room) :
  reachable cfg st → rooms st !! roomId = Some room →
  (size (viewers room) ≤ peakViewers (stats room))%nat ∧
  (peakViewers (stats room) ≤ totalViewers (stats room))%nat ∧
  (peakViewers (stats room) ≤ MAX_VIEWERS_PER_ROOM cfg)%nat ∧
  (length (messages room) ≤ messagesCount (stats room))%nat.
Proof.
  intros Hreach Hroom.
  by destruct (room_consistent_reachable cfg st roomId room Hreach Hroom) as (_ & ?).
Qed.

Lemma X2_stats_consistent_witness :
  reachable source_config watched_state ∧
  ∃ room, rooms watched_state !! "r" = Some room ∧
          (size (viewers room) ≤ peakViewers (stats room))%nat ∧
          (peakViewers (stats room) ≤ totalViewers (stats room))%nat ∧
          (peakViewers (stats room) ≤ MAX_VIEWERS_PER_ROOM source_config)%nat ∧
          (length (messages room) ≤ messagesCount (stats room))%nat.
Proof.
  assert (reachable source_config watched_state) as Hreach by (by eexists).
  assert (is_Some (rooms watched_state !! "r")) as [room Hroom] by (by eexists).
  split; [exact Hreach|]. exists room. split; [exact Hroom|].
  exact (X2_stats_consistent source_config watched_state "r" room Hreach Hroom).
Defined.
(** ** Leaving a room *)

(** [removeUser], read backwards: the three ways in which it finds the
    leaving connection in the room that the reverse map names. *)
Lemma removeUser_inv socketId st st' ud :
  removeUser socketId st = (st', Some ud) →
  ∃ room room',
    socketToRoom st !! socketId = Some (ud_roomId ud) ∧ ud_roomId ud ≠ "" ∧
    rooms st !! ud_roomId ud = Some room ∧
    st' = after_removal socketId (ud_roomId ud) room' st ∧
    ud_viewerCount ud = size (viewers room') ∧
    ((∃ cur, streamer room = Some cur ∧ s_socketId cur = socketId ∧
             ud_role ud = Some RoleStreamer ∧ ud_username ud = Some (s_username cur) ∧
             room' = set_streamer None room) ∨
     (∃ viewer, s_socketId <$> streamer room ≠ Some socketId ∧
                viewers room !! socketId = Some viewer ∧
                ud_role ud = Some RoleViewer ∧
                ud_username ud = Some (v_username viewer) ∧
                room' = set_viewers (delete socketId (viewers room)) room) ∨
     (s_socketId <$> streamer room ≠ Some socketId ∧
      viewers room !! socketId = None ∧
      ud_role ud = None ∧ ud_username ud = None ∧ room' = room)).
Proof.
  unfold removeUser.
  destruct (socketToRoom st !! socketId) as [roomId|] eqn:Hmap; [|done].
  case_decide as Hne; [done|].
  destruct (rooms st !! roomId) as [room|] eqn:Hroom; [|done].
  assert (∀ room',
            (let st1 := set_rooms (<[roomId := room']> (rooms st)) st in
             let st2 := set_socketToRoom (delete socketId (socketToRoom st1)) st1 in
             let st3 := set_messageRateLimits
                          (delete socketId (messageRateLimits st2)) st2 in
             if room_is_empty room'
             then set_rooms (delete roomId (rooms st3)) st3 else st3)
            = after_removal socketId roomId room' st) as Hst.
  { intros room'. unfold after_removal. simpl.
    destruct (room_is_empty room'); [|done].
    unfold set_rooms. simpl. by rewrite delete_insert_eq. }
  destruct (streamer room) as [cur|] eqn:Hcur.
  - case_decide as Hid.
    + intros [= <- <-]. exists room, (set_streamer None room). simpl.
      rewrite <- (Hst (set_streamer None room)).
      repeat split; try done. left. exists cur. by repeat split.
    + destruct (viewers room !! socketId) as [viewer|] eqn:Hv; intros [= <- <-];
        eexists room, _; simpl; rewrite <- (Hst _);
        (repeat split; [done..|]); right.
      * left. exists viewer. repeat split; try done. rewrite Hcur. by intros [= ?].
      * right. repeat split; try done. rewrite Hcur. by intros [= ?].
  - destruct (viewers room !! socketId) as [viewer|] eqn:Hv; intros [= <- <-];
      eexists room, _; simpl; rewrite <- (Hst _);
      (repeat split; [done..|]); right.
    + left. exists viewer. repeat split; try done. by rewrite Hcur.
    + right. repeat split; try done. by rewrite Hcur.
Qed.
Lemma removeUser_after_removal socketId roomId room' role username st :
  (let st1 := set_rooms (<[roomId := room']> (rooms st)) st in
   let st2 := set_socketToRoom (delete socketId (socketToRoom st1)) st1 in
   let st3 := set_messageRateLimits (delete socketId (messageRateLimits st2)) st2 in
   let st4 := if room_is_empty room'
              then set_rooms (delete roomId (rooms st3)) st3 else st3 in
   (st4, Some {| ud_roomId := roomId; ud_role := role; ud_username := username;
                 ud_viewerCount := size (viewers room') |}))
  = (after_removal socketId roomId room' st,
     Some {| ud_roomId := roomId; ud_role := role; ud_username := username;
             ud_viewerCount := size (viewers room') |}).
Proof.
  simpl. f_equal. unfold after_removal. destruct (room_is_empty room'); [|done].
  unfold set_rooms. simpl. by rewrite delete_insert_eq.
Qed.

Lemma removeUser_streamer_exact socketId roomId st room cur :
  socketToRoom st !! socketId = Some roomId → roomId ≠ "" →
  rooms st !! roomId = Some room → streamer room = Some cur →
  s_socketId cur = socketId →
  removeUser socketId st =
    (after_removal socketId roomId (set_streamer None room) st,
     Some {| ud_roomId := roomId; ud_role := Some RoleStreamer;
             ud_username := Some (s_username cur);
             ud_viewerCount := size (viewers room) |}).
Proof.
  intros Hmap Hne Hroom Hcur Hid. unfold removeUser.
  rewrite Hmap, decide_False, Hroom, Hcur by done. rewrite decide_True by done.
  exact (removeUser_after_removal socketId roomId (set_streamer None room)
           (Some RoleStreamer) (Some (s_username cur)) st).
Qed.

Lemma removeUser_viewer_exact socketId roomId st room viewer :
  socketToRoom st !! socketId = Some roomId → roomId ≠ "" →
  rooms st !! roomId = Some room →
  s_socketId <$> streamer room ≠ Some socketId →
  viewers room !! socketId = Some viewer →
  removeUser socketId st =
    (after_removal socketId roomId
       (set_viewers (delete socketId (viewers room)) room) st,
     Some {| ud_roomId := roomId; ud_role := Some RoleViewer;
             ud_username := Some (v_username viewer);
             ud_viewerCount := size (delete socketId (viewers room)) |}).
Proof.
  intros Hmap Hne Hroom Hnot Hv. unfold removeUser.
  rewrite Hmap, decide_False, Hroom by done.
  destruct (streamer room) as [cur|].
  - rewrite decide_False by (intros Hid; apply Hnot; simpl; by rewrite Hid).
    rewrite Hv.
    exact (removeUser_after_removal socketId roomId
             (set_viewers (delete socketId (viewers room)) room)
             (Some RoleViewer) (Some (v_username viewer)) st).
  - rewrite Hv.
    exact (removeUser_after_removal socketId roomId
             (set_viewers (delete socketId (viewers room)) room)
             (Some RoleViewer) (Some (v_username viewer)) st).
Qed.

Lemma removeUser_roleless_exact socketId roomId st room :
  socketToRoom st !! socketId = Some roomId → roomId ≠ "" →
  rooms st !! roomId = Some room →
  s_socketId <$> streamer room ≠ Some socketId →
  viewers room !! socketId = None →
  removeUser socketId st =
    (after_removal socketId roomId room st,
     Some {| ud_roomId := roomId; ud_role := None; ud_username := None;
             ud_viewerCount := size (viewers room) |}).
Proof.
  intros Hmap Hne Hroom Hnot Hv. unfold removeUser.
  rewrite Hmap, decide_False, Hroom by done.
  destruct (streamer room) as [cur|].
  - rewrite decide_False by (intros Hid; apply Hnot; simpl; by rewrite Hid).
    rewrite Hv. exact (removeUser_after_removal socketId roomId room None None st).
  - rewrite Hv. exact (removeUser_after_removal socketId roomId room None None st).
Qed.
Lemma getViewerCount_after_removal socketId roomId room' st :
  getViewerCount roomId (after_removal socketId roomId room' st) = size (viewers room').
Proof.
  unfold getViewerCount, after_removal. simpl.
  destruct (room_is_empty room') eqn:Hempty.
  - rewrite lookup_delete_eq. apply room_is_empty_true in Hempty as [_ ->].
    by rewrite map_size_empty.
  - by rewrite lookup_insert_eq.
Qed.

(** X3. The viewer count that [removeUser] returns, and that the disconnect
    handler broadcasts, is the count [getViewerCount] gives for that room
    afterwards, also when the room has just been deleted. It is one less
    than before when a viewer has left and the same as before when the
    streamer has left. *)
Theorem X3_disconnect_count (socketId : string) (st st' : State) (ud : UserData) :
  removeUser socketId st = (st', Some ud) →
  ud_viewerCount ud = getViewerCount (ud_roomId ud) st' ∧
  (ud_role ud = Some RoleViewer →
     S (ud_viewerCount ud) = getViewerCount (ud_roomId ud) st) ∧
  (ud_role ud ≠ Some RoleViewer →
     ud_viewerCount ud = getViewerCount (ud_roomId ud) st).
Proof.
  intros (room & room' & _ & _ & Hroom & -> & Hcount & Hcases)%removeUser_inv.
  rewrite getViewerCount_after_removal. split; [done|].
  unfold getViewerCount. rewrite Hroom, Hcount.
  destruct Hcases as [(cur & _ & _ & Hrole & _ & ->)
                     |[(viewer & _ & Hv & Hrole & _ & ->)|(_ & _ & Hrole & _ & ->)]];
    rewrite Hrole; simpl.
  - split; [done|]. done.
  - split; [|done]. intros _. rewrite map_size_delete_Some by eauto.
    assert (size (viewers room) ≠ 0%nat); [|lia].
    intros Hz%map_size_empty_iff. rewrite Hz in Hv. by rewrite lookup_empty in Hv.
  - split; [done|]. done.
Qed.

Lemma X3_disconnect_count_witness :
  (∃ st' ud, removeUser "v" watched_state = (st', Some ud) ∧
             ud_role ud = Some RoleViewer ∧
             ud_viewerCount ud = getViewerCount "r" st' ∧
             S (ud_viewerCount ud) = getViewerCount "r" watched_state).
Proof.
  destruct (removeUser "v" watched_state) as [st' [ud|]] eqn:Hrm;
    [|vm_compute in Hrm; discriminate Hrm].
  assert (ud_roomId ud = "r" ∧ ud_role ud = Some RoleViewer) as [Hr Hrole]
    by (vm_compute in Hrm; injection Hrm as _ <-; by split).
  destruct (X3_disconnect_count "v" watched_state st' ud Hrm) as (H1 & H2 & _).
  exists st', ud. rewrite Hr in H1, H2. by repeat split; [..|apply H2].
Defined.
(** X4. Garbage collection of a room. In a room with a streamer and one
    viewer, both known to the reverse map, the streamer's disconnect keeps
    the room, without a streamer, for the viewer; the viewer's disconnect
    then deletes the room, and both reverse-map entries are gone. The same
    holds when the viewer leaves first. *)
Theorem X4_room_garbage_collection (s v roomId : string) (now1 now2 : Z)
    (st : State) (room : Room) (cur : Streamer) (viewer : Viewer) :
  rooms st !! roomId = Some room → roomId ≠ "" →
  streamer room = Some cur → s_socketId cur = s →
  viewers room = {[ v := viewer ]} → s ≠ v →
  socketToRoom st !! s = Some roomId → socketToRoom st !! v = Some roomId →
  let st1 := (on_disconnect s now1 st).1 in
  let st2 := (on_disconnect v now2 st1).1 in
  let st1' := (on_disconnect v now1 st).1 in
  let st2' := (on_disconnect s now2 st1').1 in
  rooms st1 !! roomId = Some (set_streamer None room) ∧
  rooms st2 = delete roomId (rooms st) ∧
  socketToRoom st2 = delete v (delete s (socketToRoom st)) ∧
  getRoomInfo roomId st2 = None ∧
  rooms st1' !! roomId = Some (set_viewers ∅ room) ∧
  rooms st2' = delete roomId (rooms st) ∧
  socketToRoom st2' = delete s (delete v (socketToRoom st)).
Proof.
  intros Hroom Hne Hcur Hid Hv Hsv Hs Hvw st1 st2 st1' st2'.
  assert (room_is_empty (set_streamer None room) = false) as Hkeep.
  { apply not_true_is_false. intros [_ Hem]%room_is_empty_true. simpl in Hem.
    rewrite Hv in Hem. by apply (map_non_empty_singleton v viewer). }
  assert (room_is_empty (set_viewers ∅ room) = false) as Hkeep'.
  { apply not_true_is_false. intros [Hem _]%room_is_empty_true. simpl in Hem.
    congruence. }
  assert (delete v (viewers room) = ∅) as Hdel by (by rewrite Hv, delete_singleton_eq).
  assert (st1 = after_removal s roomId (set_streamer None room) st) as Hst1.
  { unfold st1. rewrite on_disconnect_state.
    by rewrite (removeUser_streamer_exact s roomId st room cur). }
  assert (st1' = after_removal v roomId (set_viewers ∅ room) st) as Hst1'.
  { unfold st1'. rewrite on_disconnect_state.
    rewrite (removeUser_viewer_exact v roomId st room viewer); try done.
    - simpl. by rewrite Hdel.
    - rewrite Hcur. simpl. intros [= ?]. congruence.
    - by rewrite Hv, lookup_singleton_eq. }
  assert (rooms st1 !! roomId = Some (set_streamer None room)) as Hroom1.
  { rewrite Hst1. unfold after_removal. simpl. by rewrite Hkeep, lookup_insert_eq. }
  assert (rooms st1' !! roomId = Some (set_viewers ∅ room)) as Hroom1'.
  { rewrite Hst1'. unfold after_removal. simpl. by rewrite Hkeep', lookup_insert_eq. }
  assert (st2 = after_removal v roomId
                  (set_viewers ∅ (set_streamer None room)) st1) as Hst2.
  { unfold st2. rewrite on_disconnect_state.
    rewrite (removeUser_viewer_exact v roomId st1 (set_streamer None room) viewer);
      try done.
    - simpl. by rewrite Hdel.
    - rewrite Hst1. simpl. by rewrite lookup_delete_ne.
    - simpl. by rewrite Hv, lookup_singleton_eq. }
  assert (st2' = after_removal s roomId
                   (set_streamer None (set_viewers ∅ room)) st1') as Hst2'.
  { unfold st2'. rewrite on_disconnect_state.
    rewrite (removeUser_streamer_exact s roomId st1' (set_viewers ∅ room) cur);
      try done.
    rewrite Hst1'. simpl. by rewrite lookup_delete_ne. }
  assert (rooms st2 = delete roomId (rooms st)) as Hrooms2.
  { rewrite Hst2, Hst1. unfold after_removal. simpl. rewrite Hkeep.
    replace (room_is_empty (set_viewers ∅ (set_streamer None room))) with true
      by (symmetry; by apply room_is_empty_true).
    by rewrite delete_insert_eq. }
  repeat split; try done.
  - by rewrite Hst2, Hst1.
  - unfold getRoomInfo. by rewrite Hrooms2, lookup_delete_eq.
  - rewrite Hst2', Hst1'. unfold after_removal. simpl. rewrite Hkeep'.
    replace (room_is_empty (set_streamer None (set_viewers ∅ room))) with true
      by (symmetry; by apply room_is_empty_true).
    by rewrite delete_insert_eq.
  - by rewrite Hst2', Hst1'.
Qed.
Lemma X4_room_garbage_collection_witness :
  rooms watched_state !! "r" = Some (with_viewer "v" "bob" 2000 live_room) ∧
  rooms (on_disconnect "v" 4000 (on_disconnect "s" 3000 watched_state).1).1 =
    delete "r" (rooms watched_state) ∧
  getRoomInfo "r" (on_disconnect "v" 4000 (on_disconnect "s" 3000 watched_state).1).1
    = None.
Proof.
  assert (rooms watched_state !! "r" = Some (with_viewer "v" "bob" 2000 live_room))
    as Hroom by (vm_compute; reflexivity).
  assert ("r" ≠ "") as Hne by discriminate.
  assert ("s" ≠ "v") as Hsv by discriminate.
  assert (viewers (with_viewer "v" "bob" 2000 live_room) =
          {[ "v" := {| v_username := "bob"; v_connectedAt := 2000 |} ]}) as Hv
    by (vm_compute; reflexivity).
  destruct (X4_room_garbage_collection "s" "v" "r" 3000 4000 watched_state
              (with_viewer "v" "bob" 2000 live_room) alice
              {| v_username := "bob"; v_connectedAt := 2000 |}
              Hroom Hne eq_refl eq_refl Hv Hsv eq_refl eq_refl)
    as (_ & Hrooms & _ & Hinfo & _).
  split; [exact Hroom|]. split; [exact Hrooms|exact Hinfo].
Defined.

(** ** Joining and leaving *)

(** X5. Joining and leaving again. When a connection that is neither the
    streamer nor yet a viewer of a live room with a free place is added by
    [addViewer] and then removed by [removeUser], the room has its old
    viewer map, streamer, chat log, creation time and message count again,
    and the connection has no reverse-map entry; only [totalViewers],
    which counts the admission, and [peakViewers] keep a trace of the
    visit. [removeUser] reports the
    role viewer, the name given at the join and the old viewer count. *)
Theorem X5_join_leave_round_trip (cfg : Config) (roomId socketId username : string)
    (now : Z) (st : State) (room : Room) :
  rooms st !! roomId = Some room → roomId ≠ "" →
  is_Some (streamer room) → s_socketId <$> streamer room ≠ Some socketId →
  viewers room !! socketId = None →
  (size (viewers room) < MAX_VIEWERS_PER_ROOM cfg)%nat →
  let joined := addViewer cfg roomId socketId username now st in
  let left := removeUser socketId joined.1 in
  joined.2 = ViewerOk (S (size (viewers room))) ∧
  left.2 = Some {| ud_roomId := roomId; ud_role := Some RoleViewer;
                   ud_username := Some username;
                   ud_viewerCount := size (viewers room) |} ∧
  socketToRoom left.1 = delete socketId (socketToRoom st) ∧
  ∃ room', rooms left.1 = <[roomId := room']> (rooms st) ∧
           viewers room' = viewers room ∧ streamer room' = streamer room ∧
           messages room' = messages room ∧
           totalViewers (stats room') = S (totalViewers (stats room)) ∧
           peakViewers (stats room') =
             Nat.max (peakViewers (stats room)) (S (size (viewers room))) ∧
           messagesCount (stats room') = messagesCount (stats room) ∧
           createdAt room' = createdAt room.
Proof.
  intros Hroom Hne Hlive Hnot Hfresh Hfree joined left.
  assert (size (viewers (with_viewer socketId username now room)) =
          S (size (viewers room))) as Hsize
    by (rewrite with_viewer_viewers; by apply map_size_insert_None).
  assert (delete socketId (viewers (with_viewer socketId username now room)) =
          viewers room) as Hdel
    by (rewrite with_viewer_viewers; by apply delete_insert_id).
  assert (joined =
    (set_socketToRoom (<[socketId := roomId]> (socketToRoom st))
       (set_rooms (<[roomId := with_viewer socketId username now room]> (rooms st)) st),
     ViewerOk (S (size (viewers room))))) as Hjoined.
  { unfold joined. rewrite (addViewer_ok cfg roomId socketId username now st room)
      by done. by rewrite Hsize. }
  assert (left =
    (after_removal socketId roomId
       (set_viewers (viewers room) (with_viewer socketId username now room)) joined.1,
     Some {| ud_roomId := roomId; ud_role := Some RoleViewer;
             ud_username := Some username;
             ud_viewerCount := size (viewers room) |})) as Hleft.
  { unfold left.
    rewrite (removeUser_viewer_exact socketId roomId joined.1
               (with_viewer socketId username now room)
               {| v_username := username; v_connectedAt := now |}).
    - by rewrite Hdel.
    - rewrite Hjoined. simpl. by rewrite lookup_insert_eq.
    - done.
    - rewrite Hjoined. simpl. by rewrite lookup_insert_eq.
    - done.
    - by rewrite with_viewer_viewers, lookup_insert_eq. }
  split; [by rewrite Hjoined|]. split; [by rewrite Hleft|].
  rewrite Hleft, Hjoined. unfold after_removal. simpl.
  split; [by rewrite delete_insert_eq|].
  replace (room_is_empty _) with false.
  - rewrite with_viewer_viewers in Hsize.
    eexists. split; [by rewrite insert_insert_eq|]. simpl. by rewrite Hsize.
  - symmetry. apply not_true_is_false. intros [Hs _]%room_is_empty_true.
    simpl in Hs. destruct Hlive as [cur Hcur]. congruence.
Qed.
Lemma X5_join_leave_round_trip_witness :
  rooms live_state !! "r" = Some live_room ∧
  (addViewer source_config "r" "v" "bob" 2000 live_state).2 = ViewerOk 1 ∧
  (removeUser "v" (addViewer source_config "r" "v" "bob" 2000 live_state).1).2 =
    Some {| ud_roomId := "r"; ud_role := Some RoleViewer; ud_username := Some "bob";
            ud_viewerCount := 0 |}.
Proof.
  assert ("r" ≠ "") as Hne by discriminate.
  assert (is_Some (streamer live_room)) as Hlive by (by eexists).
  assert (s_socketId <$> streamer live_room ≠ Some "v") as Hnot by discriminate.
  assert (viewers live_room !! "v" = None) as Hfresh by reflexivity.
  assert (size (viewers live_room) < MAX_VIEWERS_PER_ROOM source_config)%nat as Hfree
    by (vm_compute; lia).
  destruct (X5_join_leave_round_trip source_config "r" "v" "bob" 2000 live_state
              live_room live_state_room Hne Hlive Hnot Hfresh Hfree)
    as (Hjoin & Hleave & _).
  split; [exact live_state_room|]. split; [exact Hjoin|exact Hleave].
Defined.

(** ** What a disconnect leaves behind *)

(** X6. The reverse map holds one room per connection, the last one
    entered, and [removeUser] cleans up that room only. A connection that
    starts a stream in a free room [room1] and then in another free room
    [room2] is, after its disconnect, still the streamer of [room1]: it
    has no reverse-map entry any more, a second [removeUser] finds
    nothing, and every later claim of [room1] is rejected. *)
Theorem X6_streamer_of_two_rooms (room1 room2 socketId name1 name2 : string)
    (now1 now2 : Z) (st : State) :
  room1 ≠ room2 → room2 ≠ "" →
  occupant st room1 = None → occupant st room2 = None →
  let st1 := (addStreamer room1 socketId name1 now1 st).1 in
  let st2 := (addStreamer room2 socketId name2 now2 st1).1 in
  let st3 := (removeUser socketId st2).1 in
  ud_roomId <$> (removeUser socketId st2).2 = Some room2 ∧
  occupant st3 room2 = None ∧
  occupant st3 room1 =
    Some {| s_socketId := socketId; s_username := name1; s_connectedAt := now1 |} ∧
  socketToRoom st3 !! socketId = None ∧
  removeUser socketId st3 = (st3, None) ∧
  ∀ other name now,
    addStreamer room1 other name now st3 =
      (st3, StreamerErr "Room already has an active streamer" name1).
Proof.
  intros Hrooms Hne Hfree1 Hfree2 st1 st2 st3.
  destruct (addStreamer_free room1 socketId name1 now1 st Hfree1)
    as (st1' & Hadd1 & Hocc1 & _ & Hmap1 & _ & Hother1).
  assert (st1 = st1') as Hst1 by (unfold st1; by rewrite Hadd1).
  assert (occupant st1 room2 = None) as Hfree2'.
  { rewrite Hst1. unfold occupant. rewrite Hother1 by done. apply Hfree2. }
  destruct (addStreamer_free room2 socketId name2 now2 st1 Hfree2')
    as (st2' & Hadd2 & Hocc2 & _ & Hmap2 & _ & Hother2).
  assert (st2 = st2') as Hst2 by (unfold st2; by rewrite Hadd2).
  assert (occupant st2 room1 =
            Some {| s_socketId := socketId; s_username := name1;
                    s_connectedAt := now1 |}) as Hocc1'.
  { rewrite Hst2. unfold occupant. rewrite Hother2 by done. rewrite Hst1. apply Hocc1. }
  assert (socketToRoom st2 !! socketId = Some room2) as Hmap
    by (rewrite Hst2, Hmap2; apply lookup_insert_eq).
  rewrite <- Hst2 in Hocc2.
  apply occupant_Some in Hocc2 as (r2 & Hr2 & Hcur2).
  pose proof (removeUser_streamer_exact socketId room2 st2 r2 _ Hmap Hne Hr2 Hcur2
                eq_refl) as Hrm.
  assert (st3 = after_removal socketId room2 (set_streamer None r2) st2) as Hst3
    by (unfold st3; by rewrite Hrm).
  assert (occupant st3 room1 =
            Some {| s_socketId := socketId; s_username := name1;
                    s_connectedAt := now1 |}) as Hocc3.
  { rewrite Hst3. unfold occupant, after_removal in *. simpl.
    destruct (room_is_empty _);
      [by rewrite lookup_delete_ne|by rewrite lookup_insert_ne]. }
  assert (socketToRoom st3 !! socketId = None) as Hgone
    by (rewrite Hst3; apply lookup_delete_eq).
  split; [by rewrite Hrm|]. split.
  { rewrite Hst3. unfold occupant, after_removal. simpl.
    destruct (room_is_empty _); [by rewrite lookup_delete_eq|].
    by rewrite lookup_insert_eq. }
  split; [done|]. split; [done|]. split; [by apply removeUser_unbound|].
  intros other name now. by rewrite (addStreamer_occupied _ _ _ _ _ _ Hocc3).
Qed.

Lemma X6_streamer_of_two_rooms_witness :
  let st2 := (addStreamer "b" "s" "alice" 2000
                (addStreamer "a" "s" "alice" 1000 initial_state).1).1 in
  let st3 := (removeUser "s" st2).1 in
  occupant st3 "a" =
    Some {| s_socketId := "s"; s_username := "alice"; s_connectedAt := 1000 |} ∧
  socketToRoom st3 !! "s" = None ∧
  addStreamer "a" "t" "tom" 3000 st3 =
    (st3, StreamerErr "Room already has an active streamer" "alice").
Proof.
  intros st2 st3.
  assert ("a" ≠ "b") as Hab by discriminate.
  assert ("b" ≠ "") as Hne by discriminate.
  destruct (X6_streamer_of_two_rooms "a" "b" "s" "alice" "alice" 1000 2000
              initial_state Hab Hne eq_refl eq_refl)
    as (_ & _ & Hocc & Hgone & _ & Hrej).
  split; [exact Hocc|]. split; [exact Hgone|]. exact (Hrej "t" "tom" 3000).
Defined.
(** X7. The empty room id. [start-stream] does not look at its room id, so
    a stream can be started in the room named by the empty string; but
    [removeUser] takes an empty room id in the reverse map for a missing
    one. The disconnect of that streamer therefore changes nothing and
    announces nothing, and the room keeps its streamer. *)
Theorem X7_empty_room_id (socketId username : string) (now now' : Z) (st : State) :
  occupant st "" = None →
  let started := on_start_stream socketId "" username now st in
  started.2 = [SocketEmit socketId (PStreamStarted "");
               SocketTo socketId "" (PStreamerReady username socketId);
               SocketEmit socketId
                 (PChatHistory (default [] (messages <$> rooms st !! "")))] ∧
  occupant started.1 "" =
    Some {| s_socketId := socketId; s_username := username; s_connectedAt := now |} ∧
  socketToRoom started.1 !! socketId = Some "" ∧
  removeUser socketId started.1 = (started.1, None) ∧
  on_disconnect socketId now' started.1 = (started.1, []).
Proof.
  intros Hfree started.
  assert (started =
            ((addStreamer "" socketId username now st).1,
             [SocketEmit socketId (PStreamStarted "");
              SocketTo socketId "" (PStreamerReady username socketId);
              SocketEmit socketId
                (PChatHistory (default [] (messages <$> rooms st !! "")))])) as ->.
  { unfold started, on_start_stream, addStreamer, getOrCreateRoom, createRoom,
      occupant in *.
    destruct (rooms st !! "") as [room|] eqn:Hroom; simpl in *.
    - rewrite Hfree. simpl. by rewrite lookup_insert_eq.
    - by rewrite lookup_insert_eq. }
  destruct (addStreamer_free "" socketId username now st Hfree)
    as (st' & Hadd & Hocc & _ & Hmap & _).
  rewrite Hadd. simpl.
  assert (socketToRoom st' !! socketId = Some "") as Hentry
    by (rewrite Hmap; apply lookup_insert_eq).
  assert (removeUser socketId st' = (st', None)) as Hrm
    by (unfold removeUser; rewrite Hentry; by rewrite decide_True).
  repeat split; try done. unfold on_disconnect. by rewrite Hrm.
Qed.

Lemma X7_empty_room_id_witness :
  let started := on_start_stream "s" "" "alice" 1000 initial_state in
  occupant started.1 "" = Some alice ∧
  on_disconnect "s" 2000 started.1 = (started.1, []).
Proof.
  intros started.
  destruct (X7_empty_room_id "s" "alice" 1000 2000 initial_state eq_refl)
    as (_ & Hocc & _ & _ & Hdisc).
  split; [exact Hocc|exact Hdisc].
Defined.

Lemma room_is_empty_no_streamer room :
  room_is_empty (set_streamer None room) = bool_decide (viewers room = ∅).
Proof.
  unfold room_is_empty. cbn [set_streamer streamer viewers].
  rewrite (bool_decide_eq_true_2 (None = None)) by done.
  apply bool_decide_ext, map_size_empty_iff.
Qed.

(** X8. A streamer that has stopped leaves silently. After its
    [stop-stream] the connection still has its reverse-map entry but no
    role; its disconnect then sends nothing, removes the entry, and
    deletes the room exactly when no viewer is left. *)
Theorem X8_disconnect_after_stop (socketId roomId : string) (now : Z)
    (st : State) (room : Room) (cur : Streamer) :
  rooms st !! roomId = Some room → roomId ≠ "" →
  streamer room = Some cur → s_socketId cur = socketId →
  socketToRoom st !! socketId = Some roomId →
  viewers room !! socketId = None →
  let stopped := on_stop_stream socketId roomId st in
  let gone := on_disconnect socketId now stopped.1 in
  stopped.2 = [IoTo roomId (PStreamEnded "The stream has ended")] ∧
  gone.2 = [] ∧
  socketToRoom gone.1 = delete socketId (socketToRoom st) ∧
  rooms gone.1 =
    (if decide (viewers room = ∅) then delete roomId (rooms st)
     else <[roomId := set_streamer None room]> (rooms st)).
Proof.
  intros Hroom Hne Hcur Hid Hmap Hnv stopped gone.
  assert (stopped =
            (set_rooms (<[roomId := set_streamer None room]> (rooms st)) st,
             [IoTo roomId (PStreamEnded "The stream has ended")])) as Hstopped.
  { unfold stopped, on_stop_stream. rewrite Hroom, Hcur. by rewrite decide_True. }
  assert (removeUser socketId stopped.1 =
            (after_removal socketId roomId (set_streamer None room) stopped.1,
             Some {| ud_roomId := roomId; ud_role := None; ud_username := None;
                     ud_viewerCount := size (viewers room) |})) as Hrm.
  { apply (removeUser_roleless_exact socketId roomId stopped.1 (set_streamer None room));
      rewrite ?Hstopped; simpl; try done. by rewrite lookup_insert_eq. }
  assert (gone = (after_removal socketId roomId (set_streamer None room) stopped.1, []))
    as Hgone by (unfold gone, on_disconnect; by rewrite Hrm).
  rewrite Hgone, Hstopped. unfold after_removal.
  rewrite room_is_empty_no_streamer. simpl. repeat split; try done.
  case_decide as Hv.
  - rewrite bool_decide_eq_true_2 by done. by rewrite delete_insert_eq.
  - rewrite bool_decide_eq_false_2 by done. by rewrite insert_insert_eq.
Qed.

Lemma X8_disconnect_after_stop_witness :
  rooms live_state !! "r" = Some live_room ∧
  (on_disconnect "s" 3000 (on_stop_stream "s" "r" live_state).1).2 = [] ∧
  rooms (on_disconnect "s" 3000 (on_stop_stream "s" "r" live_state).1).1 =
    (if decide (viewers live_room = ∅) then delete "r" (rooms live_state)
     else <[ "r" := set_streamer None live_room]> (rooms live_state)).
Proof.
  assert ("r" ≠ "") as Hne by discriminate.
  destruct (X8_disconnect_after_stop "s" "r" 3000 live_state live_room alice
              live_state_room Hne eq_refl eq_refl eq_refl eq_refl)
    as (_ & Hsilent & _ & Hrooms).
  split; [exact live_state_room|]. split; [exact Hsilent|exact Hrooms].
Defined.

(** X9. A connection in both roles. When the streamer of a room is also
    an entry of its viewer map, its disconnect is handled as a streamer's
    only: the streamer slot is cleared, the viewer entry stays, the room
    therefore stays registered, and with the reverse-map entry gone no
    later disconnect of that connection removes the entry. *)
Theorem X9_disconnect_in_both_roles (socketId roomId : string) (now : Z)
    (st : State) (room : Room) (cur : Streamer) (viewer : Viewer) :
  rooms st !! roomId = Some room → roomId ≠ "" →
  streamer room = Some cur → s_socketId cur = socketId →
  viewers room !! socketId = Some viewer →
  socketToRoom st !! socketId = Some roomId →
  let gone := on_disconnect socketId now st in
  gone.2 = [IoTo roomId (PStreamEnded "The streamer has disconnected");
            IoTo roomId
              (PSystemMessage "System" (s_username cur +:+ " (streamer) has left") now)] ∧
  rooms gone.1 = <[roomId := set_streamer None room]> (rooms st) ∧
  viewers_of gone.1 roomId !! socketId = Some viewer ∧
  socketToRoom gone.1 !! socketId = None ∧
  ∀ now', on_disconnect socketId now' gone.1 = (gone.1, []).
Proof.
  intros Hroom Hne Hcur Hid Hv Hmap gone.
  assert (room_is_empty (set_streamer None room) = false) as Hkeep.
  { apply not_true_is_false. intros [_ Hem]%room_is_empty_true. simpl in Hem.
    rewrite Hem in Hv. by rewrite lookup_empty in Hv. }
  assert (gone =
            (after_removal socketId roomId (set_streamer None room) st,
             [IoTo roomId (PStreamEnded "The streamer has disconnected");
              IoTo roomId
                (PSystemMessage "System" (s_username cur +:+ " (streamer) has left")
                   now)])) as ->.
  { unfold gone, on_disconnect.
    by rewrite (removeUser_streamer_exact socketId roomId st room cur). }
  unfold after_removal, viewers_of. simpl. rewrite Hkeep.
  rewrite lookup_insert_eq. simpl.
  repeat split; try done; try apply lookup_delete_eq.
  intros now'. apply on_disconnect_unbound. simpl. apply lookup_delete_eq.
Qed.

Lemma X9_disconnect_in_both_roles_witness :
  (∃ room viewer, rooms takeover_state !! "r" = Some room ∧
                  viewers room !! "v" = Some viewer) ∧
  is_Some (viewers_of (on_disconnect "v" 5000 takeover_state).1 "r" !! "v") ∧
  socketToRoom (on_disconnect "v" 5000 takeover_state).1 !! "v" = None.
Proof.
  assert (∃ room viewer, rooms takeover_state !! "r" = Some room ∧
                         viewers room !! "v" = Some viewer ∧
                         streamer room =
                           Some {| s_socketId := "v"; s_username := "bob";
                                   s_connectedAt := 4000 |})
    as (room & viewer & Hroom & Hv & Hcur) by (by eexists _, _).
  assert ("r" ≠ "") as Hne by discriminate.
  destruct (X9_disconnect_in_both_roles "v" "r" 5000 takeover_state room _ viewer
              Hroom Hne Hcur eq_refl Hv eq_refl)
    as (_ & _ & Hstays & Hgone & _).
  split; [by exists room, viewer|]. split; [by eexists|exact Hgone].
Defined.
(** ** Relaying *)

(** X10. The relay events [offer], [answer], [ice-candidate] and
    [request-stream] never change the state, and the only thing they ever
    do is [io.to(...).emit]: the sender gets no error, also when the
    target is unknown, and at most one message goes out per event. *)
Theorem X10_relays_keep_state (cfg : Config) (evs : list (string * Z * Event))
    (st : State) :
  forallb (λ ev, is_relay ev.2) evs = true →
  (run cfg evs st).1 = st ∧
  Forall (λ eff, ∃ target p, eff = IoTo target p) (run cfg evs st).2 ∧
  (length (run cfg evs st).2 ≤ length evs)%nat.
Proof.
  induction evs as [|[[socketId now] e] evs IH]; intros Hrelay.
  - simpl. repeat split; [constructor|lia].
  - simpl in Hrelay. apply andb_true_iff in Hrelay as [He Hrest].
    destruct (IH Hrest) as (Hst & Hout & Hlen). simpl.
    assert ((handle cfg socketId now e st).1 = st ∧
            Forall (λ eff, ∃ target p, eff = IoTo target p)
              (handle cfg socketId now e st).2 ∧
            (length (handle cfg socketId now e st).2 ≤ 1)%nat) as (Hst1 & Hout1 & Hlen1).
    { destruct e; try done; simpl.
      - repeat split; [|lia]. repeat constructor. by eexists _, _.
      - repeat split; [|lia]. repeat constructor. by eexists _, _.
      - repeat split; [|lia]. repeat constructor. by eexists _, _.
      - unfold on_request_stream. destruct (rooms st !! roomId) as [room|];
          [destruct (streamer room)|]; simpl; (repeat split; [|lia]);
          repeat constructor. by eexists _, _. }
    destruct (handle cfg socketId now e st) as [st1 out1]. simpl in *. subst st1.
    destruct (run cfg evs st) as [st2 out2]. simpl in *.
    split; [done|]. split; [by apply Forall_app|]. rewrite length_app. lia.
Qed.

Lemma X10_relays_keep_state_witness :
  (run source_config
     [("v", 3000, Answer "sdp" "s"); ("v", 3100, IceCandidate "c" "nobody");
      ("v", 3200, RequestStream "r")] watched_state).1 = watched_state ∧
  (run source_config
     [("v", 3000, Answer "sdp" "s"); ("v", 3100, IceCandidate "c" "nobody");
      ("v", 3200, RequestStream "r")] watched_state).2 =
    [IoTo "s" (PAnswer "sdp" "v"); IoTo "nobody" (PIceCandidate "c" "v");
     IoTo "s" (PViewerReady "v")].
Proof.
  split; [|reflexivity].
  apply (X10_relays_keep_state source_config
           [("v", 3000, Answer "sdp" "s"); ("v", 3100, IceCandidate "c" "nobody");
            ("v", 3200, RequestStream "r")] watched_state).
  reflexivity.
Defined.

(** X11. [stop-stream] is honoured for the current streamer of the named
    room only. From that connection it clears the streamer slot and tells
    the room that the stream has ended, leaving the viewers, the reverse
    map and every other room alone; from any other connection, or for a
    room that is not registered or not live, it does nothing at all and
    reports no error. *)
Theorem X11_stop_stream_by_streamer_only (socketId roomId : string) (st : State) :
  let out := on_stop_stream socketId roomId st in
  if decide (s_socketId <$> occupant st roomId = Some socketId)
  then out.2 = [IoTo roomId (PStreamEnded "The stream has ended")] ∧
       occupant out.1 roomId = None ∧
       viewers_of out.1 roomId = viewers_of st roomId ∧
       socketToRoom out.1 = socketToRoom st ∧
       messageRateLimits out.1 = messageRateLimits st ∧
       ∀ other, other ≠ roomId → rooms out.1 !! other = rooms st !! other
  else out = (st, []).
Proof.
  unfold on_stop_stream, occupant, viewers_of.
  destruct (rooms st !! roomId) as [room|] eqn:Hroom; simpl.
  - destruct (streamer room) as [cur|] eqn:Hcur; simpl.
    + destruct (decide (s_socketId cur = socketId)) as [Hid|Hid].
      * rewrite decide_True by (by rewrite Hid). simpl.
        rewrite lookup_insert_eq. simpl. repeat split; try done.
        intros other Hother. by rewrite lookup_insert_ne.
      * rewrite decide_False; [done|]. by intros [= ?].
    + done.
  - done.
Qed.
(** ** Rejected joins *)

(** X12. A [join-room] without a room id or without a user name is
    answered with an error and does nothing else: no room is created and
    the socket joins no Socket.io room. A [join-room] on a live room whose
    viewer map is full is answered with the "Room is full" error and
    leaves the state as it was, but the socket has by then joined the
    Socket.io room of that id. *)
Theorem X12_rejected_joins (cfg : Config) (socketId roomId username : string)
    (now : Z) (st : State) :
  (roomId = "" ∨ username = "" →
     on_join_room cfg socketId roomId username now st =
       (st, [SocketEmit socketId (PError "Room ID and username are required")])) ∧
  (∀ room, roomId ≠ "" → username ≠ "" →
     rooms st !! roomId = Some room → is_Some (streamer room) →
     (MAX_VIEWERS_PER_ROOM cfg ≤ size (viewers room))%nat →
     on_join_room cfg socketId roomId username now st =
       (st, [SocketJoin socketId roomId;
             SocketEmit socketId
               (PError ("Room is full (max " +:+ pretty (MAX_VIEWERS_PER_ROOM cfg)
                          +:+ " viewers)"))])).
Proof.
  split.
  - intros Hmissing. unfold on_join_room. by rewrite decide_True.
  - intros room Hr Hu Hroom [cur Hcur] Hfull. unfold on_join_room.
    rewrite decide_False by tauto. unfold getOrCreateRoom. rewrite Hroom, Hcur.
    by rewrite (addViewer_full cfg roomId socketId username now st room) by eauto.
Qed.

Lemma X12_rejected_joins_witness :
  on_join_room two_viewers_config "c" "" "cat" 4000 full_state =
    (full_state, [SocketEmit "c" (PError "Room ID and username are required")]) ∧
  on_join_room two_viewers_config "c" "r" "cat" 4000 full_state =
    (full_state,
     [SocketJoin "c" "r"; SocketEmit "c" (PError "Room is full (max 2 viewers)")]).
Proof.
  destruct (X12_rejected_joins two_viewers_config "c" "" "cat" 4000 full_state)
    as [Hmissing _].
  destruct (X12_rejected_joins two_viewers_config "c" "r" "cat" 4000 full_state)
    as [_ Hfull].
  assert (is_Some (rooms full_state !! "r")) as [room Hroom] by (by eexists).
  split; [apply Hmissing; by left|].
  apply (Hfull room); try discriminate; try exact Hroom.
  - vm_compute in Hroom. injection Hroom as <-. by eexists.
  - vm_compute in Hroom. injection Hroom as <-. vm_compute. lia.
Defined.

(** ** Counting messages *)

(** X13. [stats.messagesCount] counts every accepted message: after a run
    of accepted appends to one room it has grown by their number, while
    the log itself stays capped. *)
Theorem X13_messages_counted (cfg : Config) (roomId : string)
    (posts : list (string * string * jsstring * Z)) (st : State) (room : Room) :
  rooms st !! roomId = Some room →
  forallb message_accepted (addMessages cfg roomId posts st).2 = true →
  ∃ room', rooms (addMessages cfg roomId posts st).1 !! roomId = Some room' ∧
           messagesCount (stats room') =
             (messagesCount (stats room) + length posts)%nat ∧
           totalViewers (stats room') = totalViewers (stats room) ∧
           peakViewers (stats room') = peakViewers (stats room) ∧
           streamer room' = streamer room ∧ viewers room' = viewers room.
Proof.
  revert st room.
  induction posts as [|[[[socketId username] message] now] rest IH];
    intros st room Hroom Hok.
  - exists room. simpl. repeat split; try done; lia.
  - simpl in *.
    destruct (addMessage cfg roomId socketId username message now st)
      as [st1 r] eqn:Hadd.
    destruct (addMessages cfg roomId rest st1) as [st2 rs] eqn:Hrest.
    simpl in Hok. apply andb_true_iff in Hok as [Hr Hrs].
    destruct r as [m|err]; [|done].
    apply addMessage_ok_inv in Hadd as (room0 & Hroom0 & -> & Hrooms).
    assert (room0 = room) as -> by congruence.
    specialize (IH st1 (with_message cfg (messageObj socketId username message now) room)).
    rewrite Hrest in IH. simpl in IH.
    destruct IH as (room' & Hroom' & Hcount & Htotal & Hpeak & Hs & Hv).
    + by rewrite Hrooms, lookup_insert_eq.
    + done.
    + exists room'. simpl in *. repeat split; try done; lia.
Qed.

Lemma X13_messages_counted_witness :
  rooms live_state !! "r" = Some live_room ∧
  ∃ room', rooms crowded_state !! "r" = Some room' ∧
           messagesCount (stats room') = 150%nat ∧
           length (messages room') = 100%nat.
Proof.
  split; [exact live_state_room|].
  destruct (X13_messages_counted source_config "r" (posts_from 2 150) live_state
              live_room live_state_room) as (room' & Hroom' & Hcount & _).
  - vm_compute. reflexivity.
  - exists room'. split; [exact Hroom'|]. split; [exact Hcount|].
    unfold crowded_state in Hroom'. vm_compute in Hroom'.
    injection Hroom' as <-. reflexivity.
Defined.
(** ** The read-only functions *)

Lemma map_fold_sum_bounds (f : Room → nat) (m : gmap string Room) :
  (∀ c, map_Forall (λ _ room, (f room ≤ c)%nat) m →
        (map_fold (λ _ room total, (total + f room)%nat) 0%nat m ≤ size m * c)%nat) ∧
  map_Forall (λ _ room, (f room ≤
                map_fold (λ _ room total, (total + f room)%nat) 0%nat m)%nat) m.
Proof.
  apply (map_fold_weak_ind
           (λ r m, (∀ c, map_Forall (λ _ room, (f room ≤ c)%nat) m → (r ≤ size m * c)%nat) ∧
                   map_Forall (λ _ room, (f room ≤ r)%nat) m)).
  - split; [intros c _; lia|]. apply map_Forall_empty.
  - intros i x m0 r Hnone [Hup Hlow]. split.
    + intros c Hall. apply map_Forall_insert in Hall as [Hx Hrest]; [|done].
      rewrite map_size_insert_None by done. specialize (Hup c Hrest). lia.
    + apply map_Forall_insert_2; [lia|].
      intros j room Hj. specialize (Hlow j room Hj). simpl in *. lia.
Qed.

(** X14. The server statistics. [getServerStats] counts the registered
    rooms, and its viewer total includes the viewer count of every room;
    in every reachable state that total is at most the number of rooms
    times [MAX_VIEWERS_PER_ROOM]. *)
Theorem X14_server_stats_bounds (cfg : Config) (st : State) :
  reachable cfg st →
  activeRooms (getServerStats st) = size (rooms st) ∧
  (ss_totalViewers (getServerStats st) ≤
     activeRooms (getServerStats st) * MAX_VIEWERS_PER_ROOM cfg)%nat ∧
  (∀ roomId, getViewerCount roomId st ≤ ss_totalViewers (getServerStats st))%nat ∧
  (∀ roomId room, rooms st !! roomId = Some room →
     (length (messages room) ≤ ss_totalMessages (getServerStats st))%nat).
Proof.
  intros Hreach. unfold getServerStats. simpl. split; [done|].
  destruct (map_fold_sum_bounds (λ room, size (viewers room)) (rooms st))
    as [Hup Hlow].
  destruct (map_fold_sum_bounds (λ room, messagesCount (stats room)) (rooms st))
    as [_ Hmsg].
  split; [|split].
  - apply Hup. intros roomId room Hroom.
    by destruct (room_consistent_reachable cfg st roomId room Hreach Hroom).
  - intros roomId. unfold getViewerCount.
    destruct (rooms st !! roomId) as [room|] eqn:Hroom; [|lia].
    apply (Hlow roomId room Hroom).
  - intros roomId room Hroom.
    destruct (room_consistent_reachable cfg st roomId room Hreach Hroom)
      as (_ & _ & _ & _ & Hlog).
    specialize (Hmsg roomId room Hroom). simpl in Hmsg. lia.
Qed.

Lemma X14_server_stats_bounds_witness :
  reachable source_config watched_state ∧
  getServerStats watched_state =
    {| activeRooms := 1; ss_totalViewers := 1; ss_totalMessages := 0 |} ∧
  (ss_totalViewers (getServerStats watched_state) ≤
     activeRooms (getServerStats watched_state) * MAX_VIEWERS_PER_ROOM source_config)%nat.
Proof.
  assert (reachable source_config watched_state) as Hreach by (by eexists).
  split; [exact Hreach|]. split; [vm_compute; reflexivity|].
  exact (proj1 (proj2 (X14_server_stats_bounds source_config watched_state Hreach))).
Defined.

(** X15. A room is visible to [/api/room/:roomId] as soon as it has been
    named. After a [start-stream] the route answers 200 with [hasStreamer]
    true and the name of the streamer, which is the caller's name when the
    room was free and the old streamer's name when the claim was rejected.
    After a [join-room] with a room id and a user name it answers 200 as
    well, also when the join only created the room; it answers 404
    exactly for the room ids that are not registered. *)
Theorem X15_room_info_after_naming (cfg : Config) (socketId roomId username : string)
    (now : Z) (st : State) :
  (api_room roomId st = Http404 "Room not found" ↔ rooms st !! roomId = None) ∧
  (∃ info,
     api_room roomId (on_start_stream socketId roomId username now st).1 = Http200 info ∧
     ri_roomId info = roomId ∧ ri_hasStreamer info = true ∧
     ri_streamerName info =
       Some (match occupant st roomId with
             | Some cur => s_username cur
             | None => username
             end) ∧
     ri_viewerCount info = getViewerCount roomId st) ∧
  (roomId ≠ "" → username ≠ "" →
     ∃ info,
       api_room roomId (on_join_room cfg socketId roomId username now st).1
         = Http200 info ∧
       ri_hasStreamer info = bool_decide (is_Some (occupant st roomId))).
Proof.
  split; [|split].
  - unfold api_room, getRoomInfo. by destruct (rooms st !! roomId).
  - unfold api_room, getRoomInfo, on_start_stream.
    destruct (occupant st roomId) as [cur|] eqn:Hocc.
    + rewrite (addStreamer_occupied _ _ _ _ _ _ Hocc). simpl.
      apply occupant_Some in Hocc as (room & Hroom & Hcur).
      unfold getViewerCount. rewrite Hroom. eexists. split; [done|]. simpl.
      rewrite Hcur. repeat split; try done; by apply bool_decide_eq_true_2.
    + destruct (addStreamer_free roomId socketId username now st Hocc)
        as (st' & -> & Hocc' & Hv & _). simpl.
      apply occupant_Some in Hocc' as (room' & Hroom' & Hcur').
      unfold viewers_of, getViewerCount in *. rewrite Hroom' in *.
      eexists. split; [done|]. simpl. rewrite Hcur', Hv.
      repeat split; try done; try (by apply bool_decide_eq_true_2).
      by destruct (rooms st !! roomId).
  - intros Hr Hu. unfold api_room, getRoomInfo, on_join_room.
    rewrite decide_False by tauto.
    pose proof (getOrCreateRoom_occupant roomId now st roomId) as Hocc.
    pose proof (getOrCreateRoom_result roomId now st) as Hres.
    destruct (getOrCreateRoom roomId now st) as [st1 room]. simpl in *.
    assert (occupant st roomId = streamer room) as ->
      by (rewrite <- Hocc; unfold occupant; by rewrite Hres).
    destruct (streamer room) as [cur|] eqn:Hcur.
    + destruct (addViewer_keeps_streamer_messages cfg roomId socketId username now
                  st1 room Hres) as (room' & Hroom' & Hs' & _).
      destruct (addViewer cfg roomId socketId username now st1) as [st2 [n|err w]];
        simpl in *; rewrite Hroom'; eexists; (split; [done|]); simpl;
        by rewrite Hs', Hcur.
    + simpl. rewrite Hres. eexists. split; [done|]. simpl. by rewrite Hcur.
Qed.
Lemma X15_room_info_after_naming_witness :
  (∃ info,
     api_room "r" (on_join_room source_config "v" "r" "bob" 1000 initial_state).1
       = Http200 info ∧
     ri_hasStreamer info = false) ∧
  api_room "r" initial_state = Http404 "Room not found".
Proof.
  destruct (X15_room_info_after_naming source_config "v" "r" "bob" 1000 initial_state)
    as (H404 & _ & Hjoin).
  split.
  - destruct Hjoin as (info & Hinfo & Hlive); [discriminate..|].
    exists info. split; [exact Hinfo|exact Hlive].
  - apply H404. reflexivity.
Defined.
(** ** The root [server.js] *)

(** X16. The [Room] class of the root server. A new room has its creator
    as streamer and no viewers. [hasStreamer] holds exactly when
    [isStreamer] holds of some socket, and after [endStream] neither holds
    of any, while the viewers stay. Adding a viewer that is not yet in the
    room and removing it again gives back the room, and the count goes up
    by one in between; adding one that is already there overwrites its
    entry and leaves the count. *)
Theorem X16_root_room_class (room : Server.Room)
    (socketId userId username : string) (now : Z) :
  (RootServer.hasStreamer room = true ↔ ∃ s, Server.isStreamer room s = true) ∧
  RootServer.hasStreamer (RootServer.endStream room) = false ∧
  (∀ s, Server.isStreamer (RootServer.endStream room) s = false) ∧
  RootServer.getViewerCount (RootServer.endStream room) =
    RootServer.getViewerCount room ∧
  (∀ roomId streamerId streamerSocketId streamerUsername streamTitle,
     let fresh := RootServer.newRoom roomId streamerId streamerSocketId
                    streamerUsername streamTitle now in
     RootServer.hasStreamer fresh = true ∧
     (∀ s, Server.isStreamer fresh s = true ↔ s = streamerSocketId) ∧
     RootServer.getViewerCount fresh = 0%nat ∧
     Server.streamTitle fresh ≠ "") ∧
  (Server.viewers room !! socketId = None →
     RootServer.removeViewer socketId
       (RootServer.addViewer socketId userId username now room) = room ∧
     RootServer.getViewerCount
       (RootServer.addViewer socketId userId username now room) =
       S (RootServer.getViewerCount room)) ∧
  (is_Some (Server.viewers room !! socketId) →
     RootServer.getViewerCount
       (RootServer.addViewer socketId userId username now room) =
       RootServer.getViewerCount room).
Proof.
  split; [|split; [|split; [|split; [|split; [|split]]]]].
  - unfold RootServer.hasStreamer, Server.isStreamer.
    rewrite bool_decide_eq_true. split.
    + destruct (Server.streamerSocketId room) as [s|]; [|done].
      intros _. exists s. by apply bool_decide_eq_true_2.
    + intros [s Hs%bool_decide_eq_true]. by rewrite Hs.
  - reflexivity.
  - intros s. reflexivity.
  - done.
  - intros roomId streamerId streamerSocketId streamerUsername streamTitle fresh.
    split; [by apply bool_decide_eq_true_2|]. split; [|split].
    + intros s. unfold Server.isStreamer. simpl. rewrite bool_decide_eq_true.
      split; [by intros [= ->]|by intros ->].
    + unfold RootServer.getViewerCount. simpl. apply map_size_empty.
    + simpl. case_decide; [done|done].
  - intros Hfresh. unfold RootServer.removeViewer, RootServer.addViewer,
      RootServer.getViewerCount, RootServer.set_viewers. simpl. split.
    + rewrite delete_insert_id by done. by destruct room.
    + by apply map_size_insert_None.
  - intros Hin. unfold RootServer.addViewer, RootServer.getViewerCount. simpl.
    by apply map_size_insert_Some.
Qed.

Lemma X16_root_room_class_witness :
  let room := RootServer.newRoom "r" "u1" "s" "alice" "" 1000 in
  RootServer.removeViewer "v" (RootServer.addViewer "v" "u2" "bob" 2000 room) = room ∧
  RootServer.getViewerCount (RootServer.addViewer "v" "u2" "bob" 2000 room) = 1%nat ∧
  RootServer.getViewerCount
    (RootServer.addViewer "v" "u2" "bob" 3000
       (RootServer.addViewer "v" "u2" "bob" 2000 room)) = 1%nat.
Proof.
  intros room.
  destruct (X16_root_room_class room "v" "u2" "bob" 2000)
    as (_ & _ & _ & _ & _ & Hfresh & _).
  destruct (X16_root_room_class (RootServer.addViewer "v" "u2" "bob" 2000 room)
              "v" "u2" "bob" 3000) as (_ & _ & _ & _ & _ & _ & Hagain).
  destruct (Hfresh eq_refl) as [Hback Hcount].
  split; [exact Hback|]. split; [exact Hcount|].
  rewrite Hagain; [exact Hcount|]. by eexists.
Defined.

(** X17. The chat handler of the root server. For an unknown room the
    sender gets "Room not found". A body that is empty or all white space
    is dropped without any answer. Any other body is stored trimmed, and
    otherwise as it is: it is neither cut to a length nor escaped. The
    message is broadcast to the room and then saved, and the history
    becomes the last 100 entries of the old history followed by the
    message, so that a history of at most 100 entries stays one. *)
Theorem X17_root_chat_message (socketId userId username roomId : string)
    (message : jsstring) (timestamp : string) (rooms : gmap string Server.Room) :
  let out := RootServer.on_chat_message socketId userId username roomId message
               timestamp rooms in
  (rooms !! roomId = None →
     out = (rooms, [RootServer.EmitError socketId "Room not found"])) ∧
  (is_Some (rooms !! roomId) → trim message = [] → out = (rooms, [])) ∧
  (∀ room, rooms !! roomId = Some room → trim message ≠ [] →
     let chatMessage :=
       {| Server.c_roomId := roomId; Server.c_userId := userId;
          Server.c_username := username; Server.c_message := trim message;
          Server.c_timestamp := timestamp |} in
     out.2 = [RootServer.BroadcastChat roomId chatMessage;
              RootServer.SaveChat chatMessage] ∧
     ∃ room', out.1 = <[roomId := room']> rooms ∧
              Server.viewers room' = Server.viewers room ∧
              Server.streamerSocketId room' = Server.streamerSocketId room ∧
              ((length (Server.chatHistory room) ≤ 100)%nat →
                 Server.chatHistory room' =
                   lastn 100 (Server.chatHistory room ++ [chatMessage]) ∧
                 (length (Server.chatHistory room') ≤ 100)%nat)).
Proof.
  intros out. unfold out, RootServer.on_chat_message.
  assert (trim [] = []) as Htrim0 by reflexivity.
  split; [|split].
  - by intros ->.
  - intros [room ->] Hblank. rewrite Hblank. simpl.
    by rewrite orb_true_r.
  - intros room Hroom Hbody. rewrite Hroom. cbv zeta.
    set (chatMessage :=
           {| Server.c_roomId := roomId; Server.c_userId := userId;
              Server.c_username := username; Server.c_message := trim message;
              Server.c_timestamp := timestamp |}).
    assert (message ≠ []) as Hne by (intros ->; by apply Hbody).
    rewrite (bool_decide_eq_false_2 (message = [])) by done.
    rewrite bool_decide_eq_false_2 by (by destruct (trim message)).
    simpl. split; [done|]. eexists. split; [done|]. simpl.
    split; [done|]. split; [done|]. intros Hlen.
    assert ((if decide (100 < length (Server.chatHistory room ++ [chatMessage]))%nat
             then tail (Server.chatHistory room ++ [chatMessage])
             else Server.chatHistory room ++ [chatMessage])
            = lastn 100 (Server.chatHistory room ++ [chatMessage])) as ->.
    { unfold lastn. rewrite length_app. simpl. case_decide as Hover.
      - replace (length (Server.chatHistory room) + 1 - 100)%nat with 1%nat by lia.
        by destruct (Server.chatHistory room ++ [chatMessage]).
      - by replace (length (Server.chatHistory room) + 1 - 100)%nat with 0%nat by lia. }
    split; [done|]. rewrite lastn_length. lia.
Qed.
Lemma X17_root_chat_message_witness :
  RootServer.on_chat_message "v" "u2" "bob" "r" (js "   ") "t1" root_rooms =
    (root_rooms, []) ∧
  (RootServer.on_chat_message "v" "u2" "bob" "r" (js " <b>hi</b> ") "t1" root_rooms).2 =
    [RootServer.BroadcastChat "r"
       {| Server.c_roomId := "r"; Server.c_userId := "u2"; Server.c_username := "bob";
          Server.c_message := js "<b>hi</b>"; Server.c_timestamp := "t1" |};
     RootServer.SaveChat
       {| Server.c_roomId := "r"; Server.c_userId := "u2"; Server.c_username := "bob";
          Server.c_message := js "<b>hi</b>"; Server.c_timestamp := "t1" |}].
Proof.
  assert (root_rooms !! "r" = Some (RootServer.newRoom "r" "u1" "s" "alice" "Live" 1000))
    as Hroom by reflexivity.
  split.
  - apply (X17_root_chat_message "v" "u2" "bob" "r" (js "   ") "t1" root_rooms);
      [by eexists|reflexivity].
  - destruct (X17_root_chat_message "v" "u2" "bob" "r" (js " <b>hi</b> ") "t1"
                root_rooms) as (_ & _ & Hstored).
    destruct (Hstored _ Hroom) as [Hout _]; [vm_compute; discriminate|].
    exact Hout.
Defined.

(** ** What a disconnect announces *)

(** X18. The disconnect of a viewer. When the leaving connection is a
    viewer of the room that the reverse map names, and not its streamer,
    the handler tells the streamer, if the room has one, that the viewer
    has left, then tells the room the new viewer count, and then sends the
    system message; the name is the one recorded at the join and the count
    is one less than before. The room is deleted in the same step exactly
    when it had no streamer and no other viewer. *)
Theorem X18_viewer_disconnect (socketId roomId : string) (now : Z) (st : State)
    (room : Room) (viewer : Viewer) :
  socketToRoom st !! socketId = Some roomId → roomId ≠ "" →
  rooms st !! roomId = Some room →
  s_socketId <$> streamer room ≠ Some socketId →
  viewers room !! socketId = Some viewer →
  let out := on_disconnect socketId now st in
  let count := size (delete socketId (viewers room)) in
  S count = size (viewers room) ∧
  out.2 =
    match streamer room with
    | Some cur => [IoTo (s_socketId cur) (PViewerLeft (v_username viewer) count)]
    | None => []
    end ++
    [IoTo roomId (PViewerCountUpdate count);
     IoTo roomId (PSystemMessage "System" (v_username viewer +:+ " left the stream") now)] ∧
  rooms out.1 =
    (if decide (streamer room = None ∧ count = 0%nat) then delete roomId (rooms st)
     else <[roomId := set_viewers (delete socketId (viewers room)) room]> (rooms st)) ∧
  socketToRoom out.1 = delete socketId (socketToRoom st) ∧
  messageRateLimits out.1 = delete socketId (messageRateLimits st).
Proof.
  intros Hmap Hne Hroom Hnot Hv out count.
  assert (S count = size (viewers room)) as Hcount.
  { unfold count. rewrite map_size_delete_Some by eauto.
    assert (size (viewers room) ≠ 0%nat); [|lia].
    intros Hz%map_size_empty_iff. rewrite Hz in Hv. by rewrite lookup_empty in Hv. }
  split; [done|].
  unfold out, on_disconnect.
  rewrite (removeUser_viewer_exact socketId roomId st room viewer) by done.
  simpl. unfold after_removal. simpl.
  assert (room_is_empty (set_viewers (delete socketId (viewers room)) room) =
          bool_decide (streamer room = None ∧ count = 0%nat)) as ->.
  { unfold room_is_empty. cbn [set_viewers streamer viewers]. fold count.
    symmetry. apply bool_decide_and. }
  destruct (decide (streamer room = None ∧ count = 0%nat)) as [[Hs Hc]|Hkeep].
  - rewrite bool_decide_eq_true_2 by done. simpl.
    rewrite lookup_delete_eq, Hs. done.
  - rewrite bool_decide_eq_false_2 by done. simpl.
    rewrite lookup_insert_eq. simpl. by destruct (streamer room).
Qed.

Lemma X18_viewer_disconnect_witness :
  rooms watched_state !! "r" = Some (with_viewer "v" "bob" 2000 live_room) ∧
  (on_disconnect "v" 3000 watched_state).2 =
    [IoTo "s" (PViewerLeft "bob" 0); IoTo "r" (PViewerCountUpdate 0);
     IoTo "r" (PSystemMessage "System" "bob left the stream" 3000)].
Proof.
  assert (rooms watched_state !! "r" = Some (with_viewer "v" "bob" 2000 live_room))
    as Hroom by (vm_compute; reflexivity).
  assert ("r" ≠ "") as Hne by discriminate.
  split; [exact Hroom|].
  destruct (X18_viewer_disconnect "v" "r" 3000 watched_state
              (with_viewer "v" "bob" 2000 live_room)
              {| v_username := "bob"; v_connectedAt := 2000 |}
              eq_refl Hne Hroom) as (_ & Hout & _).
  - discriminate.
  - vm_compute. reflexivity.
  - rewrite Hout. vm_compute. reflexivity.
Defined.

(** X19. The disconnect of the streamer. When the leaving connection is
    the streamer of the room that the reverse map names, the handler tells
    the room that the streamer has disconnected and sends the system
    message with the streamer's name. The room is deleted when it has no
    viewers; otherwise it stays, without a streamer, with its viewers,
    chat log and statistics, and the viewers keep their reverse-map
    entries. *)
Theorem X19_streamer_disconnect (socketId roomId : string) (now : Z) (st : State)
    (room : Room) (cur : Streamer) :
  socketToRoom st !! socketId = Some roomId → roomId ≠ "" →
  rooms st !! roomId = Some room →
  streamer room = Some cur → s_socketId cur = socketId →
  let out := on_disconnect socketId now st in
  out.2 = [IoTo roomId (PStreamEnded "The streamer has disconnected");
           IoTo roomId
             (PSystemMessage "System" (s_username cur +:+ " (streamer) has left") now)] ∧
  rooms out.1 =
    (if decide (viewers room = ∅) then delete roomId (rooms st)
     else <[roomId := set_streamer None room]> (rooms st)) ∧
  socketToRoom out.1 = delete socketId (socketToRoom st) ∧
  (∀ other, other ≠ socketId →
     socketToRoom out.1 !! other = socketToRoom st !! other).
Proof.
  intros Hmap Hne Hroom Hcur Hid out.
  unfold out, on_disconnect.
  rewrite (removeUser_streamer_exact socketId roomId st room cur) by done.
  simpl. unfold after_removal. rewrite room_is_empty_no_streamer. simpl.
  split; [done|]. split; [|split; [done|]].
  - case_decide.
    + by rewrite bool_decide_eq_true_2.
    + by rewrite bool_decide_eq_false_2.
  - intros other Hother. by rewrite lookup_delete_ne.
Qed.

Lemma X19_streamer_disconnect_witness :
  rooms watched_state !! "r" = Some (with_viewer "v" "bob" 2000 live_room) ∧
  (on_disconnect "s" 3000 watched_state).2 =
    [IoTo "r" (PStreamEnded "The streamer has disconnected");
     IoTo "r" (PSystemMessage "System" "alice (streamer) has left" 3000)] ∧
  socketToRoom (on_disconnect "s" 3000 watched_state).1 !! "v" = Some "r".
Proof.
  assert (rooms watched_state !! "r" = Some (with_viewer "v" "bob" 2000 live_room))
    as Hroom by (vm_compute; reflexivity).
  assert ("r" ≠ "") as Hne by discriminate.
  assert ("v" ≠ "s") as Hvs by discriminate.
  destruct (X19_streamer_disconnect "s" "r" 3000 watched_state
              (with_viewer "v" "bob" 2000 live_room) alice
              eq_refl Hne Hroom eq_refl eq_refl) as (Hout & _ & _ & Hkeep).
  split; [exact Hroom|]. split; [exact Hout|].
  rewrite (Hkeep "v" Hvs). reflexivity.
Defined.
(** ** Clean bodies and handing a room over *)

Lemma trimStart_clean (s : jsstring) :
  head (isWhiteSpace <$> s) ≠ Some true → trimStart s = s.
Proof.
  destruct s as [|c s]; [done|]. simpl. destruct (isWhiteSpace c); [|done].
  by intros [].
Qed.

Lemma trim_clean (s : jsstring) :
  head (isWhiteSpace <$> s) ≠ Some true → last (isWhiteSpace <$> s) ≠ Some true →
  trim s = s.
Proof.
  intros Hhead Hlast. unfold trim, trimEnd. rewrite (trimStart_clean s) by done.
  rewrite trimStart_clean; [apply reverse_involutive|].
  by rewrite fmap_reverse, head_reverse.
Qed.

Lemma escape_clean (s : jsstring) :
  Forall (λ c, is_markup c = false) s → s ≫= escape = s.
Proof.
  induction 1 as [|c s Hc Hs IH]; [done|].
  change ((c :: s) ≫= escape) with (escape c ++ (s ≫= escape)). rewrite IH.
  unfold escape, is_markup in *. apply orb_false_iff in Hc as [-> ->]. done.
Qed.

(** X20. Clean text is stored as typed. A body of at most 500 characters
    that neither starts nor ends with white space and holds no '<' or '>'
    is its own sanitized form, so an accepted append stores exactly the
    text that was sent; and trimming a trimmed text changes nothing. *)
Theorem X20_clean_body_verbatim (cfg : Config) (roomId socketId username : string)
    (message : jsstring) (now : Z) (st : State) :
  (length message ≤ 500)%nat →
  head (isWhiteSpace <$> message) ≠ Some true →
  last (isWhiteSpace <$> message) ≠ Some true →
  Forall (λ c, is_markup c = false) message →
  sanitize message = message ∧
  (∀ m, (addMessage cfg roomId socketId username message now st).2 = MessageOk m →
        m_message m = message ∧ m_username m = username ∧ m_timestamp m = now) ∧
  (∀ raw : jsstring, trim (trim raw) = trim raw).
Proof.
  intros Hlen Hhead Hlast Hclean.
  assert (sanitize message = message) as Hsan.
  { unfold sanitize, substring0. rewrite replace_twice_escape.
    rewrite trim_clean by done. rewrite take_ge by done. by apply escape_clean. }
  split; [done|]. split.
  - intros m Hm.
    destruct (addMessage cfg roomId socketId username message now st)
      as [st' r] eqn:Hadd. simpl in Hm. subst r.
    apply addMessage_ok_inv in Hadd as (_ & _ & -> & _). simpl. by rewrite Hsan.
  - intros raw. destruct (trim_spec raw) as (_ & _ & _ & _ & _ & Hh & Hl).
    by apply trim_clean.
Qed.

Lemma X20_clean_body_verbatim_witness :
  sanitize (js "hello world") = js "hello world" ∧
  (addMessage source_config "r" "s" "alice" (js "hello world") 5000 live_state).2 =
    MessageOk {| m_username := "alice"; m_message := js "hello world";
                 m_timestamp := 5000; m_id := "s-5000" |}.
Proof.
  destruct (X20_clean_body_verbatim source_config "r" "s" "alice" (js "hello world")
              5000 live_state) as (Hsan & _ & _).
  - vm_compute. lia.
  - vm_compute. discriminate.
  - vm_compute. discriminate.
  - vm_compute. repeat constructor.
  - split; [exact Hsan|]. vm_compute. reflexivity.
Defined.

(** X21. Handing a room over. A room that has lost its streamer by
    disconnect while viewers were present takes the next [start-stream],
    from any connection: the claim is accepted, the new streamer is sent
    the whole chat log, the other members are told that a streamer is
    ready, and the room keeps its viewers, chat log and statistics. *)
Theorem X21_room_handed_over (old new roomId name : string) (now now' : Z)
    (st : State) (room : Room) (cur : Streamer) :
  socketToRoom st !! old = Some roomId → roomId ≠ "" →
  rooms st !! roomId = Some room →
  streamer room = Some cur → s_socketId cur = old →
  viewers room ≠ ∅ →
  let gone := (on_disconnect old now st).1 in
  let out := on_start_stream new roomId name now' gone in
  out.2 = [SocketEmit new (PStreamStarted roomId);
           SocketTo new roomId (PStreamerReady name new);
           SocketEmit new (PChatHistory (messages room))] ∧
  rooms out.1 !! roomId =
    Some (set_streamer (Some {| s_socketId := new; s_username := name;
                                s_connectedAt := now' |}) room) ∧
  socketToRoom out.1 !! new = Some roomId.
Proof.
  intros Hmap Hne Hroom Hcur Hid Hviewers gone out.
  assert (gone = after_removal old roomId (set_streamer None room) st) as Hgone.
  { unfold gone. rewrite on_disconnect_state.
    by rewrite (removeUser_streamer_exact old roomId st room cur). }
  assert (rooms gone !! roomId = Some (set_streamer None room)) as Hroom'.
  { rewrite Hgone. unfold after_removal. rewrite room_is_empty_no_streamer. simpl.
    rewrite bool_decide_eq_false_2 by done. apply lookup_insert_eq. }
  unfold out, on_start_stream, addStreamer, getOrCreateRoom.
  rewrite Hroom'. simpl. rewrite !lookup_insert_eq. done.
Qed.

Lemma X21_room_handed_over_witness :
  rooms watched_state !! "r" = Some (with_viewer "v" "bob" 2000 live_room) ∧
  (on_start_stream "t" "r" "tom" 4000 (on_disconnect "s" 3000 watched_state).1).2 =
    [SocketEmit "t" (PStreamStarted "r"); SocketTo "t" "r" (PStreamerReady "tom" "t");
     SocketEmit "t" (PChatHistory [])] ∧
  socketToRoom
    (on_start_stream "t" "r" "tom" 4000 (on_disconnect "s" 3000 watched_state).1).1
    !! "t" = Some "r".
Proof.
  assert (rooms watched_state !! "r" = Some (with_viewer "v" "bob" 2000 live_room))
    as Hroom by (vm_compute; reflexivity).
  assert ("r" ≠ "") as Hne by discriminate.
  destruct (X21_room_handed_over "s" "t" "r" "tom" 3000 4000 watched_state
              (with_viewer "v" "bob" 2000 live_room) alice
              eq_refl Hne Hroom eq_refl eq_refl) as (Hout & _ & Hentry).
  - rewrite with_viewer_viewers. apply insert_non_empty.
  - split; [exact Hroom|]. split; [exact Hout|exact Hentry].
Defined.
